(** * Nutrition bot: day boundaries, conversation memory, intent routing

    A shallow embedding of the core of the bot: [timezone_utils.py] (the
    day-boundary calculator), [ai_service.py] (conversation memory, intent
    classifier, custom-food matcher, analysis), [database.py] (the
    repository) and the handlers of [handlers.py] that route an intent.

    Python values are embedded as follows.
    - [int] is [Z]; [float] is an IEEE 754 binary64 number, [spec_float]
      of the standard library with precision 53 and maximal exponent 1024.
    - [str] is the list of its code points ([list N]); [u "..."] decodes a
      UTF-8 literal.
    - An exception is a value of [exn]; code that may raise returns a
      [result].
    - The Unicode tables, the JSON decoder, the IANA zone database and the
      HTTP backend are not part of the repository: they are parameters
      (classes [Unicode], [Json], [Pytz], and the outcome of a request). *)

From Stdlib Require Import ZArith NArith List String Ascii Bool Lia.
From Stdlib Require Import Floats.SpecFloat.
From Stdlib Require Import Sorting.Sorted.
From stdpp Require Import base option list gmap strings.

Local Open Scope Z_scope.

(** ** Exceptions and results *)

Inductive exn_class :=
  | UnknownTimeZoneError | ValueError | OverflowError | KeyError | IndexError
  | TypeError | AttributeError | JSONDecodeError
  | ReqConnectionError | ReqReadTimeout | ReqHTTPError | ReqInvalidJSON.

(** An exception carries its class and its message ([str(e)]). *)
Record exn := Exn { exn_kind : exn_class; exn_msg : list N }.

(** [requests.RequestException] and its subclasses. *)
Definition is_RequestException (c : exn_class) : bool :=
  match c with
  | ReqConnectionError | ReqReadTimeout | ReqHTTPError | ReqInvalidJSON => true
  | _ => false
  end.

(** [json.JSONDecodeError]; the error of [response.json()] derives from it
    as well as from [RequestException]. *)
Definition is_JSONDecodeError (c : exn_class) : bool :=
  match c with
  | JSONDecodeError | ReqInvalidJSON => true
  | _ => false
  end.

Inductive result (A : Type) :=
  | Ok (a : A)
  | Raise (e : exn).
Arguments Ok {A} a.
Arguments Raise {A} e.

#[global] Instance result_ret : MRet result := @Ok.
#[global] Instance result_bind : MBind result :=
  fun A B f m => match m with Ok a => f a | Raise e => Raise e end.

Definition raise {A} (c : exn_class) : result A := Raise (Exn c []).

Definition is_Ok {A} (r : result A) : bool :=
  match r with Ok _ => true | Raise _ => false end.

(** ** Text *)

Abbreviation pystr := (list N).

Fixpoint utf8_decode (bs : list N) : list N :=
  match bs with
  | [] => []
  | b :: r =>
      if (b <? 128)%N then b :: utf8_decode r
      else if (b <? 224)%N then
        match r with
        | b2 :: r' => ((b mod 32) * 64 + b2 mod 64)%N :: utf8_decode r'
        | _ => []
        end
      else if (b <? 240)%N then
        match r with
        | b2 :: b3 :: r' =>
            ((b mod 16) * 4096 + (b2 mod 64) * 64 + b3 mod 64)%N :: utf8_decode r'
        | _ => []
        end
      else
        match r with
        | b2 :: b3 :: b4 :: r' =>
            ((b mod 8) * 262144 + (b2 mod 64) * 4096 + (b3 mod 64) * 64 + b4 mod 64)%N
              :: utf8_decode r'
        | _ => []
        end
  end.

(** [u "текст"]: the code points of a UTF-8 literal. *)
Definition u (s : string) : list N :=
  utf8_decode (map N_of_ascii (list_ascii_of_string s)).
Arguments u : simpl never.

(** The character tables of the interpreter: [str.lower], the white space
    of [str.strip] and of the pattern [\s], and the decimal digits of the
    pattern [\d], of [int] and of [float]. *)
Class Unicode := {
  str_lower : list N -> list N;
  isspace : N -> bool;
  decimal : N -> option Z;
}.

Definition eqb_str (a b : list N) : bool := bool_decide (a = b).

Fixpoint startswith (p s : list N) : bool :=
  match p, s with
  | [], _ => true
  | _ :: _, [] => false
  | a :: p', b :: s' => (a =? b)%N && startswith p' s'
  end.

(** [p in s] on strings. *)
Fixpoint contains (p s : list N) : bool :=
  startswith p s ||
  match s with
  | [] => false
  | _ :: s' => contains p s'
  end.

Section Strip.
Context `{Unicode}.

Fixpoint lstrip (s : list N) : list N :=
  match s with
  | c :: s' => if isspace c then lstrip s' else s
  | [] => []
  end.

Definition rstrip (s : list N) : list N := rev (lstrip (rev s)).

(** [s.strip()] *)
Definition strip (s : list N) : list N := rstrip (lstrip s).
End Strip.

(** [str(n)] for an integer. *)
Fixpoint digits_of_pos_fuel (fuel : nat) (n : Z) (acc : list N) : list N :=
  match fuel with
  | O => acc
  | S fuel' =>
      let acc' := Z.to_N (48 + n mod 10) :: acc in
      if n <? 10 then acc' else digits_of_pos_fuel fuel' (n / 10) acc'
  end.

Definition str_of_nonneg (n : Z) : list N :=
  digits_of_pos_fuel (S (Z.to_nat (Z.log2 n))) n [].

Definition str_of_int (n : Z) : list N :=
  if n <? 0 then 45%N :: str_of_nonneg (- n) else str_of_nonneg n.

(** [n] written with at least [w] digits, as [%02d] and [%04d] do. *)
Definition zero_pad (w : nat) (n : Z) : list N :=
  let ds := str_of_nonneg n in
  replicate (w - length ds)%nat 48%N ++ ds.
Arguments str_of_int : simpl never.
Arguments zero_pad : simpl never.


(** ** Calendar: the proleptic Gregorian ordinal of [datetime]

    Day 1 is 0001-01-01.  The functions follow the module [datetime]
    ([_days_before_year], [_days_in_month], [_ymd2ord], [_ord2ymd]). *)

Definition is_leap (y : Z) : bool :=
  (y mod 4 =? 0) && (negb (y mod 100 =? 0) || (y mod 400 =? 0)).

Definition days_before_year (y : Z) : Z :=
  let y1 := y - 1 in y1 * 365 + y1 / 4 - y1 / 100 + y1 / 400.

Definition DAYS_IN_MONTH : list Z := [31; 28; 31; 30; 31; 30; 31; 31; 30; 31; 30; 31].
Definition DAYS_BEFORE_MONTH : list Z :=
  [0; 31; 59; 90; 120; 151; 181; 212; 243; 273; 304; 334].

Definition days_in_month (y m : Z) : Z :=
  if (m =? 2) && is_leap y then 29
  else nth (Z.to_nat (m - 1)) DAYS_IN_MONTH 0.

Definition days_before_month (y m : Z) : Z :=
  nth (Z.to_nat (m - 1)) DAYS_BEFORE_MONTH 0
  + (if (m >? 2) && is_leap y then 1 else 0).

Definition ymd2ord (y m d : Z) : Z :=
  days_before_year y + days_before_month y m + d.

Definition ord2ymd (ordinal : Z) : Z * Z * Z :=
  let n := ordinal - 1 in
  let n400 := n / 146097 in
  let n := n mod 146097 in
  let n100 := n / 36524 in
  let n := n mod 36524 in
  let n4 := n / 1461 in
  let n := n mod 1461 in
  let n1 := n / 365 in
  let n := n mod 365 in
  let year := n400 * 400 + 1 + n100 * 100 + n4 * 4 + n1 in
  if (n1 =? 4) || (n100 =? 4) then (year - 1, 12, 31)
  else
    let leapyear := (n1 =? 3) && (negb (n4 =? 24) || (n100 =? 3)) in
    let month := Z.shiftr (n + 50) 5 in
    let preceding :=
      nth (Z.to_nat (month - 1)) DAYS_BEFORE_MONTH 0
      + (if (month >? 2) && leapyear then 1 else 0) in
    if preceding >? n then
      let month' := month - 1 in
      let preceding' :=
        preceding - (nth (Z.to_nat (month' - 1)) DAYS_IN_MONTH 0
                     + (if (month' =? 2) && leapyear then 1 else 0)) in
      (year, month', n - preceding' + 1)
    else (year, month, n - preceding + 1).

Definition MINYEAR : Z := 1.
Definition MAXYEAR : Z := 9999.
Definition MAXORDINAL : Z := 3652059.

(** A naive [datetime] is the number of seconds from the midnight that
    opens ordinal 0: [ordinal * 86400 + hour * 3600 + minute * 60 + second].
    Microseconds do not matter to the code modelled and are left out. *)
Definition dt_ordinal (wall : Z) : Z := wall / 86400.
Definition dt_hour (wall : Z) : Z := (wall mod 86400) / 3600.
Definition dt_make (y m d hh mm ss : Z) : Z :=
  ymd2ord y m d * 86400 + hh * 3600 + mm * 60 + ss.

(** The values a [datetime] can hold: years 1 to 9999. *)
Definition representable (wall : Z) : bool :=
  (1 <=? dt_ordinal wall) && (dt_ordinal wall <=? MAXORDINAL).

(** [dt + timedelta(seconds)]: wall-clock arithmetic that keeps the
    [tzinfo]; raises [OverflowError] outside the range. *)
Definition dt_add_seconds (wall delta : Z) : result Z :=
  if representable (wall + delta) then Ok (wall + delta) else raise OverflowError.

(** [strftime('%Y-%m-%d')] of the date with the given ordinal. *)
Definition strftime_ymd (ordinal : Z) : list N :=
  let '(y, m, d) := ord2ymd ordinal in
  zero_pad 4 y ++ [45%N] ++ zero_pad 2 m ++ [45%N] ++ zero_pad 2 d.
Arguments strftime_ymd : simpl never.

(** The POSIX time 0 is 1970-01-01T00:00:00Z. *)
Definition EPOCH_WALL : Z := 719163 * 86400.

(** *** [datetime.strptime(s, '%Y-%m-%d')]

    [_strptime] compiles the format to the pattern
    [(?P<Y>\d\d\d\d)-(?P<m>1[0-2]|0[1-9]|[1-9])-(?P<d>3[0-1]|[1-2]\d|0[1-9]|[1-9]| [1-9])],
    matches it at the start of the string, rejects a match that leaves
    text over, and builds the date, which checks the year and the day. *)
Section Strptime.
Context `{Unicode}.

Definition lit_digit (lo hi : Z) (c : N) : option Z :=
  let v := Z.of_N c - 48 in
  if (lo <=? v) && (v <=? hi) then Some v else None.

(** Each alternative consumes a prefix and yields its value. *)
Definition two (f g : N -> option Z) (s : list N) : option (Z * list N) :=
  match s with
  | a :: b :: r =>
      match f a, g b with
      | Some x, Some y => Some (10 * x + y, r)
      | _, _ => None
      end
  | _ => None
  end.

Definition one (f : N -> option Z) (s : list N) : option (Z * list N) :=
  match s with
  | a :: r => match f a with Some x => Some (x, r) | None => None end
  | _ => None
  end.

Definition space_then (f : N -> option Z) (s : list N) : option (Z * list N) :=
  match s with
  | 32%N :: a :: r => match f a with Some x => Some (x, r) | None => None end
  | _ => None
  end.

Definition month_alts : list (list N -> option (Z * list N)) :=
  [ two (lit_digit 1 1) (lit_digit 0 2);
    two (lit_digit 0 0) (lit_digit 1 9);
    one (lit_digit 1 9) ].

Definition day_alts : list (list N -> option (Z * list N)) :=
  [ two (lit_digit 3 3) (lit_digit 0 1);
    two (lit_digit 1 2) decimal;
    two (lit_digit 0 0) (lit_digit 1 9);
    one (lit_digit 1 9);
    space_then (lit_digit 1 9) ].

(** The first alternative, in order, whose continuation matches. *)
Fixpoint first_alt {A} (alts : list (list N -> option (Z * list N)))
    (k : Z -> list N -> option A) (s : list N) : option A :=
  match alts with
  | [] => None
  | alt :: alts' =>
      match alt s with
      | Some (v, r) =>
          match k v r with
          | Some a => Some a
          | None => first_alt alts' k s
          end
      | None => first_alt alts' k s
      end
  end.

Definition expect_dash {A} (k : list N -> option A) (s : list N) : option A :=
  match s with
  | 45%N :: r => k r
  | _ => None
  end.

Definition year_group (s : list N) : option (Z * list N) :=
  match two decimal decimal s with
  | Some (hi, r) =>
      match two decimal decimal r with
      | Some (lo, r') => Some (100 * hi + lo, r')
      | None => None
      end
  | None => None
  end.

(** [-(?P<m>...)-(?P<d>...)] *)
Definition month_day_groups (s : list N) : option (Z * Z * list N) :=
  expect_dash
    (first_alt month_alts (fun m =>
       expect_dash (first_alt day_alts (fun d r' => Some (m, d, r')))))
    s.

(** The groups of the match and the text left over. *)
Definition match_ymd (s : list N) : option (Z * Z * Z * list N) :=
  match year_group s with
  | Some (y, r) =>
      match month_day_groups r with
      | Some (m, d, r') => Some (y, m, d, r')
      | None => None
      end
  | None => None
  end.

(** The parsed [datetime], at midnight. *)
Definition strptime_ymd (s : list N) : result Z :=
  match match_ymd s with
  | Some (y, m, d, []) =>
      if (MINYEAR <=? y) && (d <=? days_in_month y m)
      then Ok (dt_make y m d 0 0 0)
      else raise ValueError
  | _ => raise ValueError
  end.
End Strptime.

(** ** timezone_utils.py *)

(** A zone of [pytz].  [utcoffset_at] is the offset, in seconds, in force
    at a UTC time (what [fromutc] adds); [localize_offset] is the offset
    that [localize] (with its default [is_dst=False]) gives to a naive local
    time.  Both take the time as a naive [datetime]. *)
Record tzinfo := {
  utcoffset_at : Z -> Z;
  localize_offset : Z -> Z;
}.

(** The zone database: [pytz.timezone(name)] finds a zone or raises
    [UnknownTimeZoneError]. *)
Class Pytz := { pytz_zone : list N -> option tzinfo }.

(** [try: body except <classes>: handler] *)
Definition try_except {A} (body : result A) (catches : exn_class -> bool)
    (handler : exn -> result A) : result A :=
  match body with
  | Ok a => Ok a
  | Raise e => if catches (exn_kind e) then handler e else Raise e
  end.

Definition is_UnknownTimeZoneError (c : exn_class) : bool :=
  match c with UnknownTimeZoneError => true | _ => false end.

(** An aware [datetime]: the local wall time and the offset of its
    [tzinfo]. *)
Record aware := { wall : Z; utcoffset : Z }.

Definition TIMEZONE_ALIASES : gmap (list N) (list N) :=
  list_to_map
    [ (u "мск", u "Europe/Moscow"); (u "msk", u "Europe/Moscow");
      (u "москва", u "Europe/Moscow"); (u "moscow", u "Europe/Moscow");
      (u "спб", u "Europe/Moscow"); (u "питер", u "Europe/Moscow");
      (u "дубай", u "Asia/Dubai"); (u "dubai", u "Asia/Dubai");
      (u "dubay", u "Asia/Dubai"); (u "dxb", u "Asia/Dubai");
      (u "uae", u "Asia/Dubai"); (u "оаэ", u "Asia/Dubai");
      (u "алматы", u "Asia/Almaty"); (u "almaty", u "Asia/Almaty");
      (u "астана", u "Asia/Almaty"); (u "astana", u "Asia/Almaty");
      (u "utc", u "UTC"); (u "gmt", u "UTC");
      (u "лондон", u "Europe/London"); (u "london", u "Europe/London");
      (u "нью-йорк", u "America/New_York"); (u "new_york", u "America/New_York");
      (u "ny", u "America/New_York");
      (u "токио", u "Asia/Tokyo"); (u "tokyo", u "Asia/Tokyo") ].

Section TimezoneUtils.
Context `{Unicode} `{Pytz}.

Definition pytz_timezone (zone : list N) : result tzinfo :=
  match pytz_zone zone with
  | Some tz => Ok tz
  | None => raise UnknownTimeZoneError
  end.

(** [datetime.now(tz)] when the clock reads the POSIX time [t]. *)
Definition datetime_now (tz : tzinfo) (t : Z) : result aware :=
  let utc := EPOCH_WALL + t in
  if representable utc then
    local ← dt_add_seconds utc (utcoffset_at tz utc);
    Ok {| wall := local; utcoffset := utcoffset_at tz utc |}
  else raise ValueError.

(** [tz.localize(dt)] *)
Definition localize (tz : tzinfo) (naive : Z) : aware :=
  {| wall := naive; utcoffset := localize_offset tz naive |}.

(** [dt - timedelta(days=n)] on an aware value: the wall time moves, the
    [tzinfo] stays. *)
Definition aware_sub_days (dt : aware) (n : Z) : result aware :=
  w ← dt_add_seconds (wall dt) (- (n * 86400));
  Ok {| wall := w; utcoffset := utcoffset dt |}.

(** [dt.astimezone(pytz.UTC)] *)
Definition astimezone_utc (dt : aware) : result aware :=
  w ← dt_add_seconds (wall dt) (- utcoffset dt);
  Ok {| wall := w; utcoffset := 0 |}.

(** [dt.replace(hour=h)] *)
Definition replace_hour (naive h : Z) : result Z :=
  if (0 <=? h) && (h <=? 23)
  then Ok (dt_ordinal naive * 86400 + h * 3600 + naive mod 3600)
  else raise ValueError.

Definition normalize_timezone (tz_input : list N) : result (list N) :=
  let tz_lower := strip (str_lower tz_input) in
  match TIMEZONE_ALIASES !! tz_lower with
  | Some zone => Ok zone
  | None =>
      try_except
        (_ ← pytz_timezone tz_input; Ok tz_input)
        is_UnknownTimeZoneError
        (fun _ => Ok (u "UTC"))
  end.

(** The clock is an argument: [t] is the POSIX time at the call. *)
Definition get_current_date_for_user (timezone : list N) (day_end_hour : Z)
    (t : Z) : result (list N) :=
  tz ← pytz_timezone timezone;
  now ← datetime_now tz t;
  if dt_hour (wall now) <? day_end_hour then
    yesterday ← aware_sub_days now 1;
    Ok (strftime_ymd (dt_ordinal (wall yesterday)))
  else Ok (strftime_ymd (dt_ordinal (wall now))).

Definition get_relative_date (relative_to timezone : list N) (day_end_hour : Z)
    (t : Z) : result (list N) :=
  tz ← pytz_timezone timezone;
  now ← datetime_now tz t;
  logical_today ←
    (if dt_hour (wall now) <? day_end_hour then aware_sub_days now 1 else Ok now);
  if eqb_str relative_to (u "today") then
    Ok (strftime_ymd (dt_ordinal (wall logical_today)))
  else if eqb_str relative_to (u "yesterday") then
    yesterday ← aware_sub_days logical_today 1;
    Ok (strftime_ymd (dt_ordinal (wall yesterday)))
  else if eqb_str relative_to (u "tomorrow") then
    tomorrow ← aware_sub_days logical_today (-1);
    Ok (strftime_ymd (dt_ordinal (wall tomorrow)))
  else Ok (strftime_ymd (dt_ordinal (wall logical_today))).

Definition get_day_start_end (date_str timezone : list N) (day_end_hour : Z)
    : result (aware * aware) :=
  tz ← pytz_timezone timezone;
  date ← strptime_ymd date_str;
  at_hour ← replace_hour date day_end_hour;
  start_local ← aware_sub_days (localize tz at_hour) 1;
  at_hour' ← replace_hour date day_end_hour;
  let end_local := localize tz at_hour' in
  start_utc ← astimezone_utc start_local;
  end_utc ← astimezone_utc end_local;
  Ok (start_utc, end_utc).
End TimezoneUtils.

(** *** A small instance of the parameters, for the examples

    The tables of Basic Latin and Cyrillic, and the zones of the aliases
    with a fixed offset (Moscow has been at +03:00 since 2014-10-26). *)

Definition lower_char (c : N) : N :=
  if ((65 <=? c) && (c <=? 90))%N then (c + 32)%N
  else if ((1040 <=? c) && (c <=? 1071))%N then (c + 32)%N
  else if ((1024 <=? c) && (c <=? 1039))%N then (c + 80)%N
  else c.

Definition isspace_char (c : N) : bool :=
  ((9 <=? c) && (c <=? 13))%N || ((28 <=? c) && (c <=? 32))%N
  || (c =? 133)%N || (c =? 160)%N || (c =? 5760)%N
  || ((8192 <=? c) && (c <=? 8202))%N || (c =? 8232)%N || (c =? 8233)%N
  || (c =? 8239)%N || (c =? 8287)%N || (c =? 12288)%N.

Definition decimal_char (c : N) : option Z :=
  if ((48 <=? c) && (c <=? 57))%N then Some (Z.of_N c - 48) else None.

Definition basic_unicode : Unicode :=
  {| str_lower := map lower_char; isspace := isspace_char; decimal := decimal_char |}.

Definition fixed_offset (seconds : Z) : tzinfo :=
  {| utcoffset_at := fun _ => seconds; localize_offset := fun _ => seconds |}.

Definition fixed_zones : Pytz :=
  {| pytz_zone := fun zone =>
       if eqb_str zone (u "UTC") then Some (fixed_offset 0)
       else if eqb_str zone (u "Europe/Moscow") then Some (fixed_offset 10800)
       else if eqb_str zone (u "Asia/Dubai") then Some (fixed_offset 14400)
       else if eqb_str zone (u "Asia/Tokyo") then Some (fixed_offset 32400)
       else None |}.

(** ** Numbers: [float] as binary64 *)

Abbreviation float := spec_float.

Definition fmul : float -> float -> float := SFmul 53 1024.
Definition fadd : float -> float -> float := SFadd 53 1024.
Definition fdiv : float -> float -> float := SFdiv 53 1024.

(** [float(n)] for an integer: the nearest binary64, ties to even;
    [OverflowError] when it is not finite. *)
Definition float_of_int (n : Z) : result float :=
  match binary_normalize 53 1024 n 0 false with
  | S754_infinity _ => Raise (Exn OverflowError (u "int too large to convert to float"))
  | x => Ok x
  end.

(** [int(x)] for a float: truncation towards zero. *)
Definition int_of_float (x : float) : result Z :=
  match x with
  | S754_zero _ => Ok 0
  | S754_infinity _ =>
      Raise (Exn OverflowError (u "cannot convert float infinity to integer"))
  | S754_nan => Raise (Exn ValueError (u "cannot convert float NaN to integer"))
  | S754_finite s m e =>
      let a := if 0 <=? e then Z.pos m * 2 ^ e else Z.pos m / 2 ^ (- e) in
      Ok (if s then - a else a)
  end.

(** The integer nearest to [n / d], ties to even ([0 <= n], [0 < d]). *)
Definition div_half_even (n d : Z) : Z :=
  let q := n / d in
  match 2 * (n mod d) ?= d with
  | Lt => q
  | Gt => q + 1
  | Eq => if Z.even q then q else q + 1
  end.

(** The binary64 nearest to [n / d] for positive integers. *)
Definition float_of_ratio (s : bool) (n d : positive) : float :=
  fdiv (S754_finite s n 0) (S754_finite false d 0).

(** [round(x, 1)]: the decimal with one digit nearest to the exact value of
    [x] (ties to even), converted back to the nearest binary64. *)
Definition round1 (x : float) : float :=
  match x with
  | S754_finite s m e =>
      let tenths :=
        if 0 <=? e then 10 * Z.pos m * 2 ^ e
        else div_half_even (10 * Z.pos m) (2 ^ (- e)) in
      match tenths with
      | Z.pos p => float_of_ratio s p 10
      | _ => S754_zero s
      end
  | _ => x
  end.

(** [round(x)]: the nearest integer, ties to even. *)
Definition round0 (x : float) : result Z :=
  match x with
  | S754_finite s m e =>
      let a := if 0 <=? e then Z.pos m * 2 ^ e
               else div_half_even (Z.pos m) (2 ^ (- e)) in
      Ok (if s then - a else a)
  | other => int_of_float other
  end.
Arguments fmul : simpl never.
Arguments fadd : simpl never.
Arguments fdiv : simpl never.
Arguments float_of_int : simpl never.
Arguments int_of_float : simpl never.
Arguments round1 : simpl never.
Arguments round0 : simpl never.

(** ** Dynamic values: what [json.loads] returns and what the dataclasses
    hold *)

#[local] Set Warnings "-register-all".
Inductive pyval :=
  | VNone
  | VBool (b : bool)
  | VInt (n : Z)
  | VFloat (x : float)
  | VStr (s : list N)
  | VList (l : list pyval)
  | VDict (d : list (list N * pyval)).

(** A [dict] with string keys, in insertion order, keys distinct. *)
Abbreviation pydict := (list (list N * pyval)).

Fixpoint dict_lookup (d : pydict) (k : list N) : option pyval :=
  match d with
  | [] => None
  | (k', v) :: d' => if eqb_str k' k then Some v else dict_lookup d' k
  end.

(** [d[k] = v] *)
Fixpoint dict_set (d : pydict) (k : list N) (v : pyval) : pydict :=
  match d with
  | [] => [(k, v)]
  | (k', v') :: d' =>
      if eqb_str k' k then (k', v) :: d' else (k', v') :: dict_set d' k v
  end.

(** [d.update(e)] *)
Definition dict_update (d e : pydict) : pydict :=
  fold_left (fun acc kv => dict_set acc (fst kv) (snd kv)) e d.

(** [bool(v)] *)
Definition truthy (v : pyval) : bool :=
  match v with
  | VNone => false
  | VBool b => b
  | VInt n => negb (n =? 0)
  | VFloat (S754_zero _) => false
  | VFloat _ => true
  | VStr s => negb (bool_decide (s = []))
  | VList l => match l with [] => false | _ => true end
  | VDict d => match d with [] => false | _ => true end
  end.

Definition type_name (v : pyval) : list N :=
  match v with
  | VNone => u "NoneType"
  | VBool _ => u "bool"
  | VInt _ => u "int"
  | VFloat _ => u "float"
  | VStr _ => u "str"
  | VList _ => u "list"
  | VDict _ => u "dict"
  end.

(** The builtins that are used and not modelled in full: the JSON decoder
    and the text of a value that is not a string ([str(v)], [repr(v)]). *)
Class Builtins := {
  json_loads : list N -> result pyval;
  py_str : pyval -> list N;
}.

(** [f"{v}"] *)
Definition format_value `{Builtins} (v : pyval) : list N :=
  match v with
  | VStr s => s
  | VInt n => str_of_int n
  | other => py_str other
  end.

Definition no_attribute {A} (v : pyval) (attr : list N) : result A :=
  Raise (Exn AttributeError
           (u "'" ++ type_name v ++ u "' object has no attribute '" ++ attr ++ u "'")).

Definition not_subscriptable {A} (v : pyval) : result A :=
  Raise (Exn TypeError (u "'" ++ type_name v ++ u "' object is not subscriptable")).

(** [v[key]] for a string key. *)
Definition getitem_key (v : pyval) (key : list N) : result pyval :=
  match v with
  | VDict d =>
      match dict_lookup d key with
      | Some x => Ok x
      | None => Raise (Exn KeyError (u "'" ++ key ++ u "'"))
      end
  | VList _ =>
      Raise (Exn TypeError (u "list indices must be integers or slices, not str"))
  | VStr _ => Raise (Exn TypeError (u "string indices must be integers, not 'str'"))
  | other => not_subscriptable other
  end.

(** [v[0]] *)
Definition getitem_0 (v : pyval) : result pyval :=
  match v with
  | VList (x :: _) => Ok x
  | VList [] => Raise (Exn IndexError (u "list index out of range"))
  | VStr (c :: _) => Ok (VStr [c])
  | VStr [] => Raise (Exn IndexError (u "string index out of range"))
  | VDict _ => Raise (Exn KeyError (u "0"))
  | other => not_subscriptable other
  end.

(** [v.get(key, default)]: only a [dict] has the method. *)
Definition dict_get (v : pyval) (key : list N) (default : pyval) : result pyval :=
  match v with
  | VDict d => Ok (match dict_lookup d key with Some x => x | None => default end)
  | other => no_attribute other (u "get")
  end.

(** [a + b] on numbers, as [sum] uses it. *)
Definition py_add (a b : pyval) : result pyval :=
  let unsupported :=
    Raise (Exn TypeError
             (u "unsupported operand type(s) for +: '" ++ type_name a ++ u "' and '"
                ++ type_name b ++ u "'")) in
  let as_int v :=
    match v with VInt n => Some n | VBool b => Some (if b then 1 else 0) | _ => None end in
  match a, b with
  | VFloat x, VFloat y => Ok (VFloat (fadd x y))
  | VFloat x, _ =>
      match as_int b with
      | Some n => y ← float_of_int n; Ok (VFloat (fadd x y))
      | None => unsupported
      end
  | _, VFloat y =>
      match as_int a with
      | Some n => x ← float_of_int n; Ok (VFloat (fadd x y))
      | None => unsupported
      end
  | _, _ =>
      match as_int a, as_int b with
      | Some n, Some m => Ok (VInt (n + m))
      | _, _ => unsupported
      end
  end.

(** [sum(values)]: from the integer 0, left to right.  (CPython 3.12 and
    later compensate the rounding error of a run of floats.) *)
Fixpoint sum_from (acc : pyval) (values : list pyval) : result pyval :=
  match values with
  | [] => Ok acc
  | v :: values' => acc' ← py_add acc v; sum_from acc' values'
  end.

Definition py_sum (values : list pyval) : result pyval := sum_from (VInt 0) values.

(** ** More text: [split], and the quantity pattern of the matcher *)

(** [s.split(sep)] for a non-empty separator: [skip] counts the characters
    of a separator still to be passed over, [cur] is the piece being read,
    last character first. *)
Fixpoint split_aux (sep : list N) (skip : nat) (cur s : list N) : list (list N) :=
  match s with
  | [] => [rev cur]
  | c :: s' =>
      match skip with
      | S k => split_aux sep k cur s'
      | O =>
          if startswith sep s
          then rev cur :: split_aux sep (length sep - 1) [] s'
          else split_aux sep 0 (c :: cur) s'
      end
  end.

Definition split (sep s : list N) : list (list N) := split_aux sep 0 [] s.

(** [l[i]] for a list of strings. *)
Definition list_item (l : list (list N)) (i : nat) : result (list N) :=
  match l !! i with
  | Some x => Ok x
  | None => Raise (Exn IndexError (u "list index out of range"))
  end.

Section Quantity.
Context `{Unicode}.

Definition isdecimal (c : N) : bool :=
  match decimal c with Some _ => true | None => false end.

(** The length of the longest prefix made of characters in the class. *)
Fixpoint span (p : N -> bool) (s : list N) : nat :=
  match s with
  | c :: s' => if p c then S (span p s') else O
  | [] => O
  end.

(** [int(digits)] for a run of decimal characters. *)
Definition int_of_digits (digits : list N) : Z :=
  fold_left (fun acc c => 10 * acc + default 0 (decimal c)) digits 0.

(** [\s*KEY] at [rest], giving up white space from [w] characters down
    to none. *)
Fixpoint spaces_then_key (key rest : list N) (w : nat) : bool :=
  startswith key (drop w rest) ||
  match w with
  | O => false
  | S w' => spaces_then_key key rest w'
  end.

(** [(\d+)\s*KEY] at the start of [s], the group taking [d] digits, then
    fewer: the first group for which the rest of the pattern matches. *)
Fixpoint digits_then_key (key s : list N) (d : nat) : option (list N) :=
  match d with
  | O => None
  | S d' =>
      let rest := drop d s in
      if spaces_then_key key rest (span isspace rest) then Some (take d s)
      else digits_then_key key s d'
  end.

Definition match_quantity_here (key s : list N) : option (list N) :=
  digits_then_key key s (span isdecimal s).

(** [re.search(rf'(\d+)\s*{re.escape(key)}', text)]: group 1 of the
    leftmost match. *)
Fixpoint search_quantity (key text : list N) : option (list N) :=
  match match_quantity_here key text with
  | Some g => Some g
  | None =>
      match text with
      | [] => None
      | _ :: text' => search_quantity key text'
      end
  end.

(** [re.findall(r'\d+(?:\.\d+)?', s)[0]], split at the point: the digits
    before it and, when a point and digits follow, the digits after. *)
Fixpoint first_number (s : list N) : option (list N * list N) :=
  match s with
  | [] => None
  | c :: s' =>
      if isdecimal c then
        let n := span isdecimal s in
        let whole := take n s in
        match drop n s with
        | 46%N :: r =>
            if (0 <? span isdecimal r)%nat
            then Some (whole, take (span isdecimal r) r)
            else Some (whole, [])
        | _ => Some (whole, [])
        end
      else first_number s'
  end.

(** [re.findall(r'\d+', s)[0]] *)
Fixpoint first_integer (s : list N) : option (list N) :=
  match s with
  | [] => None
  | c :: s' =>
      if isdecimal c then Some (take (span isdecimal s) s) else first_integer s'
  end.

(** [float(text)] for the text of a match of [\d+(?:\.\d+)?]. *)
Definition float_of_number (whole frac : list N) : float :=
  match int_of_digits (whole ++ frac) with
  | Z.pos p => float_of_ratio false p (Z.to_pos (10 ^ Z.of_nat (length frac)))
  | _ => S754_zero false
  end.
End Quantity.

(** ** database.py *)

Module CustomFood.
(** The stored [name] and [aliases] are in lower case
    ([save_custom_food], [update_custom_food]); [aliases] is separated by
    commas. *)
Record t := {
  id : Z;
  user_id : Z;
  name : list N;
  aliases : list N;
  grams : Z;
  calories : float;
  protein : float;
  fat : float;
  carbs : float;
  created_at : option (list N);
}.
End CustomFood.

(** The keyword arguments of [update_custom_food]: [None] leaves the
    column as it is. *)
Module FoodUpdate.
Record t := {
  name : option (list N);
  aliases : option (list N);
  grams : option Z;
  calories : option float;
  protein : option float;
  fat : option float;
  carbs : option float;
}.
Definition empty : t :=
  {| name := None; aliases := None; grams := None; calories := None;
     protein := None; fat := None; carbs := None |}.
End FoodUpdate.

(** The parameters of the SELECT of [get_daily_summary]. *)
Record summary_query := {
  q_user_id : Z;
  q_date_str : list N;
  q_start_utc : aware;
  q_end_utc : aware;
}.

(** SQLite's [LIKE]: [%] is any run of characters, [_] any one character,
    and the letters A to Z match in either case. *)
Definition like_fold (c : N) : N :=
  if ((65 <=? c) && (c <=? 90))%N then (c + 32)%N else c.

Fixpoint like (pattern s : list N) : bool :=
  match pattern with
  | [] => match s with [] => true | _ => false end
  | 37%N :: pattern' =>
      (fix any (s : list N) : bool :=
         like pattern' s || match s with [] => false | _ :: s' => any s' end) s
  | 95%N :: pattern' =>
      match s with _ :: s' => like pattern' s' | [] => false end
  | c :: pattern' =>
      match s with
      | d :: s' => (like_fold c =? like_fold d)%N && like pattern' s'
      | [] => false
      end
  end.

(** Strings in code point order, the order of [ORDER BY name]. *)
Fixpoint str_leb (a b : list N) : bool :=
  match a, b with
  | [], _ => true
  | _ :: _, [] => false
  | x :: a', y :: b' => (x <? y)%N || ((x =? y)%N && str_leb a' b')
  end.

Fixpoint insert_by_name (f : CustomFood.t) (l : list CustomFood.t) : list CustomFood.t :=
  match l with
  | [] => [f]
  | g :: l' =>
      if str_leb (CustomFood.name g) (CustomFood.name f)
      then g :: insert_by_name f l'
      else f :: l
  end.

Section Repository.
Context `{Unicode} `{Pytz}.

(** The table [custom_foods], rows in the order of their ids. *)
Definition get_custom_foods (table : list CustomFood.t) (user_id : Z)
    : list CustomFood.t :=
  foldr insert_by_name []
    (filter (fun f => CustomFood.user_id f = user_id) table).

(** The first row of the user that matches (rows are visited in the
    order of their ids; the query has [LIMIT 1] and no [ORDER BY]). *)
Definition find_custom_food (table : list CustomFood.t) (user_id : Z)
    (query : list N) : option CustomFood.t :=
  let pattern := [37%N] ++ str_lower query ++ [37%N] in
  head (filter (fun f =>
                  CustomFood.user_id f = user_id
                  ∧ (like pattern (CustomFood.name f)
                     || like pattern (CustomFood.aliases f)) = true) table).

Definition apply_update (upd : FoodUpdate.t) (f : CustomFood.t) : CustomFood.t :=
  {| CustomFood.id := CustomFood.id f;
     CustomFood.user_id := CustomFood.user_id f;
     CustomFood.name :=
       match FoodUpdate.name upd with
       | Some s => str_lower s | None => CustomFood.name f end;
     CustomFood.aliases :=
       match FoodUpdate.aliases upd with
       | Some s => str_lower s | None => CustomFood.aliases f end;
     CustomFood.grams := default (CustomFood.grams f) (FoodUpdate.grams upd);
     CustomFood.calories := default (CustomFood.calories f) (FoodUpdate.calories upd);
     CustomFood.protein := default (CustomFood.protein f) (FoodUpdate.protein upd);
     CustomFood.fat := default (CustomFood.fat f) (FoodUpdate.fat upd);
     CustomFood.carbs := default (CustomFood.carbs f) (FoodUpdate.carbs upd);
     CustomFood.created_at := CustomFood.created_at f |}.

Definition targets (user_id food_id : Z) (f : CustomFood.t) : bool :=
  (CustomFood.id f =? food_id) && (CustomFood.user_id f =? user_id).

(** [update_custom_food]: the new table and whether a row changed. *)
Definition update_custom_food (table : list CustomFood.t) (user_id food_id : Z)
    (upd : FoodUpdate.t) : list CustomFood.t * bool :=
  match upd with
  | {| FoodUpdate.name := None; FoodUpdate.aliases := None;
       FoodUpdate.grams := None; FoodUpdate.calories := None;
       FoodUpdate.protein := None; FoodUpdate.fat := None;
       FoodUpdate.carbs := None |} => (table, false)
  | _ =>
      (map (fun f => if targets user_id food_id f then apply_update upd f else f) table,
       existsb (targets user_id food_id) table)
  end.

(** [get_daily_summary], up to the parameters of its SELECT: the
    aggregation of the rows is left out. *)
Definition get_daily_summary (user_id : Z) (date_str timezone : list N)
    (day_end_hour : Z) : result summary_query :=
  '(start_utc, end_utc) ← get_day_start_end date_str timezone day_end_hour;
  Ok {| q_user_id := user_id; q_date_str := date_str;
        q_start_utc := start_utc; q_end_utc := end_utc |}.
End Repository.

(** ** ai_service.py *)

Module NutritionItem.
Record t := {
  name : pyval;
  grams : pyval;
  calories : pyval;
  protein : pyval;
  fat : pyval;
  carbs : pyval;
}.
End NutritionItem.

Module NutritionAnalysis.
Record t := {
  items : list NutritionItem.t;
  total_calories : pyval;
  total_protein : pyval;
  total_fat : pyval;
  total_carbs : pyval;
  notes : pyval;
  error : pyval;
}.
End NutritionAnalysis.

(** A request to the model backend ([session.post] on
    [/chat/completions]), by the texts that fill its prompt: the intent
    prompt (model gpt-4.1-mini, temperature 0.1, 300 tokens, 10 seconds) or
    the analysis prompt (model gpt-4.1, 30 seconds). *)
Inductive request :=
  | IntentRequest (context input : list N)
  | AnalysisRequest (input : list N).

Record response := { status_code : Z; body : list N }.

(** What a call finds around it: the POSIX time, the zone of the server
    (for the naive [datetime.now()]) and the backend. *)
Record env := {
  clock : Z;
  server_zone : tzinfo;
  session_post : request -> result response;
}.

(** The state of the bot.  [posted], [update_calls] and [shown] record what
    was sent to the backend, which calls of [update_custom_food] were made
    and which texts were shown to the user, oldest first. *)
Record world := {
  conversation_memory : gmap Z (list pydict);
  custom_foods : list CustomFood.t;
  posted : list request;
  update_calls : list (Z * Z * FoodUpdate.t);
  shown : list (list N);
}.

Definition with_memory (m : gmap Z (list pydict)) (w : world) : world :=
  {| conversation_memory := m; custom_foods := custom_foods w; posted := posted w;
     update_calls := update_calls w; shown := shown w |}.
Definition with_custom_foods (t : list CustomFood.t) (w : world) : world :=
  {| conversation_memory := conversation_memory w; custom_foods := t; posted := posted w;
     update_calls := update_calls w; shown := shown w |}.
Definition with_posted (p : list request) (w : world) : world :=
  {| conversation_memory := conversation_memory w; custom_foods := custom_foods w;
     posted := p; update_calls := update_calls w; shown := shown w |}.
Definition with_update_calls (c : list (Z * Z * FoodUpdate.t)) (w : world) : world :=
  {| conversation_memory := conversation_memory w; custom_foods := custom_foods w;
     posted := posted w; update_calls := c; shown := shown w |}.
Definition with_shown (l : list (list N)) (w : world) : world :=
  {| conversation_memory := conversation_memory w; custom_foods := custom_foods w;
     posted := posted w; update_calls := update_calls w; shown := l |}.

(** Code that reads and changes the state and may raise.  What was done
    before an exception stays done. *)
Definition M (A : Type) : Type := world -> result A * world.

#[global] Instance M_ret : MRet M := fun A a w => (Ok a, w).
#[global] Instance M_bind : MBind M := fun A B k m w =>
  match m w with
  | (Ok a, w') => k a w'
  | (Raise e, w') => (Raise e, w')
  end.

Definition lift {A} (r : result A) : M A := fun w => (r, w).
Definition get_world : M world := fun w => (Ok w, w).
Definition modify (f : world -> world) : M unit := fun w => (Ok tt, f w).

(** [try: body except <classes> as e: handler e] *)
Definition try_M {A} (body : M A) (catches : exn_class -> bool)
    (handler : exn -> M A) : M A := fun w =>
  match body w with
  | (Ok a, w') => (Ok a, w')
  | (Raise e, w') => if catches (exn_kind e) then handler e w' else (Raise e, w')
  end.

Definition is_Exception (c : exn_class) : bool := true.

Definition join (sep : list N) (l : list (list N)) : list N :=
  match l with
  | [] => []
  | x :: l' => x ++ concat (map (fun y => sep ++ y) l')
  end.

(** [l[-k:]] *)
Definition slice_last {A} (k : Z) (l : list A) : list A :=
  if 0 <? k then drop (length l - Z.to_nat k) l
  else drop (Z.to_nat (- k)) l.

Definition isoformat (w : Z) : list N :=
  strftime_ymd (dt_ordinal w) ++ u "T" ++ zero_pad 2 (dt_hour w) ++ u ":"
    ++ zero_pad 2 ((w mod 3600) / 60) ++ u ":" ++ zero_pad 2 (w mod 60).
Arguments isoformat : simpl never.

(** The naive [datetime.now()]: the local time of the server. *)
Definition server_now (e : env) : Z :=
  let utc := EPOCH_WALL + clock e in utc + utcoffset_at (server_zone e) utc.

(** A user id as Python tests it: [None] and 0 are false. *)
Definition given (user_id : option Z) : option Z :=
  match user_id with
  | Some n => if n =? 0 then None else Some n
  | None => None
  end.

Definition _max_memory_size : nat := 10.

Definition post (e : env) (r : request) : M response := fun w =>
  (session_post e r, with_posted (posted w ++ [r]) w).

Definition raise_for_status (r : response) : result unit :=
  if (400 <=? status_code r) && (status_code r <? 500)
  then Raise (Exn ReqHTTPError (str_of_int (status_code r) ++ u " Client Error"))
  else if (500 <=? status_code r) && (status_code r <? 600)
  then Raise (Exn ReqHTTPError (str_of_int (status_code r) ++ u " Server Error"))
  else Ok tt.

Definition quoted (s : list N) : list N := [34%N] ++ s ++ [34%N].

Section AIService.
Context `{Unicode} `{Builtins}.

(** [response.json()] *)
Definition response_json (r : response) : result pyval :=
  match json_loads (body r) with
  | Ok v => Ok v
  | Raise e => Raise (Exn ReqInvalidJSON (exn_msg e))
  end.

(** [result["choices"][0]["message"]["content"]] *)
Definition message_content (res : pyval) : result pyval :=
  choices ← getitem_key res (u "choices");
  choice ← getitem_0 choices;
  message ← getitem_key choice (u "message");
  getitem_key message (u "content").

(** The [entry] of [_add_to_memory]. *)
Definition new_entry (e : env) (role content : list N) (extra : option pydict)
    : pydict :=
  let entry :=
    [ (u "role", VStr role); (u "content", VStr content);
      (u "timestamp", VStr (isoformat (server_now e))) ] in
  match extra with
  | Some (kv :: more) => dict_update entry (kv :: more)
  | _ => entry
  end.

Definition _add_to_memory (e : env) (user_id : Z) (role content : list N)
    (extra : option pydict) : M unit :=
  modify (fun w =>
    let memory := conversation_memory w in
    let memory :=
      match memory !! user_id with
      | Some _ => memory
      | None => <[user_id := []]> memory
      end in
    let turns := default [] (memory !! user_id) ++ [new_entry e role content extra] in
    let turns :=
      if (_max_memory_size <? length turns)%nat
      then slice_last (Z.of_nat _max_memory_size) turns
      else turns in
    with_memory (<[user_id := turns]> memory) w).

Definition context_line (msg : pydict) : result (list N) :=
  role ← getitem_key (VDict msg) (u "role");
  let role :=
    match role with
    | VStr r => if eqb_str r (u "user") then u "Пользователь" else u "Бот"
    | _ => u "Бот"
    end in
  content ← getitem_key (VDict msg) (u "content");
  content ←
    match content with
    | VStr s => Ok (VStr (take 100 s))
    | VList l => Ok (VList (take 100 l))
    | other => not_subscriptable other
    end;
  Ok (role ++ u ": " ++ format_value content).

Definition _get_memory_context (user_id : Z) (limit : Z) : M (list N) :=
  w ← get_world;
  match conversation_memory w !! user_id with
  | None => mret (u "(нет предыдущих сообщений)")
  | Some turns =>
      let messages := slice_last limit turns in
      context_lines ← lift (mapM context_line messages);
      mret (match context_lines with
            | [] => u "(нет предыдущих сообщений)"
            | _ => join [10%N] context_lines
            end)
  end.

Definition _extract_json (content : pyval) : result (list N) :=
  match content with
  | VStr s =>
      let content := strip s in
      if contains (u "```json") content then
        part ← list_item (split (u "```json") content) 1;
        part ← list_item (split (u "```") part) 0;
        Ok (strip part)
      else if contains (u "```") content then
        part ← list_item (split (u "```") content) 1;
        part ← list_item (split (u "```") part) 0;
        Ok (strip part)
      else Ok content
  | other => no_attribute other (u "strip")
  end.

Definition fallback_intent (text : list N) : pyval :=
  VDict [ (u "action", VStr (u "add_food")); (u "food_description", VStr text) ].

(** The [try] block of [detect_intent]. *)
Definition detect_intent_try (e : env) (text : list N) (user_id : option Z)
    : M pyval :=
  context ←
    match given user_id with
    | Some uid => _get_memory_context uid 5
    | None => mret (u "(нет контекста)")
    end;
  response ← post e (IntentRequest context text);
  _ ← lift (raise_for_status response);
  res ← lift (response_json response);
  content ← lift (message_content res);
  content ← lift (_extract_json content);
  intent ← lift (json_loads content);
  _ ←
    match given user_id with
    | Some uid =>
        action ← lift (dict_get intent (u "action") VNone);
        _add_to_memory e uid (u "user") text (Some [ (u "intent", action) ])
    | None => mret tt
    end;
  mret intent.

Definition detect_intent (e : env) (text : list N) (user_id : option Z) : M pyval :=
  try_M (detect_intent_try e text user_id) is_Exception
    (fun _ => mret (fallback_intent text)).

Definition add_bot_response_to_memory (e : env) (user_id : Z) (response : list N)
    (extra : option pydict) : M unit :=
  _add_to_memory e user_id (u "bot") response extra.

(** The item built in both branches of [_check_custom_foods]. *)
Definition scaled_item (food : CustomFood.t) (multiplier : Z)
    : result NutritionItem.t :=
  let scale (x : float) : result float :=
    m ← float_of_int multiplier; Ok (fmul x m) in
  calories ← scale (CustomFood.calories food);
  calories ← int_of_float calories;
  protein ← scale (CustomFood.protein food);
  fat ← scale (CustomFood.fat food);
  carbs ← scale (CustomFood.carbs food);
  Ok {| NutritionItem.name :=
          VStr (CustomFood.name food ++ u " (" ++ str_of_int (CustomFood.grams food)
                  ++ u "г × " ++ str_of_int multiplier ++ u ")");
        NutritionItem.grams := VInt (CustomFood.grams food * multiplier);
        NutritionItem.calories := VInt calories;
        NutritionItem.protein := VFloat (round1 protein);
        NutritionItem.fat := VFloat (round1 fat);
        NutritionItem.carbs := VFloat (round1 carbs) |}.

(** The multiplier read before [key]: the regular expression
    [(\d+)\s*key], and 1 when it finds nothing. *)
Definition multiplier_for (key text_lower : list N) : Z :=
  match search_quantity key text_lower with
  | Some digits => int_of_digits digits
  | None => 1
  end.

(** [[a.strip() for a in food.aliases.split(',') if a.strip()]] *)
Definition alias_list (food : CustomFood.t) : list (list N) :=
  filter (fun a => a ≠ []) (map strip (split (u ",") (CustomFood.aliases food))).

(** The name, or else the first alias, found in the text. *)
Definition matched_key (food : CustomFood.t) (text_lower : list N)
    : option (list N) :=
  if contains (CustomFood.name food) text_lower then Some (CustomFood.name food)
  else head (filter (fun a => contains a text_lower = true) (alias_list food)).

Fixpoint check_each (custom_foods : list CustomFood.t) (text_lower : list N)
    : result (list NutritionItem.t) :=
  match custom_foods with
  | [] => Ok []
  | food :: rest =>
      match matched_key food text_lower with
      | Some key =>
          item ← scaled_item food (multiplier_for key text_lower);
          found ← check_each rest text_lower;
          Ok (item :: found)
      | None => check_each rest text_lower
      end
  end.

(** [custom_foods] is what [repo.get_custom_foods(user_id)] returned. *)
Definition _check_custom_foods (text : list N) (custom_foods : list CustomFood.t)
    : result (list NutritionItem.t) :=
  match custom_foods with
  | [] => Ok []
  | _ => check_each custom_foods (str_lower text)
  end.

Definition failed_analysis (items : list NutritionItem.t) (error : list N)
    : NutritionAnalysis.t :=
  {| NutritionAnalysis.items := items;
     NutritionAnalysis.total_calories := VInt 0;
     NutritionAnalysis.total_protein := VInt 0;
     NutritionAnalysis.total_fat := VInt 0;
     NutritionAnalysis.total_carbs := VInt 0;
     NutritionAnalysis.notes := VNone;
     NutritionAnalysis.error := VStr error |}.

(** [for item in v] *)
Definition py_iter (v : pyval) : result (list pyval) :=
  match v with
  | VList l => Ok l
  | VStr s => Ok (map (fun c => VStr [c]) s)
  | VDict d => Ok (map (fun kv => VStr (fst kv)) d)
  | other =>
      Raise (Exn TypeError (u "'" ++ type_name other ++ u "' object is not iterable"))
  end.

Definition item_from_dict (item : pyval) : result NutritionItem.t :=
  name ← dict_get item (u "name") (VStr (u "Unknown"));
  grams ← dict_get item (u "grams") (VInt 0);
  calories ← dict_get item (u "calories") (VInt 0);
  protein ← dict_get item (u "protein") (VInt 0);
  fat ← dict_get item (u "fat") (VInt 0);
  carbs ← dict_get item (u "carbs") (VInt 0);
  Ok {| NutritionItem.name := name; NutritionItem.grams := grams;
        NutritionItem.calories := calories; NutritionItem.protein := protein;
        NutritionItem.fat := fat; NutritionItem.carbs := carbs |}.

Definition from_dict (data : pyval) : result NutritionAnalysis.t :=
  match data with
  | VDict d =>
      listed ← py_iter (default (VList []) (dict_lookup d (u "items")));
      items ← mapM item_from_dict listed;
      let total := default (VDict []) (dict_lookup d (u "total")) in
      total_calories ← dict_get total (u "calories") (VInt 0);
      total_protein ← dict_get total (u "protein") (VInt 0);
      total_fat ← dict_get total (u "fat") (VInt 0);
      total_carbs ← dict_get total (u "carbs") (VInt 0);
      Ok {| NutritionAnalysis.items := items;
            NutritionAnalysis.total_calories := total_calories;
            NutritionAnalysis.total_protein := total_protein;
            NutritionAnalysis.total_fat := total_fat;
            NutritionAnalysis.total_carbs := total_carbs;
            NutritionAnalysis.notes := default VNone (dict_lookup d (u "notes"));
            NutritionAnalysis.error := default VNone (dict_lookup d (u "error")) |}
  | other =>
      Ok (failed_analysis []
            (u "Invalid response format: expected dict, got " ++ type_name other))
  end.

(** The second half of [analyze]: the estimate of the model backend. *)
Definition analyze_with_model (e : env) (text : list N) : M NutritionAnalysis.t :=
  let zero := VInt 0 in
  try_M
    (try_M
       (try_M
          (response ← post e (AnalysisRequest text);
           _ ← lift (raise_for_status response);
           res ← lift (response_json response);
           content ← lift (message_content res);
           content ← lift (_extract_json content);
           let content := strip content in
           let content :=
             if startswith (quoted (u "items")) content
             then u "{" ++ quoted (u "items") ++ u ":" ++ drop 7 content
             else content in
           match json_loads content with
           | Ok data => lift (from_dict data)
           | Raise je =>
               if is_JSONDecodeError (exn_kind je) then
                 mret (failed_analysis
                         [ {| NutritionItem.name := VStr (take 50 text);
                              NutritionItem.grams := zero;
                              NutritionItem.calories := zero;
                              NutritionItem.protein := zero;
                              NutritionItem.fat := zero;
                              NutritionItem.carbs := zero |} ]
                         (u "JSON parse error: " ++ exn_msg je ++ u ". Raw: "
                            ++ take 200 content))
               else lift (Raise je)
           end)
          is_RequestException
          (fun ex => mret (failed_analysis [] (u "API error: " ++ exn_msg ex))))
       is_JSONDecodeError
       (fun _ => mret (failed_analysis [] (u "Failed to parse nutrition data"))))
    is_Exception
    (fun ex => mret (failed_analysis [] (u "Error: " ++ exn_msg ex))).

(** [repo] tells whether a repository was passed; its table of custom
    foods is in the state. *)
Definition analyze (e : env) (text : list N) (repo : bool) (user_id : option Z)
    : M NutritionAnalysis.t :=
  custom_items ←
    match repo, given user_id with
    | true, Some uid =>
        w ← get_world;
        lift (_check_custom_foods text (get_custom_foods (custom_foods w) uid))
    | _, _ => mret []
    end;
  match custom_items with
  | _ :: _ =>
      calories ← lift (py_sum (map NutritionItem.calories custom_items));
      protein ← lift (py_sum (map NutritionItem.protein custom_items));
      fat ← lift (py_sum (map NutritionItem.fat custom_items));
      carbs ← lift (py_sum (map NutritionItem.carbs custom_items));
      mret {| NutritionAnalysis.items := custom_items;
              NutritionAnalysis.total_calories := calories;
              NutritionAnalysis.total_protein := protein;
              NutritionAnalysis.total_fat := fat;
              NutritionAnalysis.total_carbs := carbs;
              NutritionAnalysis.notes := VStr (u "Из сохранённых продуктов ✓");
              NutritionAnalysis.error := VNone |}
  | [] => analyze_with_model e text
  end.
End AIService.

(** ** handlers.py *)

Definition field_mapping : gmap (list N) (list N) :=
  list_to_map
    [ (u "калории", u "calories"); (u "калорий", u "calories"); (u "ккал", u "calories");
      (u "белки", u "protein"); (u "белок", u "protein");
      (u "жиры", u "fat"); (u "жир", u "fat");
      (u "углеводы", u "carbs"); (u "углевод", u "carbs");
      (u "граммы", u "grams"); (u "грамм", u "grams"); (u "вес", u "grams");
      (u "название", u "name"); (u "имя", u "name");
      (u "псевдонимы", u "aliases"); (u "алиасы", u "aliases") ].

Definition valid_fields : list (list N) :=
  [ u "calories"; u "protein"; u "fat"; u "carbs"; u "grams"; u "name"; u "aliases" ].

Definition field_names_ru : gmap (list N) (list N) :=
  list_to_map
    [ (u "calories", u "калории"); (u "protein", u "белки"); (u "fat", u "жиры");
      (u "carbs", u "углеводы"); (u "grams", u "граммы"); (u "name", u "название");
      (u "aliases", u "псевдонимы") ].

Definition is_ValueError (c : exn_class) : bool :=
  match c with ValueError | JSONDecodeError | ReqInvalidJSON => true | _ => false end.

Section Handlers.
Context `{Unicode} `{Builtins} `{Pytz}.

(** [await processing_msg.edit_text(text, ...)] *)
Definition edit_text (text : list N) : M unit :=
  modify (fun w => with_shown (shown w ++ [text]) w).

(** [field_mapping.get(field.lower(), field.lower())] *)
Definition field_en (field : list N) : list N :=
  default (str_lower field) (field_mapping !! str_lower field).

(** The [try] block of [_edit_food_voice] that reads the new value. *)
Definition parsed_value (field_en : list N) (value : pyval) : result pyval :=
  let text := format_value value in
  let not_found :=
    Raise (Exn ValueError (u "Не найдено число в: " ++ text)) in
  if bool_decide (field_en ∈ [u "calories"; u "protein"; u "fat"; u "carbs"]) then
    match first_number text with
    | Some (whole, frac) => Ok (VFloat (float_of_number whole frac))
    | None => not_found
    end
  else if eqb_str field_en (u "grams") then
    match first_integer text with
    | Some digits => Ok (VInt (int_of_digits digits))
    | None => not_found
    end
  else Ok (VStr (strip text)).

(** [{field_en: parsed_value}] as keyword arguments. *)
Definition updates (field_en : list N) (parsed : pyval) : FoodUpdate.t :=
  let e := FoodUpdate.empty in
  match parsed with
  | VFloat x =>
      if eqb_str field_en (u "calories") then
        {| FoodUpdate.name := None; FoodUpdate.aliases := None; FoodUpdate.grams := None;
           FoodUpdate.calories := Some x; FoodUpdate.protein := None;
           FoodUpdate.fat := None; FoodUpdate.carbs := None |}
      else if eqb_str field_en (u "protein") then
        {| FoodUpdate.name := None; FoodUpdate.aliases := None; FoodUpdate.grams := None;
           FoodUpdate.calories := None; FoodUpdate.protein := Some x;
           FoodUpdate.fat := None; FoodUpdate.carbs := None |}
      else if eqb_str field_en (u "fat") then
        {| FoodUpdate.name := None; FoodUpdate.aliases := None; FoodUpdate.grams := None;
           FoodUpdate.calories := None; FoodUpdate.protein := None;
           FoodUpdate.fat := Some x; FoodUpdate.carbs := None |}
      else if eqb_str field_en (u "carbs") then
        {| FoodUpdate.name := None; FoodUpdate.aliases := None; FoodUpdate.grams := None;
           FoodUpdate.calories := None; FoodUpdate.protein := None;
           FoodUpdate.fat := None; FoodUpdate.carbs := Some x |}
      else e
  | VInt n =>
      if eqb_str field_en (u "grams") then
        {| FoodUpdate.name := None; FoodUpdate.aliases := None; FoodUpdate.grams := Some n;
           FoodUpdate.calories := None; FoodUpdate.protein := None;
           FoodUpdate.fat := None; FoodUpdate.carbs := None |}
      else e
  | VStr s =>
      if eqb_str field_en (u "name") then
        {| FoodUpdate.name := Some s; FoodUpdate.aliases := None; FoodUpdate.grams := None;
           FoodUpdate.calories := None; FoodUpdate.protein := None;
           FoodUpdate.fat := None; FoodUpdate.carbs := None |}
      else if eqb_str field_en (u "aliases") then
        {| FoodUpdate.name := None; FoodUpdate.aliases := Some s; FoodUpdate.grams := None;
           FoodUpdate.calories := None; FoodUpdate.protein := None;
           FoodUpdate.fat := None; FoodUpdate.carbs := None |}
      else e
  | _ => e
  end.

(** [self.repo.find_custom_food(user_id, query)] *)
Definition repo_find (user_id : Z) (query : pyval) : M (option CustomFood.t) :=
  match query with
  | VStr q =>
      w ← get_world;
      mret (find_custom_food (custom_foods w) user_id q)
  | other => lift (no_attribute other (u "lower"))
  end.

(** [self.repo.update_custom_food(user_id, food_id, **updates)] *)
Definition repo_update (user_id food_id : Z) (upd : FoodUpdate.t) : M bool :=
  fun w =>
    let '(table, changed) := update_custom_food (custom_foods w) user_id food_id upd in
    (Ok changed,
     with_update_calls (update_calls w ++ [(user_id, food_id, upd)])
       (with_custom_foods table w)).

Definition _edit_food_voice (e : env) (user_id : Z) (edit_params : pyval) : M unit :=
  food_name ← lift (dict_get edit_params (u "food_name") (VStr []));
  field ← lift (dict_get edit_params (u "field") (VStr []));
  value ← lift (dict_get edit_params (u "value") (VStr []));
  if negb (truthy food_name) || negb (truthy field) || negb (truthy value) then
    let error_msg := u "❌ Не понял что изменить. Попробуй так:
«измени овсянку на 160 калорий»
«поменяй в банане белки на 2 грамма»" in
    _ ← edit_text error_msg;
    add_bot_response_to_memory e user_id error_msg
      (Some [ (u "type", VStr (u "error")) ])
  else
    food ← repo_find user_id food_name;
    match food with
    | None =>
        let not_found_msg :=
          u "❌ Продукт «" ++ format_value food_name ++ u "» не найден.
Проверь список: /myfoods" in
        _ ← edit_text not_found_msg;
        add_bot_response_to_memory e user_id not_found_msg
          (Some [ (u "type", VStr (u "error")); (u "food_name", food_name) ])
    | Some food =>
        field_lower ←
          lift (match field with
                | VStr f => Ok f
                | other => no_attribute other (u "lower")
                end);
        let field_en := field_en field_lower in
        if negb (bool_decide (field_en ∈ valid_fields)) then
          edit_text
            (u "❌ Неизвестное поле: " ++ format_value field ++ u "
Доступные: калории, белки, жиры, углеводы, граммы, название, псевдонимы")
        else
          match parsed_value field_en value with
          | Raise ex =>
              if is_ValueError (exn_kind ex) then
                let val_error_msg :=
                  u "❌ Не удалось распознать значение: " ++ format_value value in
                _ ← edit_text val_error_msg;
                add_bot_response_to_memory e user_id val_error_msg
                  (Some [ (u "type", VStr (u "error")) ])
              else lift (Raise ex)
          | Ok parsed =>
              success ← repo_update user_id (CustomFood.id food) (updates field_en parsed);
              if success : bool then
                found ←
                  repo_find user_id
                    (if eqb_str field_en (u "name") then parsed else food_name);
                let updated_food := default food found in
                let success_msg :=
                  u "✅ *Обновлено!*

🍎 *" ++ CustomFood.name updated_food ++ u "* ("
                    ++ str_of_int (CustomFood.grams updated_food) ++ u "г)
🔥 " ++ format_value (VFloat (CustomFood.calories updated_food)) ++ u " ккал | 🥩 "
                    ++ format_value (VFloat (CustomFood.protein updated_food)) ++ u "г | 🥑 "
                    ++ format_value (VFloat (CustomFood.fat updated_food)) ++ u "г | 🍞 "
                    ++ format_value (VFloat (CustomFood.carbs updated_food)) ++ u "г

Изменено: " ++ default field_en (field_names_ru !! field_en) ++ u " = "
                    ++ format_value parsed in
                _ ← edit_text success_msg;
                add_bot_response_to_memory e user_id success_msg
                  (Some [ (u "type", VStr (u "edit_food"));
                          (u "food_name", VStr (CustomFood.name updated_food));
                          (u "field", VStr field_en); (u "value", parsed) ])
              else
                let fail_msg :=
                  u "❌ Не удалось обновить. Попробуй через команду: /editfood" in
                _ ← edit_text fail_msg;
                add_bot_response_to_memory e user_id fail_msg
                  (Some [ (u "type", VStr (u "error")) ])
          end
    end.

(** [_show_today], up to its call of [get_daily_summary]: the date it
    asks for and the range that the repository selects.  The report made
    from the rows is left out. *)
Definition _show_today (e : env) (user_id : Z) : result summary_query :=
  let today_str := strftime_ymd (dt_ordinal (server_now e)) in
  get_daily_summary user_id today_str (u "UTC") 4.
End Handlers.

(** The zone and day end of a user, as [get_user_settings] returns them. *)
Record day_settings := { timezone : list N; day_end_hour : Z }.

(** *** Values for the examples *)

Definition f64 (n : Z) : float := binary_normalize 53 1024 n 0 false.

(** [n / 10 ^ k] as [float] reads it from its decimal text. *)
Definition decimal_literal (n : positive) (k : Z) : float :=
  float_of_ratio false n (Z.to_pos (10 ^ k)).

(** A decoder that knows the replies used in the examples and refuses any
    other text. *)
Definition example_reply_text : list N :=
  u "{" ++ quoted (u "action") ++ u ": " ++ quoted (u "show_summary") ++ u ", "
    ++ quoted (u "date") ++ u ": " ++ quoted (u "today") ++ u "}".

Definition example_intent : pyval :=
  VDict [ (u "action", VStr (u "show_summary")); (u "date", VStr (u "today")) ].

Definition example_envelope : list N := u "envelope".

Definition example_builtins : Builtins :=
  {| json_loads := fun s =>
       if eqb_str s example_reply_text then Ok example_intent
       else if eqb_str s example_envelope then
         Ok (VDict [ (u "choices",
                      VList [ VDict [ (u "message",
                                       VDict [ (u "content", VStr example_reply_text) ]) ] ]) ])
       else Raise (Exn JSONDecodeError (u "Expecting value: line 1 column 1 (char 0)"));
     py_str := fun v => match v with
                        | VFloat x => u "<float>"
                        | _ => u "<object>"
                        end |}.

Definition empty_world : world :=
  {| conversation_memory := ∅; custom_foods := []; posted := [];
     update_calls := []; shown := [] |}.

Definition banana : CustomFood.t :=
  {| CustomFood.id := 1; CustomFood.user_id := 7;
     CustomFood.name := u "банан"; CustomFood.aliases := u "";
     CustomFood.grams := 120; CustomFood.calories := f64 105;
     CustomFood.protein := decimal_literal 13 1; CustomFood.fat := decimal_literal 4 1;
     CustomFood.carbs := f64 27; CustomFood.created_at := None |}.

(** Two servings of the banana, as the matcher builds the item. *)
Definition banana_twice : NutritionItem.t :=
  {| NutritionItem.name := VStr (u "банан (120г × 2)");
     NutritionItem.grams := VInt 240;
     NutritionItem.calories := VInt 210;
     NutritionItem.protein := VFloat (round1 (fmul (CustomFood.protein banana) (f64 2)));
     NutritionItem.fat := VFloat (round1 (fmul (CustomFood.fat banana) (f64 2)));
     NutritionItem.carbs := VFloat (round1 (fmul (CustomFood.carbs banana) (f64 2))) |}.

Definition cheese : CustomFood.t :=
  {| CustomFood.id := 2; CustomFood.user_id := 7;
     CustomFood.name := u "сыр"; CustomFood.aliases := u "cheese, сырок";
     CustomFood.grams := 30; CustomFood.calories := decimal_literal 999 1;
     CustomFood.protein := f64 7; CustomFood.fat := f64 8;
     CustomFood.carbs := f64 0; CustomFood.created_at := None |}.

(** ** Vocabulary of the statements *)

(** A naive local time of a zone as a UTC time. *)
Definition to_utc (tz : tzinfo) (naive : Z) : Z := naive - localize_offset tz naive.

(** The local time at which [datetime.now(tz)] stands at POSIX time [t]. *)
Definition local_now (tz : tzinfo) (t : Z) : Z :=
  EPOCH_WALL + t + utcoffset_at tz (EPOCH_WALL + t).

(** The instants of the scenario: 03:30 and 04:05 in Moscow on 2024-06-02. *)
Definition moscow_0330 : Z := dt_make 2024 6 2 0 30 0 - EPOCH_WALL.
Definition moscow_0405 : Z := dt_make 2024 6 2 1 5 0 - EPOCH_WALL.

(** A date as [strftime('%Y-%m-%d')] writes it. *)
Definition iso_date (y m d : Z) : list N :=
  zero_pad 4 y ++ [45%N] ++ zero_pad 2 m ++ [45%N] ++ zero_pad 2 d.

(** The digits of a year are read back as the year. *)
Definition year_reads_back (y : Z) : bool :=
  match zero_pad 4 y with
  | [a; b; c; d] =>
      match decimal_char a, decimal_char b, decimal_char c, decimal_char d with
      | Some a', Some b', Some c', Some d' =>
          100 * (10 * a' + b') + (10 * c' + d') =? y
      | _, _, _, _ => false
      end
  | _ => false
  end.

(** The month and day of a date are read back. *)
Definition month_day_read_back (md : Z * Z) : bool :=
  let '(m, d) := md in
  match @month_day_groups basic_unicode ([45%N] ++ zero_pad 2 m ++ [45%N] ++ zero_pad 2 d) with
  | Some (m', d', []) => (m' =? m) && (d' =? d)
  | _ => false
  end.

Definition range_from_1 (n : Z) : list Z := map Z.of_nat (seq 1 (Z.to_nat n)).

(** The last ten of a list of turns. *)
Definition last_ten {A} (l : list A) : list A := drop (length l - 10) l.

(** The turns stored for a user. *)
Definition stored (w : world) (user_id : Z) : list pydict :=
  default [] (conversation_memory w !! user_id).

(** One call of [_add_to_memory], and a sequence of calls. *)
Record append := {
  ap_env : env;
  ap_user : Z;
  ap_role : list N;
  ap_content : list N;
  ap_extra : option pydict;
}.

Definition turn_of (a : append) : pydict :=
  new_entry (ap_env a) (ap_role a) (ap_content a) (ap_extra a).

Definition run_append (w : world) (a : append) : world :=
  snd (_add_to_memory (ap_env a) (ap_user a) (ap_role a) (ap_content a) (ap_extra a) w).

Definition run_appends (appends : list append) (w : world) : world :=
  fold_left run_append appends w.

Definition turns_for (user_id : Z) (appends : list append) : list pydict :=
  map turn_of (filter (fun a => ap_user a = user_id) appends).

(** A backend that does not answer in time. *)
Definition offline : request -> result response :=
  fun _ => Raise (Exn ReqReadTimeout (u "Read timed out. (read timeout=10)")).

(** A backend that answers the intent [show_summary] for today. *)
Definition answering : request -> result response :=
  fun _ => Ok {| status_code := 200; body := example_envelope |}.

(** A server on UTC at POSIX time [t]. *)
Definition env_at (t : Z) (backend : request -> result response) : env :=
  {| clock := t; server_zone := fixed_offset 0; session_post := backend |}.

Definition moscow_settings : day_settings :=
  {| timezone := u "Europe/Moscow"; day_end_hour := 4 |}.

(** Twelve turns of user 7. *)
Definition twelve_appends : list append :=
  map (fun n => {| ap_env := env_at (moscow_0330 + n) offline; ap_user := 7;
                   ap_role := if Z.even n then u "bot" else u "user";
                   ap_content := u "turn " ++ str_of_int n; ap_extra := None |})
      [1; 2; 3; 4; 5; 6; 7; 8; 9; 10; 11; 12].

Section Classification.
Context `{Unicode} `{Builtins}.

(** The context that [detect_intent] puts in its prompt. *)
Definition intent_context (user_id : option Z) : M (list N) :=
  match given user_id with
  | Some uid => _get_memory_context uid 5
  | None => mret (u "(нет контекста)")
  end.

(** What [detect_intent] makes of the reply of the backend. *)
Definition decode_reply (reply : result response) : result pyval :=
  response ← reply;
  _ ← raise_for_status response;
  res ← response_json response;
  content ← message_content res;
  content ← _extract_json content;
  json_loads content.

(** The ways in which the backend fails the classifier: the request
    raises (no connection, time out), the status is an error, the body is
    not JSON, the document has not the expected shape, or the content of
    the message is not JSON. *)
Inductive backend_failure (reply : result response) : Prop :=
  | transport_error ex :
      reply = Raise ex -> backend_failure reply
  | http_error r ex :
      reply = Ok r -> raise_for_status r = Raise ex -> backend_failure reply
  | body_not_json r ex :
      reply = Ok r -> raise_for_status r = Ok tt ->
      response_json r = Raise ex -> backend_failure reply
  | malformed_response r res ex :
      reply = Ok r -> raise_for_status r = Ok tt -> response_json r = Ok res ->
      message_content res = Raise ex -> backend_failure reply
  | content_not_text r res content ex :
      reply = Ok r -> raise_for_status r = Ok tt -> response_json r = Ok res ->
      message_content res = Ok content -> _extract_json content = Raise ex ->
      backend_failure reply
  | content_not_json r res content text ex :
      reply = Ok r -> raise_for_status r = Ok tt -> response_json r = Ok res ->
      message_content res = Ok content -> _extract_json content = Ok text ->
      json_loads text = Raise ex -> backend_failure reply.
End Classification.

(** Code that leaves the table of custom foods alone and makes no call
    of [update_custom_food]. *)
Definition keeps_foods {A} (m : M A) : Prop :=
  forall w, custom_foods (snd (m w)) = custom_foods w
            /\ update_calls (snd (m w)) = update_calls w.

(** The messages of [_edit_food_voice] for a field or a value that it
    does not accept. *)
Definition unknown_field_message `{Builtins} (field : pyval) : list N :=
  u "❌ Неизвестное поле: " ++ format_value field ++ u "
Доступные: калории, белки, жиры, углеводы, граммы, название, псевдонимы".

Definition unparsable_value_message `{Builtins} (value : pyval) : list N :=
  u "❌ Не удалось распознать значение: " ++ format_value value.

(** A world with the two example foods of user 7, and the hints of an
    edit request. *)
Definition pantry : world := with_custom_foods [banana; cheese] empty_world.

Definition edit_hints (food_name field value : string) : pyval :=
  VDict [ (u "food_name", VStr (u food_name)); (u "field", VStr (u field));
          (u "value", VStr (u value)) ].

Section MatcherVocabulary.
Context `{Unicode}.

(** [digits] stands in [text] before an occurrence of [key], with nothing
    but white space in between. *)
Definition quantity_before (key text digits : list N) : Prop :=
  exists before spaces after,
    text = before ++ digits ++ spaces ++ key ++ after
    /\ digits <> []
    /\ Forall (fun c => isdecimal c = true) digits
    /\ Forall (fun c => isspace c = true) spaces.

(** The name or an alias of the food occurs in the text. *)
Definition occurs (food : CustomFood.t) (text_lower : list N) : Prop :=
  contains (CustomFood.name food) text_lower = true
  \/ exists alias, In alias (alias_list food) /\ contains alias text_lower = true.

(** The multiplier fits a float and the scaled calories are finite, so
    that scaling raises no [OverflowError]. *)
Definition scalable (food : CustomFood.t) (multiplier : Z) : Prop :=
  exists m calories,
    float_of_int multiplier = Ok m
    /\ int_of_float (fmul (CustomFood.calories food) m) = Ok calories.

(** [item] is [food] taken [multiplier] times: the grams multiplied, the
    calories multiplied and cut to an integer, the protein, fat and carbs
    multiplied and rounded to one decimal. *)
Definition scaled_from (food : CustomFood.t) (multiplier : Z) (item : NutritionItem.t)
    : Prop :=
  exists m calories,
    float_of_int multiplier = Ok m
    /\ int_of_float (fmul (CustomFood.calories food) m) = Ok calories
    /\ NutritionItem.grams item = VInt (CustomFood.grams food * multiplier)
    /\ NutritionItem.calories item = VInt calories
    /\ NutritionItem.protein item = VFloat (round1 (fmul (CustomFood.protein food) m))
    /\ NutritionItem.fat item = VFloat (round1 (fmul (CustomFood.fat food) m))
    /\ NutritionItem.carbs item = VFloat (round1 (fmul (CustomFood.carbs food) m)).

(** The foods found in the text, in the order of the list, each with its
    multiplier. *)
Definition matching (text_lower : list N) (foods : list CustomFood.t)
    : list (CustomFood.t * Z) :=
  omap (fun food =>
          match matched_key food text_lower with
          | Some key => Some (food, multiplier_for key text_lower)
          | None => None
          end) foods.
End MatcherVocabulary.

(** *** The calendar, for the round trip of dates *)

(** The month and day that [ord2ymd] finds for day [n] (from 0) of a
    year: the last lines of [_ord2ymd]. *)
Definition month_day_in_year (n : Z) (leapyear : bool) : Z * Z :=
  let month := Z.shiftr (n + 50) 5 in
  let preceding :=
    nth (Z.to_nat (month - 1)) DAYS_BEFORE_MONTH 0
    + (if (month >? 2) && leapyear then 1 else 0) in
  if preceding >? n then
    let month' := month - 1 in
    let preceding' :=
      preceding - (nth (Z.to_nat (month' - 1)) DAYS_IN_MONTH 0
                   + (if (month' =? 2) && leapyear then 1 else 0)) in
    (month', n - preceding' + 1)
  else (month, n - preceding + 1).

(** Day [n] of a year falls on a day of a month, and the days before it
    add up to [n]. *)
Definition day_in_year_ok (leapyear : bool) (n : Z) : bool :=
  let '(m, d) := month_day_in_year n leapyear in
  (1 <=? m) && (m <=? 12) && (1 <=? d)
  && (d <=? nth (Z.to_nat (m - 1)) DAYS_IN_MONTH 0
            + (if (m =? 2) && leapyear then 1 else 0))
  && (nth (Z.to_nat (m - 1)) DAYS_BEFORE_MONTH 0
      + (if (m >? 2) && leapyear then 1 else 0) + d =? n + 1).

(** Year [1 + 100 b + 4 c + d] of the first cycle of 400 years: the days
    before it, and whether it is a leap year. *)
Definition year_in_cycle_ok (bcd : Z * Z * Z) : bool :=
  let '(b, c, d) := bcd in
  let y := 1 + 100 * b + 4 * c + d in
  (days_before_year y =? 36524 * b + 1461 * c + 365 * d)
  && eqb (is_leap y) ((d =? 3) && (negb (c =? 24) || (b =? 3))).

Definition range_from_0 (n : Z) : list Z := map Z.of_nat (seq 0 (Z.to_nat n)).

(** The ordinal of the logical today of [get_current_date_for_user]. *)
Definition logical_ordinal (tz : tzinfo) (day_end_hour t : Z) : Z :=
  let today := dt_ordinal (local_now tz t) in
  if dt_hour (local_now tz t) <? day_end_hour then today - 1 else today.

(** The days that [get_relative_date] moves from the logical today. *)
Definition relative_shift (relative_to : list N) : Z :=
  if eqb_str relative_to (u "today") then 0
  else if eqb_str relative_to (u "yesterday") then -1
  else if eqb_str relative_to (u "tomorrow") then 1
  else 0.

(** The local time [h]:00 on the day of an ordinal. *)
Definition day_end_local (ordinal h : Z) : Z := ordinal * 86400 + h * 3600.

(** London in 2024: summer time from 2024-03-31 01:00 UTC to
    2024-10-27 01:00 UTC.  [localize] (with [is_dst=False]) gives the
    winter offset to the hour that the clocks skip and to the hour that
    they repeat. *)
Definition london_2024 : tzinfo :=
  {| utcoffset_at := fun utc =>
       if (dt_make 2024 3 31 1 0 0 <=? utc) && (utc <? dt_make 2024 10 27 1 0 0)
       then 3600 else 0;
     localize_offset := fun naive =>
       if (dt_make 2024 3 31 2 0 0 <=? naive) && (naive <? dt_make 2024 10 27 1 0 0)
       then 3600 else 0 |}.

Definition summer_zones : Pytz :=
  {| pytz_zone := fun zone =>
       if eqb_str zone (u "UTC") then Some (fixed_offset 0)
       else if eqb_str zone (u "Europe/London") then Some london_2024
       else None |}.

(** ** More of database.py *)

(** [CURRENT_TIMESTAMP] at the POSIX time [t]: the UTC time as
    'YYYY-MM-DD HH:MM:SS'. *)
Definition current_timestamp (t : Z) : list N :=
  let w := EPOCH_WALL + t in
  strftime_ymd (dt_ordinal w) ++ u " " ++ zero_pad 2 (dt_hour w) ++ u ":"
    ++ zero_pad 2 ((w mod 3600) / 60) ++ u ":" ++ zero_pad 2 (w mod 60).
Arguments current_timestamp : simpl never.

(** The id that [AUTOINCREMENT] gives to a new row: one more than the
    largest id that the table has ever held, which [seq] remembers. *)
Definition next_id (table : list CustomFood.t) (seq : Z) : Z :=
  foldr Z.max seq (map CustomFood.id table) + 1.

Section MoreRepository.
Context `{Unicode}.

(** [save_custom_food] at the POSIX time [t]: the new table and the id of
    the new row. *)
Definition save_custom_food (table : list CustomFood.t) (seq t : Z) (user_id : Z)
    (name aliases : list N) (grams : Z) (calories protein fat carbs : float)
    : list CustomFood.t * Z :=
  let food_id := next_id table seq in
  (table ++ [ {| CustomFood.id := food_id; CustomFood.user_id := user_id;
                 CustomFood.name := str_lower name;
                 CustomFood.aliases := str_lower aliases;
                 CustomFood.grams := grams; CustomFood.calories := calories;
                 CustomFood.protein := protein; CustomFood.fat := fat;
                 CustomFood.carbs := carbs;
                 CustomFood.created_at := Some (current_timestamp t) |} ],
   food_id).

(** [delete_custom_food]: the new table and whether a row went. *)
Definition delete_custom_food (table : list CustomFood.t) (user_id food_id : Z)
    : list CustomFood.t * bool :=
  (filter (fun f => targets user_id food_id f = false) table,
   existsb (targets user_id food_id) table).
End MoreRepository.

(** *** The context of the classifier *)

(** A turn with a text for its role and for its content, as
    [_add_to_memory] makes them. *)
Definition text_turn (turn : pydict) (role content : list N) : Prop :=
  dict_lookup turn (u "role") = Some (VStr role)
  /\ dict_lookup turn (u "content") = Some (VStr content).

(** The line of such a turn in the context of the classifier. *)
Definition line_of (role content : list N) : list N :=
  (if eqb_str role (u "user") then u "Пользователь" else u "Бот")
    ++ u ": " ++ take 100 content.

(** ** More of ai_service.py and handlers.py: analyses as dictionaries *)

(** The dictionary of an item, in [NutritionAnalysis.to_dict] and in
    [_item_to_dict] of the handlers. *)
Definition _item_to_dict (item : NutritionItem.t) : pyval :=
  VDict [ (u "name", NutritionItem.name item);
          (u "grams", NutritionItem.grams item);
          (u "calories", NutritionItem.calories item);
          (u "protein", NutritionItem.protein item);
          (u "fat", NutritionItem.fat item);
          (u "carbs", NutritionItem.carbs item) ].

Definition to_dict (a : NutritionAnalysis.t) : pyval :=
  VDict [ (u "items", VList (map _item_to_dict (NutritionAnalysis.items a)));
          (u "total",
           VDict [ (u "calories", NutritionAnalysis.total_calories a);
                   (u "protein", NutritionAnalysis.total_protein a);
                   (u "fat", NutritionAnalysis.total_fat a);
                   (u "carbs", NutritionAnalysis.total_carbs a) ]);
          (u "notes", NutritionAnalysis.notes a) ].

(** An analysis without its error. *)
Definition without_error (a : NutritionAnalysis.t) : NutritionAnalysis.t :=
  {| NutritionAnalysis.items := NutritionAnalysis.items a;
     NutritionAnalysis.total_calories := NutritionAnalysis.total_calories a;
     NutritionAnalysis.total_protein := NutritionAnalysis.total_protein a;
     NutritionAnalysis.total_fat := NutritionAnalysis.total_fat a;
     NutritionAnalysis.total_carbs := NutritionAnalysis.total_carbs a;
     NutritionAnalysis.notes := NutritionAnalysis.notes a;
     NutritionAnalysis.error := VNone |}.

(** *** Messages of the handlers *)

(** The messages of [_edit_food_voice] when a hint is missing and when
    the food is not found. *)
Definition edit_not_understood_message : list N :=
  u "❌ Не понял что изменить. Попробуй так:
«измени овсянку на 160 калорий»
«поменяй в банане белки на 2 грамма»".

Definition food_not_found_message `{Builtins} (food_name : pyval) : list N :=
  u "❌ Продукт «" ++ format_value food_name ++ u "» не найден.
Проверь список: /myfoods".

(** ** The table of entries *)

(** A row of [entries].  [timestamp] is the naive [datetime] whose
    [isoformat] the column holds: the texts are ordered as the times are,
    and SQLite's [datetime()] reads them back.  [items_json] is the text
    that [json.dumps] made of the items. *)
Module NutritionEntry.
Record t := {
  id : Z;
  user_id : Z;
  date : list N;
  timestamp : Z;
  raw_input : list N;
  items_json : list N;
  total_calories : pyval;
  total_protein : pyval;
  total_fat : pyval;
  total_carbs : pyval;
}.
End NutritionEntry.

(** What the database makes of the values given to it: the text of
    [json.dumps(items, ensure_ascii=False)], and the value that a column
    declared REAL keeps of the value bound to it. *)
Class Storage := {
  json_dumps : pyval -> list N;
  real_column : pyval -> pyval;
}.

(** The id that [AUTOINCREMENT] gives: one more than the largest id that
    the table has ever held, which [seq] remembers. *)
Definition next_entry_id (table : list NutritionEntry.t) (seq : Z) : Z :=
  foldr Z.max seq (map NutritionEntry.id table) + 1.

(** The later of two rows, for [ORDER BY timestamp DESC LIMIT 1]. *)
Definition later (a b : NutritionEntry.t) : NutritionEntry.t :=
  if NutritionEntry.timestamp a <? NutritionEntry.timestamp b then b else a.

Definition latest (rows : list NutritionEntry.t) : option NutritionEntry.t :=
  match rows with
  | [] => None
  | r :: rows' => Some (foldl later r rows')
  end.

(** Rows in the order of [ORDER BY timestamp DESC]. *)
Fixpoint insert_by_time (r : NutritionEntry.t) (l : list NutritionEntry.t)
    : list NutritionEntry.t :=
  match l with
  | [] => [r]
  | s :: l' =>
      if NutritionEntry.timestamp r <=? NutritionEntry.timestamp s
      then s :: insert_by_time r l'
      else r :: l
  end.

Section Entries.
Context `{Storage}.

(** [save_entry]: the new table and the id of the new row.  [items] is
    the list of item dictionaries and [totals] the dictionary of totals
    that the handlers pass. *)
Definition save_entry (table : list NutritionEntry.t) (seq : Z) (e : env)
    (user_id : Z) (raw_input : list N) (items : list pyval) (totals : pydict)
    : list NutritionEntry.t * Z :=
  let now := server_now e in
  let entry_id := next_entry_id table seq in
  let total key := real_column (default (VInt 0) (dict_lookup totals key)) in
  (table ++ [ {| NutritionEntry.id := entry_id;
                 NutritionEntry.user_id := user_id;
                 NutritionEntry.date := strftime_ymd (dt_ordinal now);
                 NutritionEntry.timestamp := now;
                 NutritionEntry.raw_input := raw_input;
                 NutritionEntry.items_json := json_dumps (VList items);
                 NutritionEntry.total_calories := total (u "calories");
                 NutritionEntry.total_protein := total (u "protein");
                 NutritionEntry.total_fat := total (u "fat");
                 NutritionEntry.total_carbs := total (u "carbs") |} ],
   entry_id).
End Entries.

(** The rows that the SELECT of [get_day_entries] gives, newest first. *)
Definition day_rows (table : list NutritionEntry.t) (user_id : Z) (date_str : list N)
    : list NutritionEntry.t :=
  foldr insert_by_time []
    (filter (fun r => NutritionEntry.user_id r = user_id
                      ∧ NutritionEntry.date r = date_str) table).

(** [get_day_entries]: each row with its items decoded. *)
Definition get_day_entries `{Builtins} (table : list NutritionEntry.t) (user_id : Z)
    (date_str : list N) : result (list (NutritionEntry.t * pyval)) :=
  mapM (fun r => items ← json_loads (NutritionEntry.items_json r); Ok (r, items))
    (day_rows table user_id date_str).

(** [delete_last_entry]: the new table and whether a row went. *)
Definition delete_last_entry (table : list NutritionEntry.t) (user_id : Z)
    : list NutritionEntry.t * bool :=
  match latest (filter (fun r => NutritionEntry.user_id r = user_id) table) with
  | Some row =>
      (filter (fun r => NutritionEntry.id r ≠ NutritionEntry.id row) table, true)
  | None => (table, false)
  end.

(** The rows that the SELECT of [get_daily_summary] sums and counts: those
    of the user whose timestamp, read as it stands, is within the bounds. *)
Definition summary_rows (q : summary_query) (table : list NutritionEntry.t)
    : list NutritionEntry.t :=
  filter (fun r => NutritionEntry.user_id r = q_user_id q
                   ∧ wall (q_start_utc q) <= NutritionEntry.timestamp r
                   ∧ NutritionEntry.timestamp r < wall (q_end_utc q)) table.

(** [DailySummary.entries_count] *)
Definition entries_count (q : summary_query) (table : list NutritionEntry.t) : Z :=
  Z.of_nat (length (summary_rows q table)).

(** [_show_yesterday], up to its call of [get_daily_summary]. *)
Definition _show_yesterday `{Unicode} `{Pytz} (e : env) (user_id : Z)
    : result summary_query :=
  yesterday ← dt_add_seconds (server_now e) (- 86400);
  get_daily_summary user_id (strftime_ymd (dt_ordinal yesterday)) (u "UTC") 4.

(** A storage for the examples: the text of the empty list, and REAL
    columns that turn an integer into the float of the same value. *)
Definition example_storage : Storage :=
  {| json_dumps := fun v => match v with
                            | VList [] => u "[]"
                            | _ => u "<json>"
                            end;
     real_column := fun v => match v with
                             | VInt n => VFloat (f64 n)
                             | _ => v
                             end |}.

(** 2 June 2024, 10:00:00 UTC *)
Definition utc_1000 : Z := dt_make 2024 6 2 10 0 0 - EPOCH_WALL.

(** ** Voice: transcription *)

(** The services that transcribe, and what [transcribe_audio] finds: the
    two keys of the settings, and what the block that opens the file and
    posts it gives for each service, a response or an exception. *)
Inductive speech_service := Groq | OpenAI.

Record speech := {
  groq_api_key : list N;
  openai_api_key : list N;
  speech_post : speech_service -> result response;
}.

Definition no_key_text : list N :=
  u "[Для голосовых сообщений нужен GROQ_API_KEY или OPENAI_API_KEY]".

Section Transcription.
Context `{Unicode}.

(** [response.raise_for_status(); return response.text.strip()] *)
Definition transcribed (reply : result response) : result (list N) :=
  response ← reply;
  _ ← raise_for_status response;
  Ok (strip (body response)).

(** The text, and the services that were asked, in order. *)
Definition _transcribe_with_openai (s : speech) : list N * list speech_service :=
  match openai_api_key s with
  | [] => (no_key_text, [])
  | _ =>
      match transcribed (speech_post s OpenAI) with
      | Ok text => (text, [OpenAI])
      | Raise ex =>
          (u "[Ошибка распознавания голоса: " ++ exn_msg ex ++ u "]", [OpenAI])
      end
  end.

Definition _transcribe_with_groq (s : speech) : list N * list speech_service :=
  match groq_api_key s with
  | [] => _transcribe_with_openai s
  | _ =>
      match transcribed (speech_post s Groq) with
      | Ok text => (text, [Groq])
      | Raise _ =>
          let '(text, asked) := _transcribe_with_openai s in (text, Groq :: asked)
      end
  end.

Definition transcribe_audio (s : speech) : list N * list speech_service :=
  _transcribe_with_groq s.
End Transcription.

(** The test by which [handle_voice] takes a transcription for a
    failure. *)
Definition transcription_failed (transcribed_text : list N) : bool :=
  startswith (u "[") transcribed_text && contains (u "Ошибка") transcribed_text.

(** ** More of handlers.py: text messages *)

(** [v == "text"] for a value of the intent. *)
Definition is_text (v : pyval) (s : list N) : bool :=
  match v with
  | VStr x => eqb_str x s
  | _ => false
  end.

(** [await update.message.reply_text(text)] *)
Definition reply_text (text : list N) : M unit :=
  modify (fun w => with_shown (shown w ++ [text]) w).

(** The handlers that [handle_text] calls and that are not modelled here:
    what they do to the state is a parameter.  The last one takes the text
    to analyse, which comes from the intent and may be any value. *)
Record handlers := {
  on_show_yesterday : Z -> M unit;
  on_show_today : Z -> M unit;
  on_delete_last_entry : Z -> M unit;
  on_show_my_foods : Z -> M unit;
  on_show_settings : Z -> M unit;
  on_change_language : Z -> pyval -> M unit;
  on_process_food_text : Z -> pyval -> M unit;
}.

(** What [_process_food_text] calls outside the state modelled here: the
    [save_entry] of the repository and [_format_analysis_response], which
    reads the daily summary. *)
Record food_log := {
  repo_save_entry : Z -> list N -> list pyval -> pydict -> M Z;
  format_analysis_response : NutritionAnalysis.t -> Z -> M (list N);
}.

Section TextMessages.
Context `{Unicode} `{Builtins}.

(** The [try] block of [handle_text]. *)
Definition route_text (h : handlers) (e : env) (user_id : Z) (text : list N) : M unit :=
  intent ← detect_intent e text (Some user_id);
  action ← lift (dict_get intent (u "action") VNone);
  if is_text action (u "show_summary") then
    date_type ← lift (dict_get intent (u "date") (VStr (u "today")));
    if is_text date_type (u "yesterday") then on_show_yesterday h user_id
    else on_show_today h user_id
  else if is_text action (u "delete_last") then on_delete_last_entry h user_id
  else if is_text action (u "show_foods") then on_show_my_foods h user_id
  else if is_text action (u "edit_food") then
    edit_params ← lift (dict_get intent (u "edit_params") (VDict []));
    _edit_food_voice e user_id edit_params
  else if is_text action (u "show_settings") then on_show_settings h user_id
  else if is_text action (u "change_language") then
    lang_params ← lift (dict_get intent (u "language_params") (VDict []));
    language ← lift (dict_get lang_params (u "language") (VStr (u "ru")));
    on_change_language h user_id language
  else if is_text action (u "add_food") then
    food_description ← lift (dict_get intent (u "food_description") (VStr text));
    on_process_food_text h user_id food_description
  else on_process_food_text h user_id (VStr text).

(** [message_text] is [update.message.text], if there is one. *)
Definition handle_text (h : handlers) (e : env) (user_id : Z)
    (message_text : option (list N)) : M unit :=
  match message_text with
  | None | Some [] => mret tt
  | Some raw =>
      let text := strip raw in
      _ ← reply_text (u "🤔 Думаю...");
      try_M (route_text h e user_id text) is_Exception
        (fun _ => on_process_food_text h user_id (VStr text))
  end.

(** [_process_food_text] for a text. *)
Definition _process_food_text (log : food_log) (e : env) (user_id : Z) (text : list N)
    : M unit :=
  try_M
    (analysis ← analyze e text true (Some user_id);
     if truthy (NutritionAnalysis.error analysis) then
       edit_text (u "❌ Ошибка: " ++ format_value (NutritionAnalysis.error analysis))
     else
       _ ← repo_save_entry log user_id text
             (map _item_to_dict (NutritionAnalysis.items analysis))
             [ (u "calories", NutritionAnalysis.total_calories analysis);
               (u "protein", NutritionAnalysis.total_protein analysis);
               (u "fat", NutritionAnalysis.total_fat analysis);
               (u "carbs", NutritionAnalysis.total_carbs analysis) ];
       response ← format_analysis_response log analysis user_id;
       _ ← edit_text response;
       add_bot_response_to_memory e user_id (take 300 response)
         (Some [ (u "type", VStr (u "food_logged"));
                 (u "calories", NutritionAnalysis.total_calories analysis) ]))
    is_Exception
    (fun _ =>
       let error_msg := u "❌ Произошла ошибка. Попробуй ещё раз." in
       _ ← edit_text error_msg;
       add_bot_response_to_memory e user_id error_msg
         (Some [ (u "type", VStr (u "error")) ])).
End TextMessages.

(** The reply of [_process_food_text] when something raised, with the
    turn that records it. *)
Definition say_food_error (e : env) (user_id : Z) : M unit :=
  let error_msg := u "❌ Произошла ошибка. Попробуй ещё раз." in
  _ ← edit_text error_msg;
  add_bot_response_to_memory e user_id error_msg
    (Some [ (u "type", VStr (u "error")) ]).

(** Handlers that only show a word, for the examples. *)
Definition naming_handlers : handlers :=
  {| on_show_yesterday := fun _ => reply_text (u "yesterday");
     on_show_today := fun _ => reply_text (u "today");
     on_delete_last_entry := fun _ => reply_text (u "delete");
     on_show_my_foods := fun _ => reply_text (u "foods");
     on_show_settings := fun _ => reply_text (u "settings");
     on_change_language := fun _ _ => reply_text (u "language");
     on_process_food_text := fun _ text =>
       match text with
       | VStr s => reply_text (u "food: " ++ s)
       | _ => reply_text (u "food")
       end |}.

(** An utterance with a quantity of 401 digits before the banana. *)
Definition countless_bananas : list N :=
  u "съел " ++ str_of_int (10 ^ 400) ++ u " банан".

(* ==================================================================== *)
(** * Properties                                                         *)
(* ==================================================================== *)

(** ** Day-boundary calculator *)

Lemma dt_ordinal_day_before w : dt_ordinal (w - 86400) = dt_ordinal w - 1.
Proof.
  unfold dt_ordinal. replace (w - 86400) with (w + (-1) * 86400) by lia.
  rewrite Z_div_plus_full by lia. lia.
Qed.

Lemma dt_add_seconds_ok w delta :
  representable (w + delta) = true -> dt_add_seconds w delta = Ok (w + delta).
Proof. intros Hr. unfold dt_add_seconds. now rewrite Hr. Qed.

Lemma bind_Ok {A B} (a : A) (f : A -> result B) : (x ← Ok a; f x) = f a.
Proof. reflexivity. Qed.

Lemma bind_Raise {A B} (e : exn) (f : A -> result B) : (x ← Raise e; f x) = Raise e.
Proof. reflexivity. Qed.

Lemma aware_sub_days_ok dt n :
  representable (wall dt - n * 86400) = true ->
  aware_sub_days dt n = Ok {| wall := wall dt - n * 86400; utcoffset := utcoffset dt |}.
Proof.
  intros Hr. unfold aware_sub_days.
  replace (- (n * 86400)) with (0 - n * 86400) by lia.
  rewrite dt_add_seconds_ok;
    replace (wall dt + (0 - n * 86400)) with (wall dt - n * 86400) by lia; auto.
Qed.

Lemma astimezone_utc_ok dt :
  representable (wall dt - utcoffset dt) = true ->
  astimezone_utc dt = Ok {| wall := wall dt - utcoffset dt; utcoffset := 0 |}.
Proof.
  intros Hr. unfold astimezone_utc.
  rewrite dt_add_seconds_ok;
    replace (wall dt + - utcoffset dt) with (wall dt - utcoffset dt) by lia; auto.
Qed.

Section DayBoundary.
Context `{Unicode} `{Pytz}.

Lemma pytz_timezone_known zone tz :
  pytz_zone zone = Some tz -> pytz_timezone zone = Ok tz.
Proof. intros Hz. unfold pytz_timezone. now rewrite Hz. Qed.

Lemma pytz_timezone_unknown zone :
  pytz_zone zone = None -> pytz_timezone zone = raise UnknownTimeZoneError.
Proof. intros Hz. unfold pytz_timezone. now rewrite Hz. Qed.

Lemma datetime_now_ok tz t :
  representable (EPOCH_WALL + t) = true ->
  representable (local_now tz t) = true ->
  datetime_now tz t =
    Ok {| wall := local_now tz t; utcoffset := utcoffset_at tz (EPOCH_WALL + t) |}.
Proof.
  intros Hu Hl. unfold datetime_now. rewrite Hu.
  unfold local_now in Hl. now rewrite (dt_add_seconds_ok _ _ Hl).
Qed.

(** C1. In a zone of the database, the logical today is the calendar date
    before the local one when the local hour is below the day end, and
    the local calendar date from the day-end hour on; [get_relative_date]
    with 'today' agrees.  (The clock and the local times involved are
    within the range of [datetime].) *)
Theorem logical_today_by_day_end_hour zone tz day_end_hour t :
  pytz_zone zone = Some tz ->
  representable (EPOCH_WALL + t) = true ->
  representable (local_now tz t) = true ->
  representable (local_now tz t - 86400) = true ->
  let today := dt_ordinal (local_now tz t) in
  let logical :=
    if dt_hour (local_now tz t) <? day_end_hour then today - 1 else today in
  get_current_date_for_user zone day_end_hour t = Ok (strftime_ymd logical)
  /\ get_relative_date (u "today") zone day_end_hour t = Ok (strftime_ymd logical).
Proof.
  intros Hz Hu Hl Hy today logical. subst today logical.
  unfold get_current_date_for_user, get_relative_date.
  rewrite (pytz_timezone_known _ _ Hz). cbn.
  rewrite (datetime_now_ok _ _ Hu Hl). cbn.
  destruct (dt_hour (local_now tz t) <? day_end_hour) eqn:Hh.
  - unfold aware_sub_days. cbn.
    replace (local_now tz t + - (1 * 86400)) with (local_now tz t - 86400) by lia.
    unfold dt_add_seconds.
    replace (local_now tz t + - (1 * 86400)) with (local_now tz t - 86400) by lia.
    rewrite Hy. cbn. rewrite dt_ordinal_day_before. split; reflexivity.
  - cbn. split; reflexivity.
Qed.
End DayBoundary.

(** The scenario of C1: Europe/Moscow, day end 4, at 03:30 and at 04:05
    local time on 2024-06-02. *)
Lemma logical_today_moscow :
  @get_current_date_for_user fixed_zones (u "Europe/Moscow") 4 moscow_0330
    = Ok (u "2024-06-01")
  /\ @get_current_date_for_user fixed_zones (u "Europe/Moscow") 4 moscow_0405
    = Ok (u "2024-06-02")
  /\ @get_relative_date fixed_zones (u "today") (u "Europe/Moscow") 4 moscow_0330
    = Ok (u "2024-06-01").
Proof.
  pose proof (@logical_today_by_day_end_hour fixed_zones
                (u "Europe/Moscow") (fixed_offset 10800) 4 moscow_0330
                eq_refl eq_refl eq_refl eq_refl) as [H1 H2].
  pose proof (@logical_today_by_day_end_hour fixed_zones
                (u "Europe/Moscow") (fixed_offset 10800) 4 moscow_0405
                eq_refl eq_refl eq_refl eq_refl) as [H3 _].
  split; [exact H1 | split; [exact H3 | exact H2]].
Defined.

(** *** The dates that [strptime] reads: every date in the form
    YYYY-MM-DD (with the digits 0 to 9) *)

Lemma in_range_from_1 n x : 1 <= x <= n -> In x (range_from_1 n).
Proof.
  intros Hx. unfold range_from_1. apply in_map_iff. exists (Z.to_nat x).
  split; [lia|]. apply in_seq. lia.
Qed.

Lemma years_read_back y : 1 <= y <= 9999 -> year_reads_back y = true.
Proof.
  assert (forallb year_reads_back (range_from_1 9999) = true) as Hall
    by (vm_compute; reflexivity).
  intros Hy. rewrite forallb_forall in Hall. apply Hall, in_range_from_1. lia.
Qed.

Lemma months_days_read_back m d :
  1 <= m <= 12 -> 1 <= d <= 31 -> month_day_read_back (m, d) = true.
Proof.
  assert (forallb month_day_read_back
            (list_prod (range_from_1 12) (range_from_1 31)) = true) as Hall
    by (vm_compute; reflexivity).
  intros Hm Hd. rewrite forallb_forall in Hall. apply Hall.
  apply in_prod; apply in_range_from_1; lia.
Qed.

Lemma days_in_month_bound y m : 1 <= m <= 12 -> days_in_month y m <= 31.
Proof.
  intros Hm. unfold days_in_month.
  assert (m = 1 \/ m = 2 \/ m = 3 \/ m = 4 \/ m = 5 \/ m = 6 \/ m = 7 \/ m = 8
          \/ m = 9 \/ m = 10 \/ m = 11 \/ m = 12) as Hcases by lia.
  destruct Hcases as [->|[->|[->|[->|[->|[->|[->|[->|[->|[->|[->| ->]]]]]]]]]]];
    destruct (is_leap y); vm_compute; discriminate.
Qed.

Lemma strptime_reads_iso_date y m d :
  1 <= y <= 9999 -> 1 <= m <= 12 -> 1 <= d <= days_in_month y m ->
  @strptime_ymd basic_unicode (iso_date y m d) = Ok (dt_make y m d 0 0 0).
Proof.
  intros Hy Hm Hd.
  pose proof (days_in_month_bound y m Hm) as Hbound.
  pose proof (years_read_back y Hy) as Hyear.
  pose proof (months_days_read_back m d Hm ltac:(lia)) as Hmd.
  unfold year_reads_back in Hyear. unfold month_day_read_back in Hmd.
  unfold strptime_ymd, match_ymd, iso_date.
  destruct (zero_pad 4 y) as [|a [|b [|c [|d' [|]]]]]; try discriminate.
  destruct (decimal_char a) as [a'|] eqn:Ha; [|discriminate].
  destruct (decimal_char b) as [b'|] eqn:Hb; [|discriminate].
  destruct (decimal_char c) as [c'|] eqn:Hc; [|discriminate].
  destruct (decimal_char d') as [d''|] eqn:Hdd; [|discriminate].
  apply Z.eqb_eq in Hyear.
  unfold year_group, two. cbn [app decimal basic_unicode].
  rewrite Ha, Hb, Hc, Hdd, Hyear.
  cbn [app] in Hmd.
  destruct (@month_day_groups basic_unicode
              (45%N :: zero_pad 2 m ++ 45%N :: zero_pad 2 d))
    as [[[m' d0] [|]]|]; try discriminate.
  apply andb_true_iff in Hmd as [Hm' Hd'].
  apply Z.eqb_eq in Hm', Hd'. subst m' d0.
  replace ((MINYEAR <=? y) && (d <=? days_in_month y m)) with true; [reflexivity|].
  symmetry. apply andb_true_intro. unfold MINYEAR. split; lia.
Qed.

Section DayRange.
Context `{Unicode} `{Pytz}.

Lemma strptime_ymd_midnight D date :
  strptime_ymd D = Ok date -> date mod 86400 = 0.
Proof.
  unfold strptime_ymd. destruct (match_ymd D) as [[[[y m] d] rest]|]; [|discriminate].
  destruct rest; [|discriminate].
  destruct ((MINYEAR <=? y) && (d <=? days_in_month y m)); [|discriminate].
  intros [= <-]. unfold dt_make.
  replace (ymd2ord y m d * 86400 + 0 * 3600 + 0 * 60 + 0)
    with (0 + ymd2ord y m d * 86400) by lia.
  now rewrite Z_mod_plus_full.
Qed.

Lemma replace_hour_midnight date h :
  date mod 86400 = 0 -> 0 <= h <= 23 -> replace_hour date h = Ok (date + h * 3600).
Proof.
  intros Hm Hh. unfold replace_hour.
  replace ((0 <=? h) && (h <=? 23)) with true
    by (symmetry; apply andb_true_intro; split; lia).
  f_equal. unfold dt_ordinal.
  pose proof (Z_div_mod_eq_full date 86400) as Hd. rewrite Hm in Hd.
  assert (date mod 3600 = 0) as ->; [|lia].
  rewrite Hd. replace (86400 * (date / 86400) + 0) with ((date / 86400 * 24) * 3600) by lia.
  apply Z_mod_mult.
Qed.

Lemma hour_on_day date h :
  date mod 86400 = 0 -> 0 <= h <= 23 ->
  dt_ordinal (date + h * 3600) = dt_ordinal date /\ dt_hour (date + h * 3600) = h.
Proof.
  intros Hm Hh. unfold dt_ordinal, dt_hour.
  pose proof (Z_div_mod_eq_full date 86400) as Hd. rewrite Hm in Hd.
  set (q := date / 86400) in *.
  replace (date + h * 3600) with (h * 3600 + q * 86400) by lia.
  rewrite Z_div_plus_full, Z_mod_plus_full by lia.
  rewrite (Z.div_small (h * 3600) 86400), (Z.mod_small (h * 3600) 86400) by lia.
  rewrite Z_div_mult_full by lia. split; lia.
Qed.

(** C2. For a date string that [strptime] accepts, a zone of the database
    and a day end from 0 to 23, when the same offset applies at the day
    end of [D] and of the day before (no transition in between) and the
    times are within the range of [datetime]: the end is the local time
    h:00 on day [D] in UTC, the start is the local time h:00 on the day
    before [D] in UTC, and the two are 24 hours apart, locally and in
    UTC. *)
Theorem day_range_of_logical_date D zone tz h date :
  pytz_zone zone = Some tz ->
  strptime_ymd D = Ok date ->
  0 <= h <= 23 ->
  let end_local := date + h * 3600 in
  let start_local := end_local - 86400 in
  localize_offset tz start_local = localize_offset tz end_local ->
  representable start_local = true ->
  representable (to_utc tz start_local) = true ->
  representable (to_utc tz end_local) = true ->
  exists start_utc end_utc,
    get_day_start_end D zone h = Ok (start_utc, end_utc)
    /\ utcoffset start_utc = 0 /\ utcoffset end_utc = 0
    /\ wall end_utc = to_utc tz end_local
    /\ wall start_utc = to_utc tz start_local
    /\ dt_ordinal end_local = dt_ordinal date /\ dt_hour end_local = h
    /\ dt_ordinal start_local = dt_ordinal date - 1 /\ dt_hour start_local = h
    /\ end_local - start_local = 24 * 3600
    /\ wall end_utc - wall start_utc = 24 * 3600.
Proof.
  intros Hz HD Hh end_local start_local Hoff Hs Hsu Heu.
  pose proof (strptime_ymd_midnight _ _ HD) as Hm.
  destruct (hour_on_day date h Hm Hh) as [Hord Hhour].
  assert (dt_hour start_local = h) as Hsh.
  { unfold start_local, end_local, dt_hour.
    replace (date + h * 3600 - 86400) with (date + h * 3600 + (-1) * 86400) by lia.
    rewrite Z_mod_plus_full. exact Hhour. }
  exists {| wall := to_utc tz start_local; utcoffset := 0 |},
         {| wall := to_utc tz end_local; utcoffset := 0 |}.
  split.
  - unfold get_day_start_end.
    rewrite (pytz_timezone_known _ _ Hz), bind_Ok, HD, bind_Ok.
    rewrite (replace_hour_midnight _ _ Hm Hh), !bind_Ok. fold end_local.
    rewrite (aware_sub_days_ok (localize tz end_local) 1), bind_Ok
      by (cbn; replace (end_local - 1 * 86400) with start_local
            by (unfold start_local; lia); exact Hs).
    cbn [localize wall utcoffset].
    replace (end_local - 1 * 86400) with start_local by (unfold start_local; lia).
    rewrite astimezone_utc_ok, bind_Ok
      by (cbn; rewrite <- Hoff; exact Hsu).
    rewrite astimezone_utc_ok, bind_Ok by (cbn; exact Heu).
    cbn [wall utcoffset]. rewrite <- Hoff. reflexivity.
  - cbn [wall utcoffset].
    assert (dt_ordinal start_local = dt_ordinal date - 1) as Hso.
    { unfold start_local. rewrite dt_ordinal_day_before.
      unfold end_local. now rewrite Hord. }
    assert (to_utc tz end_local - to_utc tz start_local = 24 * 3600) as Hday.
    { unfold to_utc. rewrite Hoff. unfold start_local. lia. }
    repeat split; try reflexivity; try assumption.
    unfold start_local. lia.
Qed.

(** C4, as the code has it.  [normalize_timezone] never raises, and an
    identifier that is neither an alias nor a zone of the database
    becomes 'UTC'.  The calculator does not normalize: given such an
    identifier, [get_current_date_for_user] and [get_day_start_end] raise
    [UnknownTimeZoneError]; it is on the normalized identifier that they
    give the result of 'UTC'. *)
Theorem unknown_zone_normalized_to_UTC x h t D :
  TIMEZONE_ALIASES !! strip (str_lower x) = None ->
  pytz_zone x = None ->
  (forall y, exists zone, normalize_timezone y = Ok zone)
  /\ normalize_timezone x = Ok (u "UTC")
  /\ get_current_date_for_user x h t = raise UnknownTimeZoneError
  /\ get_day_start_end D x h = raise UnknownTimeZoneError
  /\ (zone ← normalize_timezone x; get_current_date_for_user zone h t)
       = get_current_date_for_user (u "UTC") h t
  /\ (zone ← normalize_timezone x; get_day_start_end D zone h)
       = get_day_start_end D (u "UTC") h.
Proof.
  intros Halias Hzone.
  assert (forall y, exists zone, normalize_timezone y = Ok zone) as Htotal.
  { intros y. unfold normalize_timezone.
    destruct (TIMEZONE_ALIASES !! strip (str_lower y)) as [zone|]; [now exists zone|].
    unfold pytz_timezone. destruct (pytz_zone y); cbn; eauto. }
  assert (normalize_timezone x = Ok (u "UTC")) as Hnorm.
  { unfold normalize_timezone. rewrite Halias.
    rewrite (pytz_timezone_unknown _ Hzone). reflexivity. }
  split; [exact Htotal|]. split; [exact Hnorm|].
  split; [|split].
  - unfold get_current_date_for_user. now rewrite (pytz_timezone_unknown _ Hzone).
  - unfold get_day_start_end. now rewrite (pytz_timezone_unknown _ Hzone).
  - rewrite Hnorm. split; reflexivity.
Qed.
End DayRange.

(** The day 2024-06-02 of a user in Moscow whose day ends at 4: from
    2024-06-01 01:00 UTC to 2024-06-02 01:00 UTC. *)
Lemma day_range_moscow :
  exists start_utc end_utc,
    @get_day_start_end basic_unicode fixed_zones (u "2024-06-02") (u "Europe/Moscow") 4
      = Ok (start_utc, end_utc)
    /\ wall start_utc = dt_make 2024 6 1 1 0 0
    /\ wall end_utc = dt_make 2024 6 2 1 0 0
    /\ wall end_utc - wall start_utc = 24 * 3600.
Proof.
  destruct (@day_range_of_logical_date basic_unicode fixed_zones
              (u "2024-06-02") (u "Europe/Moscow") (fixed_offset 10800) 4
              (dt_make 2024 6 2 0 0 0)
              eq_refl eq_refl ltac:(lia) eq_refl eq_refl eq_refl eq_refl)
    as (s & e & Hrun & _ & _ & He & Hs & _ & _ & _ & _ & _ & Hd).
  exists s, e. split; [exact Hrun|]. split; [exact Hs|]. split; [exact He|exact Hd].
Defined.

(** C4 as stated fails: on an identifier that [pytz] does not know, the
    calculator raises where 'UTC' gives a date. *)
Lemma unknown_zone_raises :
  @get_current_date_for_user fixed_zones (u "Mars/Phobos") 4 moscow_0330
    = raise UnknownTimeZoneError
  /\ @get_current_date_for_user fixed_zones (u "UTC") 4 moscow_0330 = Ok (u "2024-06-01")
  /\ @get_current_date_for_user fixed_zones (u "Mars/Phobos") 4 moscow_0330
     <> @get_current_date_for_user fixed_zones (u "UTC") 4 moscow_0330
  /\ @get_day_start_end basic_unicode fixed_zones (u "2024-06-02") (u "Mars/Phobos") 4
    = raise UnknownTimeZoneError.
Proof. vm_compute. repeat split; try reflexivity. discriminate. Qed.

Lemma unknown_zone_normalized_example :
  @normalize_timezone basic_unicode fixed_zones (u "Mars/Phobos") = Ok (u "UTC")
  /\ @get_current_date_for_user fixed_zones (u "Mars/Phobos") 4 moscow_0330
     = raise UnknownTimeZoneError
  /\ (zone ← @normalize_timezone basic_unicode fixed_zones (u "Mars/Phobos");
      @get_current_date_for_user fixed_zones zone 4 moscow_0330)
     = @get_current_date_for_user fixed_zones (u "UTC") 4 moscow_0330.
Proof.
  destruct (@unknown_zone_normalized_to_UTC basic_unicode fixed_zones
              (u "Mars/Phobos") 4 moscow_0330 (u "2024-06-02") eq_refl eq_refl)
    as (_ & Hn & Hr & _ & Hc & _).
  split; [exact Hn|]. split; [exact Hr|exact Hc].
Defined.

(** C3 at the failing input.  The server is on UTC and the clock reads
    2024-06-02 00:30 UTC; the user is in Moscow (03:30 local) with a day
    end of 4, so the logical today is 2024-06-01, from 2024-05-31 01:00 UTC
    to 2024-06-01 01:00 UTC.  [_show_today] asks for the server date
    2024-06-02 with the defaults 'UTC' and 4: from 2024-06-01 04:00 UTC to
    2024-06-02 04:00 UTC. *)
Theorem show_today_ignores_user_settings :
  let e := env_at moscow_0330 offline in
  exists q user_start user_end,
    @_show_today basic_unicode fixed_zones e 7 = Ok q
    /\ q_date_str q = u "2024-06-02"
    /\ wall (q_start_utc q) = dt_make 2024 6 1 4 0 0
    /\ wall (q_end_utc q) = dt_make 2024 6 2 4 0 0
    /\ @get_current_date_for_user fixed_zones
         (timezone moscow_settings) (day_end_hour moscow_settings) (clock e)
       = Ok (u "2024-06-01")
    /\ @get_day_start_end basic_unicode fixed_zones (u "2024-06-01")
         (timezone moscow_settings) (day_end_hour moscow_settings)
       = Ok (user_start, user_end)
    /\ wall user_start = dt_make 2024 5 31 1 0 0
    /\ wall user_end = dt_make 2024 6 1 1 0 0
    /\ q_date_str q <> u "2024-06-01"
    /\ (q_start_utc q, q_end_utc q) <> (user_start, user_end).
Proof.
  vm_compute. do 3 eexists. repeat split; try reflexivity; discriminate.
Qed.

(** ** Conversation memory *)

Lemma trim_last_ten {A} (l : list A) :
  (if (_max_memory_size <? length l)%nat
   then slice_last (Z.of_nat _max_memory_size) l else l) = last_ten l.
Proof.
  unfold last_ten, _max_memory_size.
  destruct (10 <? length l)%nat eqn:Hlen.
  - reflexivity.
  - apply Nat.ltb_ge in Hlen.
    replace (length l - 10)%nat with 0%nat by lia. reflexivity.
Qed.

Lemma last_ten_length {A} (l : list A) : (length (last_ten l) <= 10)%nat.
Proof. unfold last_ten. rewrite length_drop. lia. Qed.

Lemma last_ten_short {A} (l : list A) : (length l <= 10)%nat -> last_ten l = l.
Proof.
  intros Hl. unfold last_ten. replace (length l - 10)%nat with 0%nat by lia.
  reflexivity.
Qed.

Lemma last_ten_long {A} (l : list A) :
  (10 <= length l)%nat -> length (last_ten l) = 10%nat.
Proof. intros Hl. unfold last_ten. rewrite length_drop. lia. Qed.

Lemma last_ten_app {A} (l m : list A) :
  last_ten (last_ten l ++ m) = last_ten (l ++ m).
Proof.
  destruct (Nat.le_gt_cases (length l) 10) as [Hs|Hg].
  - now rewrite (last_ten_short l Hs).
  - unfold last_ten at 1 3. rewrite !length_app, (last_ten_long l) by lia.
    unfold last_ten.
    replace (length l + length m - 10)%nat
      with ((length l - 10) + length m)%nat by lia.
    rewrite <- drop_drop.
    rewrite (drop_app_le l m (length l - 10)) by lia.
    f_equal. lia.
Qed.

(** More than ten turns in sight: only what was appended last matters. *)
Lemma last_ten_of_new {A} (old new : list A) :
  (10 <= length new)%nat -> last_ten (old ++ new) = last_ten new.
Proof.
  intros Hn. unfold last_ten. rewrite length_app.
  replace (length old + length new - 10)%nat
    with (length old + (length new - 10))%nat by lia.
  rewrite <- drop_drop, drop_app_length. reflexivity.
Qed.

Section Memory.
Context `{Unicode}.

Lemma stored_after_append w a user_id :
  stored (run_append w a) user_id =
    if decide (ap_user a = user_id)
    then last_ten (stored w user_id ++ [turn_of a])
    else stored w user_id.
Proof.
  unfold run_append, _add_to_memory, modify, stored, turn_of.
  cbn [snd conversation_memory with_memory].
  rewrite trim_last_ten.
  destruct (decide (ap_user a = user_id)) as [<-|Hne].
  - rewrite lookup_insert_eq. cbn.
    destruct (conversation_memory w !! ap_user a) eqn:Hm.
    + now rewrite Hm.
    + now rewrite lookup_insert_eq.
  - rewrite lookup_insert_ne by exact Hne.
    destruct (conversation_memory w !! ap_user a); [reflexivity|].
    now rewrite lookup_insert_ne by exact Hne.
Qed.

Lemma stored_after_appends appends : forall w user_id,
  (length (stored w user_id) <= 10)%nat ->
  stored (run_appends appends w) user_id
    = last_ten (stored w user_id ++ turns_for user_id appends).
Proof.
  induction appends as [|a appends IH]; intros w user_id Hlen.
  - cbn. unfold turns_for. cbn. rewrite app_nil_r. now rewrite last_ten_short.
  - cbn [run_appends fold_left]. fold (run_appends appends (run_append w a)).
    pose proof (stored_after_append w a user_id) as Hstep.
    unfold turns_for.
    destruct (decide (ap_user a = user_id)) as [Heq|Hne].
    + rewrite filter_cons_True by exact Heq. cbn [map].
      rewrite IH by (rewrite Hstep; apply last_ten_length).
      rewrite Hstep, last_ten_app. fold (turns_for user_id appends).
      now rewrite <- app_assoc.
    + rewrite filter_cons_False by exact Hne.
      rewrite IH by (rewrite Hstep; exact Hlen).
      now rewrite Hstep.
Qed.

(** C6. Whatever is appended, for this user and for others, a user's
    stored turns are the last ten of what was there followed by what was
    appended for that user, oldest first; so they never exceed ten, and
    once more than ten turns were appended for the user they are exactly
    the ten appended last, in the order of appending.  (The memory
    starts empty; the bound holds from any memory that respects it.) *)
Theorem memory_keeps_the_last_ten appends w user_id :
  (length (stored w user_id) <= 10)%nat ->
  let w' := run_appends appends w in
  (length (stored w' user_id) <= 10)%nat
  /\ stored w' user_id = last_ten (stored w user_id ++ turns_for user_id appends)
  /\ ((10 < length (turns_for user_id appends))%nat ->
      length (stored w' user_id) = 10%nat
      /\ stored w' user_id = last_ten (turns_for user_id appends)
      /\ stored w' user_id
         = drop (length (turns_for user_id appends) - 10) (turns_for user_id appends)).
Proof.
  intros Hlen w'. subst w'.
  rewrite (stored_after_appends appends w user_id Hlen).
  split; [apply last_ten_length|]. split; [reflexivity|].
  intros Hmany. rewrite last_ten_of_new by lia.
  split; [apply last_ten_long; lia|]. split; reflexivity.
Qed.
End Memory.

(** Twelve turns appended for user 7 to the empty memory: turns 3 to 12
    remain, oldest first. *)
Lemma memory_after_twelve_appends :
  (length (stored empty_world 7) <= 10)%nat
  /\ length (stored (run_appends twelve_appends empty_world) 7) = 10%nat
  /\ stored (run_appends twelve_appends empty_world) 7
     = map turn_of (drop 2 twelve_appends).
Proof.
  assert (length (stored empty_world 7) <= 10)%nat as Hlen by (vm_compute; lia).
  split; [exact Hlen|].
  destruct (memory_keeps_the_last_ten twelve_appends empty_world 7 Hlen)
    as (_ & _ & Hmany).
  destruct Hmany as (Hten & _ & Hlast); [vm_compute; lia|].
  split; [exact Hten|]. rewrite Hlast. reflexivity.
Defined.

(** ** Intent classifier *)

Lemma dict_lookup_set d k v k' :
  dict_lookup (dict_set d k v) k' = if eqb_str k k' then Some v else dict_lookup d k'.
Proof.
  induction d as [|[k0 v0] d IH]; cbn; unfold eqb_str in *.
  - reflexivity.
  - destruct (decide (k0 = k)) as [->|Hne].
    + rewrite bool_decide_eq_true_2 by reflexivity. cbn. unfold eqb_str.
      destruct (bool_decide (k = k')); reflexivity.
    + rewrite bool_decide_eq_false_2 by exact Hne. cbn. unfold eqb_str.
      rewrite IH. destruct (decide (k0 = k')) as [->|Hne'].
      * rewrite bool_decide_eq_true_2 by reflexivity.
        now rewrite bool_decide_eq_false_2 by congruence.
      * now rewrite (bool_decide_eq_false_2 (k0 = k')) by exact Hne'.
Qed.

Lemma dict_lookup_update e : forall d k,
  dict_lookup e k = None -> dict_lookup (dict_update d e) k = dict_lookup d k.
Proof.
  unfold dict_update.
  induction e as [|[k0 v0] e IH]; intros d k Hk; cbn in *; [reflexivity|].
  destruct (eqb_str k0 k) eqn:H0; [discriminate|].
  rewrite IH by exact Hk. now rewrite dict_lookup_set, H0.
Qed.

(** A turn keeps its role and content when the extra data does not name
    them. *)
Lemma new_entry_role_content e role content extra :
  (forall d, extra = Some d ->
     dict_lookup d (u "role") = None /\ dict_lookup d (u "content") = None) ->
  dict_lookup (new_entry e role content extra) (u "role") = Some (VStr role)
  /\ dict_lookup (new_entry e role content extra) (u "content") = Some (VStr content).
Proof.
  intros Hextra. unfold new_entry.
  destruct extra as [[|kv more]|]; try (split; reflexivity).
  destruct (Hextra _ eq_refl) as [Hr Hc].
  rewrite !dict_lookup_update by assumption. split; reflexivity.
Qed.

Section Classifier.
Context `{Unicode} `{Builtins}.

Lemma get_memory_context_reads user_id limit w :
  snd (_get_memory_context user_id limit w) = w.
Proof.
  unfold _get_memory_context, get_world, mbind, M_bind, mret, M_ret, lift.
  destruct (conversation_memory w !! user_id); [|reflexivity].
  destruct (mapM context_line (slice_last limit l)); reflexivity.
Qed.

Lemma intent_context_reads user_id w : snd (intent_context user_id w) = w.
Proof.
  unfold intent_context. destruct (given user_id); [|reflexivity].
  apply get_memory_context_reads.
Qed.

Lemma detect_intent_try_run e text user_id w :
  detect_intent_try e text user_id w =
    match fst (intent_context user_id w) with
    | Raise ex => (Raise ex, w)
    | Ok context =>
        let w2 := with_posted (posted w ++ [IntentRequest context text]) w in
        match decode_reply (session_post e (IntentRequest context text)) with
        | Raise ex => (Raise ex, w2)
        | Ok intent =>
            match given user_id with
            | Some uid =>
                match dict_get intent (u "action") VNone with
                | Ok action =>
                    (Ok intent,
                     snd (_add_to_memory e uid (u "user") text
                            (Some [ (u "intent", action) ]) w2))
                | Raise ex => (Raise ex, w2)
                end
            | None => (Ok intent, w2)
            end
        end
    end.
Proof.
  unfold detect_intent_try.
  change (match given user_id with
          | Some uid => _get_memory_context uid 5
          | None => mret (u "(нет контекста)")
          end) with (intent_context user_id).
  unfold mbind at 1. unfold M_bind at 1.
  pose proof (intent_context_reads user_id w) as Hread.
  destruct (intent_context user_id w) as [[context|ex] w1]; cbn in Hread; subst w1;
    [|reflexivity].
  cbn [fst]. unfold decode_reply, post, lift, mbind, M_bind, result_bind, mret, M_ret.
  destruct (session_post e (IntentRequest context text)) as [r|ex]; [|reflexivity].
  destruct (raise_for_status r) as [[]|ex]; [|reflexivity].
  destruct (response_json r) as [res|ex]; [|reflexivity].
  destruct (message_content res) as [content|ex]; [|reflexivity].
  destruct (_extract_json content) as [content'|ex]; [|reflexivity].
  destruct (json_loads content') as [intent|ex]; [|reflexivity].
  destruct (given user_id) as [uid|]; [|reflexivity].
  destruct (dict_get intent (u "action") VNone) as [action|ex]; reflexivity.
Qed.

Lemma backend_failure_decode reply :
  backend_failure reply -> exists ex, decode_reply reply = Raise ex.
Proof.
  unfold decode_reply.
  intros [ex ->|r ex -> Hs|r ex -> Hs Hj|r res ex -> Hs Hj Hm
         |r res content ex -> Hs Hj Hm Hx|r res content text' ex -> Hs Hj Hm Hx Hl];
    cbn; try rewrite Hs; cbn; try rewrite Hj; cbn; try rewrite Hm; cbn;
    try rewrite Hx; cbn; try rewrite Hl; eauto.
Qed.

Lemma detect_intent_of_try e text user_id w :
  detect_intent e text user_id w =
    match detect_intent_try e text user_id w with
    | (Ok intent, w') => (Ok intent, w')
    | (Raise _, w') => (Ok (fallback_intent text), w')
    end.
Proof.
  unfold detect_intent, try_M.
  destruct (detect_intent_try e text user_id w) as [[intent|ex] w']; reflexivity.
Qed.

(** C5. [detect_intent] returns an intent whatever the utterance, the
    memory and the backend do: it never raises.  Whenever its [try] block
    raises, and so whenever the backend fails in any of the ways of
    [backend_failure] (the request raises or times out, an error status, a
    body that is not JSON, a malformed document, a content that is not
    JSON), it returns the fallback intent: action add_food with the
    utterance itself as food_description. *)
Theorem detect_intent_fails_open e text user_id w :
  (exists intent w', detect_intent e text user_id w = (Ok intent, w'))
  /\ (forall ex w', detect_intent_try e text user_id w = (Raise ex, w') ->
      detect_intent e text user_id w = (Ok (fallback_intent text), w'))
  /\ ((forall context, backend_failure (session_post e (IntentRequest context text))) ->
      fst (detect_intent e text user_id w) = Ok (fallback_intent text))
  /\ fallback_intent text
     = VDict [ (u "action", VStr (u "add_food")); (u "food_description", VStr text) ].
Proof.
  split; [|split; [|split]].
  - rewrite detect_intent_of_try.
    destruct (detect_intent_try e text user_id w) as [[intent|ex] w']; eauto.
  - intros ex w' Htry. now rewrite detect_intent_of_try, Htry.
  - intros Hfail. rewrite detect_intent_of_try, detect_intent_try_run.
    destruct (fst (intent_context user_id w)) as [context|ex]; [|reflexivity].
    destruct (backend_failure_decode _ (Hfail context)) as [ex ->]. reflexivity.
  - reflexivity.
Qed.

End Classifier.

(** With the backend out of reach the classifier falls back to add_food
    with the utterance. *)
Lemma detect_intent_offline :
  fst (@detect_intent basic_unicode example_builtins (env_at moscow_0330 offline)
         (u "съел 2 банана") (Some 7) empty_world)
  = Ok (VDict [ (u "action", VStr (u "add_food"));
                (u "food_description", VStr (u "съел 2 банана")) ]).
Proof.
  destruct (@detect_intent_fails_open basic_unicode example_builtins
              (env_at moscow_0330 offline) (u "съел 2 банана") (Some 7) empty_world)
    as (_ & _ & Hfail & _).
  apply Hfail. intros context. eapply transport_error. reflexivity.
Defined.


(** A reply that is not recorded: the unknown-field message of
    [_edit_food_voice] is shown and the memory stays as it was. *)
Lemma unknown_field_reply_is_not_recorded :
  let run := @_edit_food_voice basic_unicode example_builtins
               (env_at moscow_0330 offline) 7 (edit_hints "сыр" "хрен" "1") pantry in
  length (shown (snd run)) = 1%nat
  /\ conversation_memory (snd run) = conversation_memory pantry.
Proof. vm_compute. split; reflexivity. Qed.


(** ** Custom-food matcher *)

Lemma startswith_app p s : startswith p (p ++ s) = true.
Proof. induction p as [|a p IH]; cbn; [reflexivity|]. now rewrite N.eqb_refl. Qed.

Lemma startswith_split p : forall s,
  startswith p s = true -> exists after, s = p ++ after.
Proof.
  induction p as [|a p IH]; intros s Hs; cbn in *; [now exists s|].
  destruct s as [|b s]; [discriminate|].
  apply andb_true_iff in Hs as [Hab Hs]. apply N.eqb_eq in Hab as ->.
  destruct (IH _ Hs) as [after ->]. now exists after.
Qed.

(** [p in s] holds exactly when [p] is a substring of [s]. *)
Lemma contains_substring p s :
  contains p s = true <-> exists before after, s = before ++ p ++ after.
Proof.
  split.
  - induction s as [|c s IH]; cbn; intros Hc.
    + rewrite orb_false_r in Hc. destruct (startswith_split _ _ Hc) as [after ->].
      now exists [], after.
    + apply orb_true_iff in Hc as [Hc|Hc].
      * destruct (startswith_split _ _ Hc) as [after ->]. now exists [], after.
      * destruct (IH Hc) as (before & after & ->). now exists (c :: before), after.
  - intros (before & after & ->).
    induction before as [|c before IH].
    + cbn [app]. pose proof (startswith_app p after) as Hs.
      destruct (p ++ after); cbn; rewrite Hs; reflexivity.
    + cbn. rewrite IH. apply orb_true_r.
Qed.

Section QuantityPattern.
Context `{Unicode}.

Lemma span_take p : forall s n,
  (n <= span p s)%nat -> Forall (fun c => p c = true) (take n s).
Proof.
  induction s as [|c s IH]; intros n Hn; cbn in *.
  - destruct n; constructor.
  - destruct n; [constructor|]. cbn. destruct (p c) eqn:Hp; [|lia].
    constructor; [exact Hp|]. apply IH. lia.
Qed.

Lemma span_app p l : forall r,
  Forall (fun c => p c = true) l -> (length l <= span p (l ++ r))%nat.
Proof.
  induction l as [|c l IH]; intros r Hl; cbn; [lia|].
  inversion Hl as [|? ? Hc Hl']; subst. rewrite Hc. specialize (IH r Hl'). lia.
Qed.

Lemma spaces_then_key_true key rest : forall w,
  spaces_then_key key rest w = true ->
  exists k, (k <= w)%nat /\ startswith key (drop k rest) = true.
Proof.
  induction w as [|w IH]; cbn; intros Hw.
  - rewrite orb_false_r in Hw. exists 0%nat. split; [lia|exact Hw].
  - apply orb_true_iff in Hw as [Hw|Hw].
    + exists (S w). split; [lia|exact Hw].
    + destruct (IH Hw) as (k & Hk & Hs). exists k. split; [lia|exact Hs].
Qed.

Lemma spaces_then_key_false key rest : forall w,
  spaces_then_key key rest w = false ->
  forall k, (k <= w)%nat -> startswith key (drop k rest) = false.
Proof.
  induction w as [|w IH]; cbn; intros Hw k Hk.
  - rewrite orb_false_r in Hw. replace k with 0%nat by lia. exact Hw.
  - apply orb_false_iff in Hw as [Hw Hw'].
    destruct (decide (k = S w)) as [->|Hne]; [exact Hw|]. apply IH; [exact Hw'|lia].
Qed.

Lemma digits_then_key_some key s : forall d digits,
  digits_then_key key s d = Some digits ->
  exists n, (1 <= n <= d)%nat /\ digits = take n s
            /\ spaces_then_key key (drop n s) (span isspace (drop n s)) = true.
Proof.
  induction d as [|d IH]; cbn; intros digits Hd; [discriminate|].
  destruct (spaces_then_key key (drop (S d) s) (span isspace (drop (S d) s))) eqn:Hs.
  - injection Hd as <-. exists (S d). split; [lia|]. split; [reflexivity|exact Hs].
  - destruct (IH _ Hd) as (n & Hn & Hrest). exists n. split; [lia|exact Hrest].
Qed.

Lemma digits_then_key_none key s : forall d,
  digits_then_key key s d = None ->
  forall n, (1 <= n <= d)%nat ->
    spaces_then_key key (drop n s) (span isspace (drop n s)) = false.
Proof.
  induction d as [|d IH]; cbn; intros Hd n Hn; [lia|].
  destruct (spaces_then_key key (drop (S d) s) (span isspace (drop (S d) s))) eqn:Hs;
    [discriminate|].
  destruct (decide (n = S d)) as [->|Hne]; [exact Hs|]. apply IH; [exact Hd|lia].
Qed.

Lemma match_quantity_here_some key s digits :
  match_quantity_here key s = Some digits -> quantity_before key s digits.
Proof.
  unfold match_quantity_here. intros Hm.
  destruct (digits_then_key_some _ _ _ _ Hm) as (n & Hn & -> & Hs).
  destruct (spaces_then_key_true _ _ _ Hs) as (k & Hk & Hkey).
  destruct (startswith_split _ _ Hkey) as [after Hafter].
  exists [], (take k (drop n s)), after. cbn.
  split; [|split; [|split]].
  - rewrite <- Hafter, (take_drop k), (take_drop n). reflexivity.
  - intros Hnil. apply (f_equal length) in Hnil. rewrite length_take in Hnil. cbn in Hnil.
    assert (span isdecimal s <= length s)%nat.
    { clear. induction s as [|c s IH]; cbn; [lia|]. destruct (isdecimal c); lia. }
    lia.
  - apply span_take. lia.
  - apply span_take. exact Hk.
Qed.

Lemma match_quantity_here_none key digits spaces after :
  digits <> [] ->
  Forall (fun c => isdecimal c = true) digits ->
  Forall (fun c => isspace c = true) spaces ->
  match_quantity_here key (digits ++ spaces ++ key ++ after) <> None.
Proof.
  intros Hne Hd Hs Hnone. unfold match_quantity_here in Hnone.
  pose proof (digits_then_key_none _ _ _ Hnone (length digits)) as Hfalse.
  rewrite drop_app_length in Hfalse.
  assert (1 <= length digits)%nat as Hone by (destruct digits; [congruence|cbn; lia]).
  specialize (Hfalse (conj Hone (span_app _ _ _ Hd))).
  pose proof (spaces_then_key_false _ _ _ Hfalse (length spaces) (span_app _ _ _ Hs)) as Hk.
  rewrite drop_app_length, startswith_app in Hk. discriminate.
Qed.

(** The pattern finds digits exactly when some digits stand before the
    key, and what it returns are such digits. *)
Lemma search_quantity_spec key text :
  match search_quantity key text with
  | Some digits => quantity_before key text digits
  | None => forall digits, ~ quantity_before key text digits
  end.
Proof.
  induction text as [|c text IH].
  - cbn [search_quantity]. destruct (match_quantity_here key []) eqn:Hm.
    + exact (match_quantity_here_some _ _ _ Hm).
    + intros digits (before & spaces & after & Heq & Hne & Hd & Hs).
      destruct before; [|discriminate]. cbn in Heq.
      apply (match_quantity_here_none key digits spaces after Hne Hd Hs).
      now rewrite <- Heq.
  - cbn [search_quantity]. destruct (match_quantity_here key (c :: text)) eqn:Hm.
    + exact (match_quantity_here_some _ _ _ Hm).
    + destruct (search_quantity key text) as [digits|].
      * destruct IH as (before & spaces & after & -> & Hrest).
        exists (c :: before), spaces, after. split; [reflexivity|exact Hrest].
      * intros digits (before & spaces & after & Heq & Hne & Hd & Hs).
        destruct before as [|b before].
        -- cbn in Heq. apply (match_quantity_here_none key digits spaces after Hne Hd Hs).
           now rewrite <- Heq.
        -- injection Heq as _ Heq. apply (IH digits).
           exists before, spaces, after. auto.
Qed.
End QuantityPattern.

Section Matcher.
Context `{Unicode}.

Lemma scaled_item_scalable food multiplier :
  scalable food multiplier -> exists item, scaled_item food multiplier = Ok item.
Proof.
  intros (m & calories & Hm & Hc). unfold scaled_item.
  rewrite Hm. cbn. rewrite Hc. cbn. eauto.
Qed.

Lemma scaled_item_scaled food multiplier item :
  scaled_item food multiplier = Ok item -> scaled_from food multiplier item.
Proof.
  unfold scaled_item, scaled_from.
  destruct (float_of_int multiplier) as [m|ex] eqn:Hm; cbn; [|discriminate].
  destruct (int_of_float (fmul (CustomFood.calories food) m)) as [calories|ex] eqn:Hc;
    cbn; [|discriminate].
  intros [= <-]. exists m, calories. cbn. repeat split; auto.
Qed.

Lemma matched_key_found food text_lower key :
  matched_key food text_lower = Some key ->
  contains key text_lower = true
  /\ (key = CustomFood.name food \/ In key (alias_list food)).
Proof.
  unfold matched_key.
  destruct (contains (CustomFood.name food) text_lower) eqn:Hname.
  - intros [= <-]. split; [exact Hname|now left].
  - intros Hhead. apply head_Some_elem_of, list_elem_of_filter in Hhead as [Hc Hin].
    split; [exact Hc|]. right. now apply list_elem_of_In.
Qed.

Lemma matched_key_occurs food text_lower :
  occurs food text_lower -> exists key, matched_key food text_lower = Some key.
Proof.
  unfold occurs, matched_key. intros [Hname|(alias & Hin & Hc)].
  - rewrite Hname. eauto.
  - destruct (contains (CustomFood.name food) text_lower); [eauto|].
    apply head_is_Some. intros Hnil.
    assert (alias ∈ filter (fun a => contains a text_lower = true) (alias_list food)) as Hf.
    { apply list_elem_of_filter. split; [exact Hc|now apply list_elem_of_In]. }
    rewrite Hnil in Hf. inversion Hf.
Qed.

Lemma check_each_matching text_lower foods :
  (forall food key, In food foods -> matched_key food text_lower = Some key ->
     scalable food (multiplier_for key text_lower)) ->
  exists items,
    check_each foods text_lower = Ok items
    /\ Forall2 (fun fm item => scaled_from (fst fm) (snd fm) item)
         (matching text_lower foods) items
    /\ (forall food key, In food foods -> matched_key food text_lower = Some key ->
          exists item, In item items
                       /\ scaled_from food (multiplier_for key text_lower) item).
Proof.
  induction foods as [|food foods IH]; intros Hscal.
  - exists []. cbn. split; [reflexivity|]. split; [constructor|]. intros ? ? [].
  - destruct IH as (items & Hrun & Hall & Hin).
    { intros f k Hf. apply Hscal. now right. }
    cbn [check_each]. unfold matching. cbn [omap list_omap].
    fold (matching text_lower foods).
    destruct (matched_key food text_lower) as [key|] eqn:Hkey.
    + destruct (scaled_item_scalable _ _ (Hscal food key (or_introl eq_refl) Hkey))
        as [item Hitem].
      rewrite Hitem, bind_Ok, Hrun, bind_Ok.
      exists (item :: items). split; [reflexivity|]. split.
      * constructor; [|exact Hall]. cbn. now apply scaled_item_scaled.
      * intros f k [<-|Hf] Hk.
        -- rewrite Hkey in Hk. injection Hk as <-.
           exists item. split; [now left|now apply scaled_item_scaled].
        -- destruct (Hin f k Hf Hk) as (it & Hit & Hsc). exists it. split; [now right|exact Hsc].
    + exists items. split; [exact Hrun|]. split; [exact Hall|].
      intros f k [<-|Hf] Hk; [congruence|]. exact (Hin f k Hf Hk).
Qed.

Lemma check_custom_foods_each text foods :
  _check_custom_foods text foods = check_each foods (str_lower text).
Proof. destruct foods; reflexivity. Qed.

(** C8, as the code has it.  When the scaled values fit (no
    [OverflowError]), the matcher returns one item for each saved food
    whose name, or else an alias, occurs in the case-folded utterance, in
    the order of the foods.  The multiplier is the integer that the digits
    before an occurrence of the matched name or alias spell, white space
    allowed in between, and 1 when there are no such digits.  The item has
    the grams times the multiplier, the calories times the multiplier cut
    to an integer (towards zero, not rounded), and the protein, fat and
    carbs times the multiplier rounded to one decimal. *)
Theorem custom_foods_matched text foods :
  let text_lower := str_lower text in
  (forall food key, In food foods -> matched_key food text_lower = Some key ->
     scalable food (multiplier_for key text_lower)) ->
  exists items,
    _check_custom_foods text foods = Ok items
    /\ Forall2 (fun fm item => scaled_from (fst fm) (snd fm) item)
         (matching text_lower foods) items
    /\ (forall food, In food foods -> occurs food text_lower ->
          exists key item,
            matched_key food text_lower = Some key
            /\ contains key text_lower = true
            /\ (key = CustomFood.name food \/ In key (alias_list food))
            /\ In item items
            /\ scaled_from food (multiplier_for key text_lower) item)
    /\ (forall key,
          match search_quantity key text_lower with
          | Some digits =>
              quantity_before key text_lower digits
              /\ multiplier_for key text_lower = int_of_digits digits
          | None =>
              (forall digits, ~ quantity_before key text_lower digits)
              /\ multiplier_for key text_lower = 1
          end).
Proof.
  intros text_lower Hscal.
  destruct (check_each_matching text_lower foods Hscal) as (items & Hrun & Hall & Hin).
  exists items. rewrite check_custom_foods_each. fold text_lower.
  split; [exact Hrun|]. split; [exact Hall|]. split.
  - intros food Hfood Hocc.
    destruct (matched_key_occurs _ _ Hocc) as [key Hkey].
    destruct (matched_key_found _ _ _ Hkey) as [Hc Hwhich].
    destruct (Hin food key Hfood Hkey) as (item & Hitem & Hsc).
    exists key, item. auto.
  - intros key. pose proof (search_quantity_spec key text_lower) as Hspec.
    unfold multiplier_for.
    destruct (search_quantity key text_lower); split; auto.
Qed.
End Matcher.

Lemma check_two_bananas :
  @_check_custom_foods basic_unicode (u "съел 2 банана") [banana] = Ok [banana_twice].
Proof. vm_compute. reflexivity. Qed.

(** The example of C8: the banana (120 g, 105 kcal) in 'съел 2 банана'
    gives one item of 240 g and 210 kcal. *)
Lemma two_bananas :
  exists items,
    @_check_custom_foods basic_unicode (u "съел 2 банана") [banana] = Ok items
    /\ items = [banana_twice]
    /\ NutritionItem.grams banana_twice = VInt 240
    /\ NutritionItem.calories banana_twice = VInt 210.
Proof.
  destruct (@custom_foods_matched basic_unicode (u "съел 2 банана") [banana])
    as (items & Hrun & _).
  { intros food key [<-|[]] Hkey. vm_compute in Hkey. injection Hkey as <-.
    vm_compute. do 2 eexists. split; reflexivity. }
  exists items. split; [exact Hrun|].
  rewrite check_two_bananas in Hrun. injection Hrun as <-.
  split; [reflexivity|]. split; reflexivity.
Defined.

(** C8 as stated fails on the calories: 99.9 kcal taken once are 99, where
    rounding gives 100. *)
Lemma calories_are_cut_not_rounded :
  exists item,
    @_check_custom_foods basic_unicode (u "сыр") [cheese] = Ok [item]
    /\ NutritionItem.calories item = VInt 99
    /\ (m ← float_of_int 1; round0 (fmul (CustomFood.calories cheese) m)) = Ok 100.
Proof. vm_compute. eexists. repeat split; reflexivity. Qed.

(** ** Analysis: saved foods before the model *)

Lemma saved_bananas_found :
  @_check_custom_foods basic_unicode (u "съел 2 банана")
    (get_custom_foods (custom_foods (with_custom_foods [banana] empty_world)) 7)
  = Ok [banana_twice].
Proof. vm_compute. reflexivity. Qed.

Lemma banana_twice_calories :
  py_sum (map NutritionItem.calories [banana_twice]) = Ok (VInt 210).
Proof. vm_compute. reflexivity. Qed.

Lemma py_add_ints a b : py_add (VInt a) (VInt b) = Ok (VInt (a + b)).
Proof. reflexivity. Qed.

Lemma py_add_floats x y : py_add (VFloat x) (VFloat y) = Ok (VFloat (fadd x y)).
Proof. reflexivity. Qed.

Lemma py_add_zero_float y :
  py_add (VInt 0) (VFloat y) = Ok (VFloat (fadd (S754_zero false) y)).
Proof. reflexivity. Qed.

Lemma sum_from_ints l : forall acc,
  Forall (fun v => exists n, v = VInt n) l ->
  exists n, sum_from (VInt acc) l = Ok (VInt n).
Proof.
  induction l as [|v l IH]; intros acc Hl; cbn [sum_from]; [eauto|].
  inversion Hl as [|? ? [n ->] Hl']; subst.
  rewrite py_add_ints, bind_Ok. apply IH, Hl'.
Qed.

Lemma sum_from_floats l : forall acc,
  Forall (fun v => exists x, v = VFloat x) l ->
  exists x, sum_from (VFloat acc) l = Ok (VFloat x).
Proof.
  induction l as [|v l IH]; intros acc Hl; cbn [sum_from]; [eauto|].
  inversion Hl as [|? ? [x ->] Hl']; subst.
  rewrite py_add_floats, bind_Ok. apply IH, Hl'.
Qed.

Lemma py_sum_ints l :
  Forall (fun v => exists n, v = VInt n) l -> exists n, py_sum l = Ok (VInt n).
Proof. apply sum_from_ints. Qed.

Lemma py_sum_floats l :
  l <> [] -> Forall (fun v => exists x, v = VFloat x) l ->
  exists x, py_sum l = Ok (VFloat x).
Proof.
  intros Hne Hl. destruct l as [|v l]; [congruence|].
  inversion Hl as [|? ? [x ->] Hl']; subst.
  unfold py_sum. cbn [sum_from]. rewrite py_add_zero_float, bind_Ok.
  apply sum_from_floats, Hl'.
Qed.

Section Analysis.
Context `{Unicode} `{Builtins}.

Lemma check_each_items text_lower foods : forall items,
  check_each foods text_lower = Ok items ->
  Forall (fun item => exists food multiplier, scaled_from food multiplier item) items.
Proof.
  induction foods as [|food foods IH]; intros items; cbn [check_each].
  - intros [= <-]. constructor.
  - destruct (matched_key food text_lower) as [key|]; [|apply IH].
    destruct (scaled_item food (multiplier_for key text_lower)) as [item|ex] eqn:Hitem;
      [rewrite bind_Ok|rewrite bind_Raise; discriminate].
    destruct (check_each foods text_lower) as [found|ex];
      [rewrite bind_Ok|rewrite bind_Raise; discriminate].
    intros [= <-]. constructor; [|now apply IH].
    exists food, (multiplier_for key text_lower). now apply scaled_item_scaled.
Qed.

(** The model path sends exactly one request to the backend. *)
Lemma analyze_with_model_posts e text w :
  posted (snd (analyze_with_model e text w)) = posted w ++ [AnalysisRequest text].
Proof.
  unfold analyze_with_model, try_M, post, mbind, M_bind, lift, mret, M_ret.
  destruct (session_post e (AnalysisRequest text)) as [r|ex].
  - destruct (raise_for_status r) as [[]|ex1].
    + destruct (response_json r) as [res|ex2].
      * destruct (message_content res) as [content|ex3].
        -- destruct (_extract_json content) as [content'|ex4].
           ++ match goal with
              | |- context [json_loads ?c] => destruct (json_loads c) as [data|je]
              end.
              ** destruct (from_dict data) as [a|ex5]; cbn.
                 --- reflexivity.
                 --- destruct (is_RequestException (exn_kind ex5)); cbn; [reflexivity|].
                     destruct (is_JSONDecodeError (exn_kind ex5)); reflexivity.
              ** destruct (is_JSONDecodeError (exn_kind je)) eqn:Hje; cbn; [reflexivity|].
                 destruct (is_RequestException (exn_kind je)); cbn; [reflexivity|].
                 rewrite Hje. reflexivity.
           ++ cbn. destruct (is_RequestException (exn_kind ex4)); cbn; [reflexivity|].
              destruct (is_JSONDecodeError (exn_kind ex4)); reflexivity.
        -- cbn. destruct (is_RequestException (exn_kind ex3)); cbn; [reflexivity|].
           destruct (is_JSONDecodeError (exn_kind ex3)); reflexivity.
      * cbn. destruct (is_RequestException (exn_kind ex2)); cbn; [reflexivity|].
        destruct (is_JSONDecodeError (exn_kind ex2)); reflexivity.
    + cbn. destruct (is_RequestException (exn_kind ex1)); cbn; [reflexivity|].
      destruct (is_JSONDecodeError (exn_kind ex1)); reflexivity.
  - cbn. destruct (is_RequestException (exn_kind ex)); cbn; [reflexivity|].
    destruct (is_JSONDecodeError (exn_kind ex)); reflexivity.
Qed.

(** C9. When a repository and a user id are given (the id not 0) and the
    matcher returns at least one item, [analyze] returns those items with
    the sums of their calories, protein, fat and carbs as totals, the note
    of saved data and no error; it leaves the state as it was, so no
    request is sent to the backend (the model path always sends one); and
    the result is the same under any two environments, whatever their
    backends answer. *)
Theorem analyze_prefers_saved_foods e1 e2 text user_id uid w items :
  given user_id = Some uid ->
  _check_custom_foods text (get_custom_foods (custom_foods w) uid) = Ok items ->
  items <> [] ->
  exists analysis,
    analyze e1 text true user_id w = (Ok analysis, w)
    /\ analyze e2 text true user_id w = (Ok analysis, w)
    /\ posted (snd (analyze e1 text true user_id w)) = posted w
    /\ (forall w0, posted (snd (analyze_with_model e1 text w0))
                   = posted w0 ++ [AnalysisRequest text])
    /\ NutritionAnalysis.items analysis = items
    /\ py_sum (map NutritionItem.calories items)
       = Ok (NutritionAnalysis.total_calories analysis)
    /\ py_sum (map NutritionItem.protein items)
       = Ok (NutritionAnalysis.total_protein analysis)
    /\ py_sum (map NutritionItem.fat items) = Ok (NutritionAnalysis.total_fat analysis)
    /\ py_sum (map NutritionItem.carbs items)
       = Ok (NutritionAnalysis.total_carbs analysis)
    /\ NutritionAnalysis.notes analysis = VStr (u "Из сохранённых продуктов ✓")
    /\ NutritionAnalysis.error analysis = VNone.
Proof.
  intros Hgiven Hcheck Hne.
  pose proof Hcheck as Hshape. rewrite check_custom_foods_each in Hshape.
  apply check_each_items in Hshape.
  assert (exists n, py_sum (map NutritionItem.calories items) = Ok (VInt n)) as [c Hc].
  { apply py_sum_ints. apply Forall_forall. intros v Hv.
    apply list_elem_of_In, in_map_iff in Hv as (item & <- & Hitem).
    rewrite Forall_forall in Hshape.
    destruct (Hshape item) as (food & m & mf & cal & _ & _ & _ & Hcal & _);
      [now apply list_elem_of_In|]. eauto. }
  assert (forall proj,
            (forall item food m, scaled_from food m item -> exists x, proj item = VFloat x) ->
            exists x, py_sum (map proj items) = Ok (VFloat x)) as Hfloat.
  { intros proj Hproj. apply py_sum_floats.
    - destruct items; [congruence|discriminate].
    - apply Forall_forall. intros v Hv.
      apply list_elem_of_In, in_map_iff in Hv as (item & <- & Hitem).
      rewrite Forall_forall in Hshape.
      destruct (Hshape item) as (food & m & Hsc); [now apply list_elem_of_In|]. eauto. }
  destruct (Hfloat NutritionItem.protein) as [p Hp].
  { intros item food m (mf & cal & _ & _ & _ & _ & Hx & _). eauto. }
  destruct (Hfloat NutritionItem.fat) as [f Hf].
  { intros item food m (mf & cal & _ & _ & _ & _ & _ & Hx & _). eauto. }
  destruct (Hfloat NutritionItem.carbs) as [cb Hcb].
  { intros item food m (mf & cal & _ & _ & _ & _ & _ & _ & Hx). eauto. }
  assert (forall e, analyze e text true user_id w =
            (Ok {| NutritionAnalysis.items := items;
                   NutritionAnalysis.total_calories := VInt c;
                   NutritionAnalysis.total_protein := VFloat p;
                   NutritionAnalysis.total_fat := VFloat f;
                   NutritionAnalysis.total_carbs := VFloat cb;
                   NutritionAnalysis.notes := VStr (u "Из сохранённых продуктов ✓");
                   NutritionAnalysis.error := VNone |}, w)) as Hrun.
  { intros e. unfold analyze. rewrite Hgiven.
    unfold mbind, M_bind, get_world, lift, mret, M_ret.
    rewrite Hcheck. destruct items as [|item items']; [congruence|].
    rewrite Hc, Hp, Hf, Hcb. reflexivity. }
  eexists. split; [apply Hrun|]. split; [apply Hrun|].
  split; [now rewrite Hrun|]. split; [intros w0; apply analyze_with_model_posts|].
  cbn. repeat split; assumption.
Qed.
End Analysis.

(** Two bananas are analysed from the saved food, with the backend out of
    reach or answering: the same result, and nothing is sent. *)
Lemma two_bananas_analysed :
  exists analysis,
    let w := with_custom_foods [banana] empty_world in
    @analyze basic_unicode example_builtins (env_at moscow_0330 offline)
      (u "съел 2 банана") true (Some 7) w = (Ok analysis, w)
    /\ @analyze basic_unicode example_builtins (env_at moscow_0405 answering)
         (u "съел 2 банана") true (Some 7) w = (Ok analysis, w)
    /\ NutritionAnalysis.items analysis = [banana_twice]
    /\ NutritionAnalysis.total_calories analysis = VInt 210.
Proof.
  destruct (@analyze_prefers_saved_foods basic_unicode example_builtins
              (env_at moscow_0330 offline) (env_at moscow_0405 answering)
              (u "съел 2 банана") (Some 7) 7 (with_custom_foods [banana] empty_world)
              [banana_twice] eq_refl saved_bananas_found ltac:(discriminate))
    as (analysis & H1 & H2 & _ & _ & Hitems & Hcal & _).
  exists analysis. cbv zeta. split; [exact H1|]. split; [exact H2|].
  split; [exact Hitems|].
  rewrite banana_twice_calories in Hcal. now injection Hcal as <-.
Defined.

(** ** Edit resolution *)

Lemma field_mapping_canonical alias canonical :
  field_mapping !! alias = Some canonical -> In canonical valid_fields.
Proof.
  revert alias canonical.
  assert (map_Forall (fun _ v => bool_decide (v ∈ valid_fields) = true) field_mapping)
    as Hall.
  { apply map_Forall_to_list. vm_compute. repeat constructor. }
  intros alias canonical Hl. apply list_elem_of_In.
  exact (bool_decide_eq_true_1 _ (Hall alias canonical Hl)).
Qed.

Lemma valid_field_decided field :
  bool_decide (field ∈ valid_fields) = true -> In field valid_fields.
Proof. intros Hd. apply list_elem_of_In. exact (bool_decide_eq_true_1 _ Hd). Qed.

Lemma unknown_field_decided field :
  bool_decide (field ∈ valid_fields) = false -> ~ In field valid_fields.
Proof.
  intros Hd Hin. apply list_elem_of_In in Hin.
  exact (bool_decide_eq_false_1 _ Hd Hin).
Qed.

Lemma keeps_foods_bind {A B} (m : M A) (k : A -> M B) :
  keeps_foods m -> (forall a, keeps_foods (k a)) -> keeps_foods (a ← m; k a).
Proof.
  intros Hm Hk w. unfold mbind, M_bind.
  destruct (Hm w) as [Hf Hu]. destruct (m w) as [[a|ex] w1]; cbn in *.
  - destruct (Hk a w1) as [Hf' Hu']. split; congruence.
  - split; assumption.
Qed.

Lemma M_bind_run {A B} (m : M A) (k : A -> M B) w :
  (a ← m; k a) w =
    match m w with
    | (Ok a, w') => k a w'
    | (Raise ex, w') => (Raise ex, w')
    end.
Proof. reflexivity. Qed.

Lemma M_bind_lift_Ok {A B} (a : A) (k : A -> M B) w : (x ← lift (Ok a); k x) w = k a w.
Proof. reflexivity. Qed.

Lemma keeps_foods_lift {A} (r : result A) : keeps_foods (lift r).
Proof. intros w. split; reflexivity. Qed.

Lemma keeps_foods_ret {A} (a : A) : keeps_foods (mret a).
Proof. intros w. split; reflexivity. Qed.

Section EditResolution.
Context `{Unicode} `{Builtins}.

Lemma keeps_foods_edit_text text : keeps_foods (edit_text text).
Proof. intros w. split; reflexivity. Qed.

Lemma keeps_foods_add_bot e user_id response extra :
  keeps_foods (add_bot_response_to_memory e user_id response extra).
Proof. intros w. split; reflexivity. Qed.

Lemma keeps_foods_repo_find user_id query : keeps_foods (repo_find user_id query).
Proof. intros w. destruct query; split; reflexivity. Qed.

Lemma after_repo_update {A} user_id food_id upd (k : bool -> M A) w :
  (forall changed, keeps_foods (k changed)) ->
  let run := (success ← repo_update user_id food_id upd; k success) w in
  update_calls (snd run) = update_calls w ++ [(user_id, food_id, upd)]
  /\ custom_foods (snd run)
     = fst (update_custom_food (custom_foods w) user_id food_id upd).
Proof.
  intros Hk run. subst run. rewrite M_bind_run. unfold repo_update.
  destruct (update_custom_food (custom_foods w) user_id food_id upd)
    as [table changed].
  cbv beta iota. destruct (Hk changed
    (with_update_calls (update_calls w ++ [(user_id, food_id, upd)])
       (with_custom_foods table w))) as [Hfoods Hcalls].
  rewrite Hfoods, Hcalls. split; reflexivity.
Qed.

(** Runs the messages and memory writes that end a branch of a handler. *)
Ltac run_effects :=
  rewrite ?M_bind_run;
  unfold edit_text, add_bot_response_to_memory, _add_to_memory, modify;
  cbv beta iota;
  cbn [fst snd custom_foods update_calls shown conversation_memory
       with_memory with_shown];
  unfold unknown_field_message, unparsable_value_message;
  repeat split; reflexivity.

Lemma repo_find_str user_id query w :
  repo_find user_id (VStr query) w
  = (Ok (find_custom_food (custom_foods w) user_id query), w).
Proof. reflexivity. Qed.

Lemma parsed_value_raises field value ex :
  parsed_value field value = Raise ex -> exn_kind ex = ValueError.
Proof.
  unfold parsed_value.
  destruct (bool_decide (field ∈ [u "calories"; u "protein"; u "fat"; u "carbs"])).
  - destruct (first_number (format_value value)) as [[whole frac]|]; [discriminate|].
    now intros [= <-].
  - destruct (eqb_str field (u "grams")); [|discriminate].
    destruct (first_integer (format_value value)); [discriminate|]. now intros [= <-].
Qed.

End EditResolution.


(** * Further properties *)

(** ** Dates and day ranges *)

Lemma in_range_from_0 n x : 0 <= x < n -> In x (range_from_0 n).
Proof.
  intros Hx. unfold range_from_0. apply in_map_iff. exists (Z.to_nat x).
  split; [lia|]. apply in_seq. lia.
Qed.

Lemma ord2ymd_parts ordinal :
  ord2ymd ordinal =
    let n0 := ordinal - 1 in
    let a := n0 / 146097 in
    let b := (n0 mod 146097) / 36524 in
    let c := ((n0 mod 146097) mod 36524) / 1461 in
    let d := (((n0 mod 146097) mod 36524) mod 1461) / 365 in
    let e := (((n0 mod 146097) mod 36524) mod 1461) mod 365 in
    let year := a * 400 + 1 + b * 100 + c * 4 + d in
    if (d =? 4) || (b =? 4) then (year - 1, 12, 31)
    else
      let '(m, dd) := month_day_in_year e ((d =? 3) && (negb (c =? 24) || (b =? 3))) in
      (year, m, dd).
Proof.
  unfold ord2ymd, month_day_in_year. cbv zeta.
  destruct (_ || _); [reflexivity|]. destruct (_ >? _); reflexivity.
Qed.

Lemma days_in_year_ok leapyear n : 0 <= n < 365 -> day_in_year_ok leapyear n = true.
Proof.
  assert (forallb (fun l => forallb (day_in_year_ok l) (range_from_0 365)) [true; false]
          = true) as Hall by (vm_compute; reflexivity).
  intros Hn. cbn [forallb] in Hall.
  apply andb_true_iff in Hall as [Ht Hf]. apply andb_true_iff in Hf as [Hf _].
  rewrite forallb_forall in Ht, Hf.
  destruct leapyear; [apply Ht|apply Hf]; apply in_range_from_0; lia.
Qed.

Lemma years_in_cycle_ok b c d :
  0 <= b <= 3 -> 0 <= c <= 24 -> 0 <= d <= 3 -> year_in_cycle_ok (b, c, d) = true.
Proof.
  assert (forallb year_in_cycle_ok
            (list_prod (list_prod (range_from_0 4) (range_from_0 25)) (range_from_0 4))
          = true) as Hall by (vm_compute; reflexivity).
  intros Hb Hc Hd. rewrite forallb_forall in Hall. apply Hall.
  apply in_prod; [apply in_prod|]; apply in_range_from_0; lia.
Qed.

Lemma days_before_year_cycle y a :
  days_before_year (y + 400 * a) = days_before_year y + 146097 * a.
Proof.
  unfold days_before_year. cbv zeta.
  replace (y + 400 * a - 1) with (y - 1 + (100 * a) * 4) at 2 by lia.
  replace (y + 400 * a - 1) with (y - 1 + (4 * a) * 100) at 2 by lia.
  replace (y + 400 * a - 1) with (y - 1 + a * 400) at 2 by lia.
  rewrite !Z_div_plus_full by lia. lia.
Qed.

Lemma is_leap_cycle y a : is_leap (y + 400 * a) = is_leap y.
Proof.
  unfold is_leap.
  replace (y + 400 * a) with (y + (100 * a) * 4) at 1 by lia.
  replace (y + 400 * a) with (y + (4 * a) * 100) at 1 by lia.
  replace (y + 400 * a) with (y + a * 400) at 1 by lia.
  now rewrite !Z_mod_plus_full.
Qed.

Lemma days_in_month_table y m :
  days_in_month y m
  = nth (Z.to_nat (m - 1)) DAYS_IN_MONTH 0 + (if (m =? 2) && is_leap y then 1 else 0).
Proof.
  unfold days_in_month. destruct (m =? 2) eqn:Hm; [|cbn; lia].
  apply Z.eqb_eq in Hm. subst m. destruct (is_leap y); reflexivity.
Qed.

(** Every ordinal of the range of [datetime] is the ordinal of the date
    that [ord2ymd] gives for it, and that date is a valid one. *)
Lemma ord2ymd_valid n :
  1 <= n <= MAXORDINAL ->
  exists y m d,
    ord2ymd n = (y, m, d)
    /\ 1 <= y <= 9999 /\ 1 <= m <= 12 /\ 1 <= d <= days_in_month y m
    /\ ymd2ord y m d = n.
Proof.
  unfold MAXORDINAL. intros Hn. rewrite ord2ymd_parts. cbv zeta.
  pose proof (Z.div_mod (n - 1) 146097 ltac:(lia)) as E1.
  pose proof (Z.mod_pos_bound (n - 1) 146097 ltac:(lia)) as B1.
  set (a := (n - 1) / 146097) in *. set (r1 := (n - 1) mod 146097) in *.
  pose proof (Z.div_mod r1 36524 ltac:(lia)) as E2.
  pose proof (Z.mod_pos_bound r1 36524 ltac:(lia)) as B2.
  set (b := r1 / 36524) in *. set (r2 := r1 mod 36524) in *.
  pose proof (Z.div_mod r2 1461 ltac:(lia)) as E3.
  pose proof (Z.mod_pos_bound r2 1461 ltac:(lia)) as B3.
  set (c := r2 / 1461) in *. set (r3 := r2 mod 1461) in *.
  pose proof (Z.div_mod r3 365 ltac:(lia)) as E4.
  pose proof (Z.mod_pos_bound r3 365 ltac:(lia)) as B4.
  set (d := r3 / 365) in *. set (e := r3 mod 365) in *.
  assert (0 <= a <= 24) as Ha by lia.
  assert (0 <= b <= 4) as Hb by lia.
  assert (0 <= c <= 24) as Hc by lia.
  assert (0 <= d <= 4) as Hd by lia.
  destruct ((d =? 4) || (b =? 4)) eqn:Hspecial.
  - (* the last day of a leap year *)
    apply orb_true_iff in Hspecial.
    assert (exists b' c', 0 <= b' <= 3 /\ 0 <= c' <= 24
              /\ a * 400 + 1 + b * 100 + c * 4 + d - 1 = 1 + 100 * b' + 4 * c' + 3 + 400 * a
              /\ n - 1 = 36524 * b' + 1461 * c' + 365 * 3 + 365 + 146097 * a
              /\ (negb (c' =? 24) || (b' =? 3)) = true) as (b' & c' & Hb' & Hc' & Hy & Hn' & Hl).
    { destruct Hspecial as [H4|H4]; apply Z.eqb_eq in H4.
      - exists b, c. repeat split; lia.
      - exists 3, 24. repeat split; lia. }
    exists (a * 400 + 1 + b * 100 + c * 4 + d - 1), 12, 31.
    split; [reflexivity|]. rewrite Hy.
    pose proof (years_in_cycle_ok b' c' 3 Hb' Hc' ltac:(lia)) as Hyear.
    unfold year_in_cycle_ok in Hyear. cbv zeta in Hyear.
    apply andb_true_iff in Hyear as [Hdays Hleap].
    apply Z.eqb_eq in Hdays. apply eqb_prop in Hleap.
    rewrite Hl in Hleap. cbn in Hleap.
    rewrite days_in_month_table. unfold ymd2ord, days_before_month.
    rewrite is_leap_cycle, days_before_year_cycle, Hleap, Hdays.
    change (nth (Z.to_nat (12 - 1)) DAYS_IN_MONTH 0) with 31.
    change (nth (Z.to_nat (12 - 1)) DAYS_BEFORE_MONTH 0) with 334.
    change (12 =? 2) with false. change (12 >? 2) with true. cbn [andb].
    repeat split; lia.
  - apply orb_false_iff in Hspecial as [Hd4 Hb4].
    apply Z.eqb_neq in Hd4, Hb4.
    pose proof (days_in_year_ok ((d =? 3) && (negb (c =? 24) || (b =? 3))) e B4) as Hday.
    unfold day_in_year_ok in Hday.
    destruct (month_day_in_year e ((d =? 3) && (negb (c =? 24) || (b =? 3)))) as [m dd].
    pose proof (years_in_cycle_ok b c d ltac:(lia) Hc ltac:(lia)) as Hyear.
    unfold year_in_cycle_ok in Hyear. cbv zeta in Hyear.
    apply andb_true_iff in Hyear as [Hdays Hleap].
    apply Z.eqb_eq in Hdays. apply eqb_prop in Hleap.
    repeat (apply andb_true_iff in Hday as [Hday ?]).
    exists (a * 400 + 1 + b * 100 + c * 4 + d), m, dd.
    split; [reflexivity|].
    replace (a * 400 + 1 + b * 100 + c * 4 + d)
      with (1 + 100 * b + 4 * c + d + 400 * a) by lia.
    rewrite days_in_month_table. unfold ymd2ord, days_before_month.
    rewrite is_leap_cycle, days_before_year_cycle, Hleap, Hdays.
    repeat split; try lia.
Qed.

Lemma representable_between lo hi x :
  representable lo = true -> representable hi = true -> lo <= x <= hi ->
  representable x = true.
Proof.
  unfold representable, dt_ordinal. intros Hlo Hhi Hx.
  apply andb_true_iff in Hlo as [Hlo _]. apply andb_true_iff in Hhi as [_ Hhi].
  apply Z.leb_le in Hlo, Hhi.
  pose proof (Z.div_le_mono lo x 86400 ltac:(lia) ltac:(lia)).
  pose proof (Z.div_le_mono x hi 86400 ltac:(lia) ltac:(lia)).
  apply andb_true_intro. split; apply Z.leb_le; lia.
Qed.

Lemma strftime_is_iso_date ordinal y m d :
  ord2ymd ordinal = (y, m, d) -> strftime_ymd ordinal = iso_date y m d.
Proof. intros Hymd. unfold strftime_ymd, iso_date. now rewrite Hymd. Qed.

Lemma strptime_strftime ordinal :
  1 <= ordinal <= MAXORDINAL ->
  @strptime_ymd basic_unicode (strftime_ymd ordinal) = Ok (ordinal * 86400).
Proof.
  intros Hn. destruct (ord2ymd_valid ordinal Hn) as (y & m & d & Hymd & Hy & Hm & Hd & Hord).
  rewrite (strftime_is_iso_date _ _ _ _ Hymd).
  rewrite (strptime_reads_iso_date y m d Hy Hm Hd). unfold dt_make. rewrite Hord.
  f_equal. lia.
Qed.



Section RelativeDates.
Context `{Unicode} `{Pytz}.

Lemma logical_today_ok tz h t :
  representable (local_now tz t - 86400) = true ->
  let now := {| wall := local_now tz t; utcoffset := utcoffset_at tz (EPOCH_WALL + t) |} in
  (if dt_hour (local_now tz t) <? h then aware_sub_days now 1 else Ok now)
  = Ok {| wall := logical_ordinal tz h t * 86400 + local_now tz t mod 86400;
          utcoffset := utcoffset_at tz (EPOCH_WALL + t) |}.
Proof.
  intros Hy now. subst now.
  unfold logical_ordinal. cbv zeta.
  pose proof (Z.div_mod (local_now tz t) 86400 ltac:(lia)) as Hdm.
  destruct (dt_hour (local_now tz t) <? h).
  - rewrite aware_sub_days_ok by (cbn [wall]; rewrite Z.mul_1_l; exact Hy).
    cbn [wall utcoffset]. f_equal. f_equal. unfold dt_ordinal. lia.
  - f_equal. f_equal. unfold dt_ordinal. lia.
Qed.

Lemma dt_ordinal_with_time ordinal s :
  0 <= s < 86400 -> dt_ordinal (ordinal * 86400 + s) = ordinal.
Proof.
  intros Hs. unfold dt_ordinal.
  rewrite Z.add_comm, Z_div_plus_full, Z.div_small by lia. lia.
Qed.

Lemma current_date_is_logical zone tz h t :
  pytz_zone zone = Some tz ->
  representable (EPOCH_WALL + t) = true ->
  representable (local_now tz t - 86400) = true ->
  representable (local_now tz t) = true ->
  get_current_date_for_user zone h t = Ok (strftime_ymd (logical_ordinal tz h t)).
Proof.
  intros Hz Hu Hy Hl. unfold get_current_date_for_user.
  rewrite (pytz_timezone_known _ _ Hz), bind_Ok, (datetime_now_ok _ _ Hu Hl), bind_Ok.
  cbn [wall]. unfold logical_ordinal. cbv zeta.
  destruct (dt_hour (local_now tz t) <? h).
  - rewrite aware_sub_days_ok by (cbn [wall]; rewrite Z.mul_1_l; exact Hy).
    rewrite bind_Ok. cbn [wall]. rewrite Z.mul_1_l, dt_ordinal_day_before. reflexivity.
  - reflexivity.
Qed.

Lemma relative_date_is_shifted relative_to zone tz h t :
  pytz_zone zone = Some tz ->
  representable (EPOCH_WALL + t) = true ->
  representable (local_now tz t - 2 * 86400) = true ->
  representable (local_now tz t + 86400) = true ->
  get_relative_date relative_to zone h t
    = Ok (strftime_ymd (logical_ordinal tz h t + relative_shift relative_to)).
Proof.
  intros Hz Hu Hlo Hhi.
  assert (representable (local_now tz t) = true) as Hl
    by (apply (representable_between _ _ _ Hlo Hhi); lia).
  assert (representable (local_now tz t - 86400) = true) as Hy
    by (apply (representable_between _ _ _ Hlo Hhi); lia).
  pose proof (Z.mod_pos_bound (local_now tz t) 86400 ltac:(lia)) as Hs.
  pose proof (Z.div_mod (local_now tz t) 86400 ltac:(lia)) as Hdm.
  assert (logical_ordinal tz h t = dt_ordinal (local_now tz t)
          \/ logical_ordinal tz h t = dt_ordinal (local_now tz t) - 1) as Hlog
    by (unfold logical_ordinal; cbv zeta; destruct (_ <? _); lia).
  unfold dt_ordinal in Hlog.
  set (today := {| wall := logical_ordinal tz h t * 86400 + local_now tz t mod 86400;
                   utcoffset := utcoffset_at tz (EPOCH_WALL + t) |}).
  unfold get_relative_date.
  rewrite (pytz_timezone_known _ _ Hz), bind_Ok.
  rewrite (datetime_now_ok _ _ Hu Hl), bind_Ok. cbn [wall].
  rewrite (logical_today_ok tz h t Hy), bind_Ok. fold today.
  unfold relative_shift.
  destruct (eqb_str relative_to (u "today")).
  { cbn [wall today]. rewrite Z.add_0_r, dt_ordinal_with_time by lia. reflexivity. }
  destruct (eqb_str relative_to (u "yesterday")).
  { rewrite aware_sub_days_ok, bind_Ok
      by (cbn [wall today]; apply (representable_between _ _ _ Hlo Hhi); lia).
    cbn [wall today].
    replace (logical_ordinal tz h t * 86400 + local_now tz t mod 86400 - 1 * 86400)
      with ((logical_ordinal tz h t + -1) * 86400 + local_now tz t mod 86400) by lia.
    rewrite dt_ordinal_with_time by lia. reflexivity. }
  destruct (eqb_str relative_to (u "tomorrow")).
  { rewrite aware_sub_days_ok, bind_Ok
      by (cbn [wall today]; apply (representable_between _ _ _ Hlo Hhi); lia).
    cbn [wall today].
    replace (logical_ordinal tz h t * 86400 + local_now tz t mod 86400 - -1 * 86400)
      with ((logical_ordinal tz h t + 1) * 86400 + local_now tz t mod 86400) by lia.
    rewrite dt_ordinal_with_time by lia. reflexivity. }
  cbn [wall today]. rewrite Z.add_0_r, dt_ordinal_with_time by lia. reflexivity.
Qed.

(** X. [get_relative_date] counts from the logical today: 'yesterday' is
    the day before it, 'tomorrow' the day after it, and any other word
    gives the logical today itself, the date of
    [get_current_date_for_user]. *)
Theorem relative_date_counts_from_logical_today relative_to zone tz h t :
  pytz_zone zone = Some tz ->
  representable (EPOCH_WALL + t) = true ->
  representable (local_now tz t - 2 * 86400) = true ->
  representable (local_now tz t + 86400) = true ->
  get_relative_date relative_to zone h t
    = Ok (strftime_ymd (logical_ordinal tz h t + relative_shift relative_to))
  /\ (relative_to <> u "yesterday" -> relative_to <> u "tomorrow" ->
      get_relative_date relative_to zone h t = get_current_date_for_user zone h t).
Proof.
  intros Hz Hu Hlo Hhi.
  pose proof (relative_date_is_shifted relative_to zone tz h t Hz Hu Hlo Hhi) as Hrelative.
  split; [exact Hrelative|].
  intros Hny Hnt. rewrite Hrelative.
  rewrite (current_date_is_logical zone tz h t Hz Hu)
    by (apply (representable_between _ _ _ Hlo Hhi); lia).
  unfold relative_shift.
  destruct (eqb_str relative_to (u "today")); [now rewrite Z.add_0_r|].
  unfold eqb_str. rewrite !bool_decide_eq_false_2 by assumption. now rewrite Z.add_0_r.
Qed.
End RelativeDates.

(** At 03:30 in Moscow on 2024-06-02 with the day end at 4, the logical
    today is 2024-06-01: yesterday is 2024-05-31, tomorrow 2024-06-02, and
    an unknown word gives 2024-06-01. *)
Lemma relative_dates_moscow :
  @get_relative_date fixed_zones (u "yesterday") (u "Europe/Moscow") 4 moscow_0330
    = Ok (u "2024-05-31")
  /\ @get_relative_date fixed_zones (u "tomorrow") (u "Europe/Moscow") 4 moscow_0330
    = Ok (u "2024-06-02")
  /\ @get_relative_date fixed_zones (u "позавчера") (u "Europe/Moscow") 4 moscow_0330
    = Ok (u "2024-06-01").
Proof.
  pose proof (fun r => proj1 (@relative_date_counts_from_logical_today fixed_zones
                r (u "Europe/Moscow") (fixed_offset 10800) 4 moscow_0330
                eq_refl eq_refl eq_refl eq_refl)) as Hrel.
  split; [|split]; rewrite Hrel; vm_compute; reflexivity.
Defined.

Section DayRanges.
Context `{Unicode} `{Pytz}.

Lemma get_day_start_end_ok D zone tz h date :
  pytz_zone zone = Some tz ->
  strptime_ymd D = Ok date ->
  0 <= h <= 23 ->
  let end_local := date + h * 3600 in
  let offset := localize_offset tz end_local in
  representable (end_local - 86400) = true ->
  representable (end_local - 86400 - offset) = true ->
  representable (end_local - offset) = true ->
  get_day_start_end D zone h
  = Ok ({| wall := end_local - 86400 - offset; utcoffset := 0 |},
        {| wall := end_local - offset; utcoffset := 0 |}).
Proof.
  intros Hz HD Hh end_local offset Hs Hsu Heu.
  pose proof (strptime_ymd_midnight _ _ HD) as Hm.
  unfold get_day_start_end.
  rewrite (pytz_timezone_known _ _ Hz), bind_Ok, HD, bind_Ok.
  rewrite (replace_hour_midnight _ _ Hm Hh), !bind_Ok. fold end_local.
  rewrite (aware_sub_days_ok (localize tz end_local) 1), bind_Ok
    by (cbn [localize wall]; rewrite Z.mul_1_l; exact Hs).
  cbn [localize wall utcoffset]. fold offset. rewrite Z.mul_1_l.
  rewrite astimezone_utc_ok, bind_Ok by (cbn [wall utcoffset]; exact Hsu).
  rewrite astimezone_utc_ok, bind_Ok by (cbn [wall utcoffset]; exact Heu).
  reflexivity.
Qed.

Lemma dt_hour_bounds w : 0 <= dt_hour w <= 23.
Proof.
  unfold dt_hour. pose proof (Z.mod_pos_bound w 86400 ltac:(lia)) as Hs.
  split; [apply Z.div_pos; lia|].
  assert (w mod 86400 / 3600 < 24); [|lia].
  apply Z.div_lt_upper_bound; lia.
Qed.


(** X. The ranges of two consecutive dates meet where the first ends,
    moved by the change of the offset of the zone between the two day
    ends: with the same offset at both, the second range starts exactly
    where the first ends; when the offset grows by an hour in between, the
    ranges overlap by an hour, and when it falls by an hour, an hour
    belongs to neither. *)
Theorem consecutive_day_ranges D D' zone tz h date :
  pytz_zone zone = Some tz ->
  strptime_ymd D = Ok date ->
  strptime_ymd D' = Ok (date + 86400) ->
  0 <= h <= 23 ->
  let end_local := date + h * 3600 in
  let next_end_local := date + 86400 + h * 3600 in
  -86400 < localize_offset tz end_local < 86400 ->
  -86400 < localize_offset tz next_end_local < 86400 ->
  representable (date - 2 * 86400) = true ->
  representable (date + 3 * 86400) = true ->
  exists range next_range,
    get_day_start_end D zone h = Ok range
    /\ get_day_start_end D' zone h = Ok next_range
    /\ wall (fst next_range) - wall (snd range)
       = localize_offset tz end_local - localize_offset tz next_end_local
    /\ (localize_offset tz end_local = localize_offset tz next_end_local ->
        fst next_range = snd range).
Proof.
  intros Hz HD HD' Hh end_local next_end_local Hoff Hoff' Hlo Hhi.
  subst end_local next_end_local.
  do 2 eexists. split; [|split].
  - apply (get_day_start_end_ok D zone tz h date Hz HD Hh);
      apply (representable_between _ _ _ Hlo Hhi); lia.
  - apply (get_day_start_end_ok D' zone tz h (date + 86400) Hz HD' Hh);
      apply (representable_between _ _ _ Hlo Hhi); lia.
  - cbn [fst snd wall]. split; [lia|]. intros ->. f_equal. lia.
Qed.
End DayRanges.


(** In London with the day end at 4, the clocks go forward between the
    day ends of 2024-03-30 and 2024-03-31: the range of the second date
    starts an hour before the first one ends. *)
Lemma day_ranges_overlap_in_london :
  exists range next_range,
    @get_day_start_end basic_unicode summer_zones (u "2024-03-30") (u "Europe/London") 4
      = Ok range
    /\ @get_day_start_end basic_unicode summer_zones (u "2024-03-31") (u "Europe/London") 4
      = Ok next_range
    /\ wall (fst next_range) - wall (snd range) = -3600.
Proof.
  destruct (@consecutive_day_ranges basic_unicode summer_zones
              (u "2024-03-30") (u "2024-03-31") (u "Europe/London") london_2024 4
              (dt_make 2024 3 30 0 0 0) eq_refl eq_refl eq_refl ltac:(lia)
              ltac:(vm_compute; split; reflexivity) ltac:(vm_compute; split; reflexivity)
              eq_refl eq_refl)
    as (range & next_range & Hr & Hn & Hgap & _).
  exists range, next_range. split; [exact Hr|]. split; [exact Hn|]. exact Hgap.
Defined.

Section LogicalDayRange.
Context `{Pytz}.

(** X. The date of [get_current_date_for_user] names the logical day by
    the calendar day on which it starts, and [get_day_start_end] reads a
    date as the calendar day on which the logical day ends.  So, where the
    offset of the zone does not change around the instant, the range of
    the logical today has already ended at the instant, which lies in the
    range of the logical tomorrow. *)
Theorem now_is_in_the_range_of_tomorrow zone tz h t off :
  pytz_zone zone = Some tz ->
  0 <= h <= 23 ->
  -86400 < off < 86400 ->
  utcoffset_at tz (EPOCH_WALL + t) = off ->
  localize_offset tz (day_end_local (logical_ordinal tz h t) h) = off ->
  localize_offset tz (day_end_local (logical_ordinal tz h t + 1) h) = off ->
  representable (EPOCH_WALL + t - 3 * 86400) = true ->
  representable (EPOCH_WALL + t + 3 * 86400) = true ->
  exists today tomorrow range_today range_tomorrow,
    get_current_date_for_user zone h t = Ok today
    /\ get_relative_date (u "tomorrow") zone h t = Ok tomorrow
    /\ @get_day_start_end basic_unicode _ today zone h = Ok range_today
    /\ @get_day_start_end basic_unicode _ tomorrow zone h = Ok range_tomorrow
    /\ wall (snd range_today) <= EPOCH_WALL + t
    /\ wall (fst range_tomorrow) <= EPOCH_WALL + t < wall (snd range_tomorrow).
Proof.
  intros Hz Hh Hoff Hnow Htoday Htomorrow Hlo Hhi.
  set (L := local_now tz t) in *.
  assert (L = EPOCH_WALL + t + off) as HL by (unfold L, local_now; now rewrite Hnow).
  pose proof (Z.div_mod L 86400 ltac:(lia)) as Hdm.
  pose proof (Z.mod_pos_bound L 86400 ltac:(lia)) as Hs.
  pose proof (Z.div_mod (L mod 86400) 3600 ltac:(lia)) as Hdm'.
  pose proof (Z.mod_pos_bound (L mod 86400) 3600 ltac:(lia)) as Hs'.
  set (o := logical_ordinal tz h t) in *.
  assert (o * 86400 + h * 3600 <= L < (o + 1) * 86400 + h * 3600) as Hin.
  { unfold o, logical_ordinal. cbv zeta. fold L. unfold dt_hour, dt_ordinal.
    destruct (L mod 86400 / 3600 <? h) eqn:Hearly.
    - apply Z.ltb_lt in Hearly. lia.
    - apply Z.ltb_ge in Hearly. lia. }
  assert (forall x, EPOCH_WALL + t - 3 * 86400 <= x <= EPOCH_WALL + t + 3 * 86400 ->
                    representable x = true) as Hrep
    by (intros x Hx; exact (representable_between _ _ _ Hlo Hhi Hx)).
  assert (1 <= o /\ o + 1 <= MAXORDINAL) as Ho.
  { pose proof (Hrep (o * 86400) ltac:(lia)) as H1.
    pose proof (Hrep ((o + 1) * 86400) ltac:(lia)) as H2.
    unfold representable, dt_ordinal in H1, H2.
    rewrite Z_div_mult_full in H1, H2 by lia.
    apply andb_true_iff in H1 as [H1 _]. apply andb_true_iff in H2 as [_ H2].
    apply Z.leb_le in H1, H2. lia. }
  exists (strftime_ymd o), (strftime_ymd (o + 1)).
  do 2 eexists.
  split; [apply (current_date_is_logical zone tz h t Hz); apply Hrep; fold L; lia|].
  split.
  { rewrite (relative_date_is_shifted (u "tomorrow") zone tz h t Hz)
      by (apply Hrep; fold L; lia).
    reflexivity. }
  split.
  { apply (@get_day_start_end_ok basic_unicode _ _ zone tz h (o * 86400) Hz);
      [apply strptime_strftime; lia|exact Hh|..];
      cbv zeta; fold (day_end_local o h); rewrite ?Htoday;
      apply Hrep; unfold day_end_local; lia. }
  split.
  { apply (@get_day_start_end_ok basic_unicode _ _ zone tz h ((o + 1) * 86400) Hz);
      [apply strptime_strftime; lia|exact Hh|..];
      cbv zeta; fold (day_end_local (o + 1) h); rewrite ?Htomorrow;
      apply Hrep; unfold day_end_local; lia. }
  cbn [fst snd wall].
  fold (day_end_local o h). fold (day_end_local (o + 1) h).
  rewrite Htoday, Htomorrow. unfold day_end_local. lia.
Qed.

(** X. Whatever the user writes, [normalize_timezone] gives a zone that
    [pytz] knows, provided [pytz] knows 'UTC' and the zone of the alias
    written: the calculator does not raise [UnknownTimeZoneError] on a
    normalized name.  Normalizing again changes nothing. *)
Theorem normalized_zone_is_known x :
  (forall zone, TIMEZONE_ALIASES !! @strip basic_unicode (@str_lower basic_unicode x)
                = Some zone -> is_Some (pytz_zone zone)) ->
  is_Some (pytz_zone (u "UTC")) ->
  exists zone tz,
    @normalize_timezone basic_unicode _ x = Ok zone
    /\ pytz_zone zone = Some tz
    /\ @normalize_timezone basic_unicode _ zone = Ok zone
    /\ forall h t, get_current_date_for_user zone h t <> raise UnknownTimeZoneError.
Proof.
  intros Halias [utc Hutc].
  assert (forall zone tz, pytz_zone zone = Some tz ->
            forall h t, get_current_date_for_user zone h t <> raise UnknownTimeZoneError)
    as Hcalc.
  { intros zone tz Hz h t. unfold get_current_date_for_user.
    rewrite (pytz_timezone_known _ _ Hz), bind_Ok.
    unfold datetime_now, dt_add_seconds, aware_sub_days, raise.
    destruct (representable (EPOCH_WALL + t)); [|discriminate].
    destruct (representable (EPOCH_WALL + t + utcoffset_at tz (EPOCH_WALL + t)));
      [|discriminate].
    cbn [mbind result_bind wall].
    destruct (dt_hour _ <? h); [|discriminate].
    unfold dt_add_seconds, raise.
    destruct (representable (EPOCH_WALL + t + utcoffset_at tz (EPOCH_WALL + t)
                             + - (1 * 86400))); discriminate. }
  assert (@normalize_timezone basic_unicode _ (u "UTC") = Ok (u "UTC")) as Hnutc
    by reflexivity.
  assert (forall alias zone, TIMEZONE_ALIASES !! alias = Some zone ->
            zone = u "UTC"
            \/ TIMEZONE_ALIASES !! @strip basic_unicode (@str_lower basic_unicode zone)
               = None) as Htargets.
  { assert (forallb
              (fun kv : list N * list N =>
                 bool_decide (snd kv = u "UTC")
                 || bool_decide
                      (TIMEZONE_ALIASES
                         !! @strip basic_unicode (@str_lower basic_unicode (snd kv)) = None))
              (map_to_list TIMEZONE_ALIASES) = true) as Hall by (vm_compute; reflexivity).
    intros alias zone Hl. rewrite forallb_forall in Hall.
    apply elem_of_map_to_list, list_elem_of_In in Hl.
    destruct (orb_prop _ _ (Hall _ Hl)) as [Hu|Hnone];
      [left|right]; exact (bool_decide_eq_true_1 _ ltac:(eassumption)). }
  unfold normalize_timezone at 1.
  destruct (TIMEZONE_ALIASES !! strip (str_lower x)) as [zone|] eqn:Hlookup.
  - destruct (Halias zone eq_refl) as [tz Hz]. exists zone, tz.
    split; [reflexivity|]. split; [exact Hz|]. split; [|exact (Hcalc zone tz Hz)].
    destruct (Htargets _ _ Hlookup) as [->|Hnone]; [exact Hnutc|].
    unfold normalize_timezone. rewrite Hnone, (pytz_timezone_known _ _ Hz). reflexivity.
  - destruct (pytz_zone x) as [tz|] eqn:Hz.
    + exists x, tz. rewrite (pytz_timezone_known _ _ Hz).
      split; [reflexivity|]. split; [exact Hz|]. split; [|exact (Hcalc x tz Hz)].
      unfold normalize_timezone. rewrite Hlookup, (pytz_timezone_known _ _ Hz). reflexivity.
    + exists (u "UTC"), utc. rewrite (pytz_timezone_unknown _ Hz).
      split; [reflexivity|]. split; [exact Hutc|]. split; [exact Hnutc|].
      exact (Hcalc _ utc Hutc).
Qed.
End LogicalDayRange.

(** At 03:30 in Moscow on 2024-06-02 with the day end at 4, the logical
    today is 2024-06-01, whose range ended at 2024-06-01 01:00 UTC; the
    instant, 2024-06-02 00:30 UTC, is in the range of 2024-06-02. *)
Lemma moscow_0330_is_in_the_range_of_tomorrow :
  exists range_today range_tomorrow,
    @get_current_date_for_user fixed_zones (u "Europe/Moscow") 4 moscow_0330
      = Ok (u "2024-06-01")
    /\ @get_day_start_end basic_unicode fixed_zones (u "2024-06-01") (u "Europe/Moscow") 4
       = Ok range_today
    /\ @get_day_start_end basic_unicode fixed_zones (u "2024-06-02") (u "Europe/Moscow") 4
       = Ok range_tomorrow
    /\ wall (snd range_today) = dt_make 2024 6 1 1 0 0
    /\ wall (snd range_today) <= EPOCH_WALL + moscow_0330
    /\ wall (fst range_tomorrow) <= EPOCH_WALL + moscow_0330 < wall (snd range_tomorrow).
Proof.
  destruct (@now_is_in_the_range_of_tomorrow fixed_zones
              (u "Europe/Moscow") (fixed_offset 10800) 4 moscow_0330 10800
              eq_refl ltac:(lia) ltac:(lia) eq_refl eq_refl eq_refl eq_refl eq_refl)
    as (today & tomorrow & range_today & range_tomorrow
        & Htoday & Htomorrow & Hr & Hr' & Hended & Hin).
  assert (today = u "2024-06-01") as ->.
  { assert (Ok today = Ok (u "2024-06-01")) as [= ->]; [|reflexivity].
    rewrite <- Htoday. vm_compute. reflexivity. }
  assert (tomorrow = u "2024-06-02") as ->.
  { assert (Ok tomorrow = Ok (u "2024-06-02")) as [= ->]; [|reflexivity].
    rewrite <- Htomorrow. vm_compute. reflexivity. }
  exists range_today, range_tomorrow.
  split; [exact Htoday|]. split; [exact Hr|]. split; [exact Hr'|].
  split; [|split; [exact Hended|exact Hin]].
  assert (Ok range_today
          = Ok ({| wall := dt_make 2024 5 31 1 0 0; utcoffset := 0 |},
                {| wall := dt_make 2024 6 1 1 0 0; utcoffset := 0 |})) as [= ->];
    [|reflexivity].
  rewrite <- Hr. vm_compute. reflexivity.
Defined.

(** ' МСК ' is the alias of Europe/Moscow, in any case and with white
    space around it. *)
Lemma normalized_msk :
  @normalize_timezone basic_unicode fixed_zones (u " МСК ") = Ok (u "Europe/Moscow")
  /\ is_Some (@pytz_zone fixed_zones (u "Europe/Moscow")).
Proof.
  destruct (@normalized_zone_is_known fixed_zones (u " МСК "))
    as (zone & tz & Hnorm & Hz & _).
  - intros zone Hzone.
    assert (Some zone = Some (u "Europe/Moscow")) as [= ->]
      by (rewrite <- Hzone; vm_compute; reflexivity).
    vm_compute. eauto.
  - vm_compute. eauto.
  - assert (Ok zone = Ok (u "Europe/Moscow")) as [= ->]
      by (rewrite <- Hnorm; vm_compute; reflexivity).
    split; [exact Hnorm|]. exists tz. exact Hz.
Defined.

(** ** The table of custom foods *)

Section FoodTable.
Context `{Unicode}.

Lemma targets_spec user_id food_id f :
  targets user_id food_id f = true
  <-> CustomFood.id f = food_id /\ CustomFood.user_id f = user_id.
Proof. unfold targets. rewrite andb_true_iff, !Z.eqb_eq. tauto. Qed.

Lemma filter_user_map (g : CustomFood.t -> CustomFood.t) table user_id other :
  other <> user_id ->
  (forall f, CustomFood.user_id (g f) = CustomFood.user_id f) ->
  (forall f, CustomFood.user_id f <> user_id -> g f = f) ->
  filter (fun f => CustomFood.user_id f = other) (map g table)
  = filter (fun f => CustomFood.user_id f = other) table.
Proof.
  intros Hne Huser Hsame. induction table as [|f table IH]; [reflexivity|].
  cbn [map]. destruct (decide (CustomFood.user_id f = other)) as [Ho|Ho].
  - rewrite (Hsame f) by congruence. rewrite !filter_cons_True by assumption.
    now rewrite IH.
  - rewrite !filter_cons_False by (try rewrite Huser; assumption). exact IH.
Qed.

Lemma update_empty_or_not (upd : FoodUpdate.t) :
  upd = FoodUpdate.empty \/ upd <> FoodUpdate.empty.
Proof.
  destruct upd as [[?|] [?|] [?|] [?|] [?|] [?|] [?|]];
    first [left; reflexivity | right; discriminate].
Qed.

Lemma update_custom_food_rows table user_id food_id upd :
  upd <> FoodUpdate.empty ->
  update_custom_food table user_id food_id upd
  = (map (fun f => if targets user_id food_id f then apply_update upd f else f) table,
     existsb (targets user_id food_id) table).
Proof.
  intros Hne. unfold update_custom_food.
  destruct upd as [[?|] [?|] [?|] [?|] [?|] [?|] [?|]]; try reflexivity.
  now destruct Hne.
Qed.


Lemma filter_user_kept (keep : CustomFood.t -> Prop) `{!forall f, Decision (keep f)}
    (table : list CustomFood.t) other :
  (forall f, CustomFood.user_id f = other -> keep f) ->
  filter (fun f => CustomFood.user_id f = other) (filter keep table)
  = filter (fun f => CustomFood.user_id f = other) table.
Proof.
  intros Hkeep. set (P := fun f => CustomFood.user_id f = other).
  induction table as [|f table IH]; [reflexivity|].
  destruct (decide (P f)) as [Ho|Ho].
  - rewrite (filter_cons_True keep) by (apply Hkeep, Ho).
    rewrite !(filter_cons_True P) by exact Ho. now rewrite IH.
  - rewrite (filter_cons_False P f table) by exact Ho.
    destruct (decide (keep f)).
    + rewrite (filter_cons_True keep) by assumption.
      rewrite (filter_cons_False P) by exact Ho. exact IH.
    + rewrite (filter_cons_False keep) by assumption. exact IH.
Qed.

(** X. [delete_custom_food] removes the row with the given id of the
    given user and no other: the rows that stay are the other rows, in
    their order; the foods of every other user are as they were; the
    answer is [True] exactly when that row was there, and with [False] the
    table is unchanged. *)
Theorem delete_custom_food_removes_one_row table user_id food_id :
  let table' := fst (delete_custom_food table user_id food_id) in
  let deleted := snd (delete_custom_food table user_id food_id) in
  sublist table' table
  /\ (forall f, In f table' <->
        In f table /\ ~ (CustomFood.id f = food_id /\ CustomFood.user_id f = user_id))
  /\ (forall other, other <> user_id ->
        get_custom_foods table' other = get_custom_foods table other)
  /\ (deleted = true <->
        exists f, In f table /\ CustomFood.id f = food_id
                  /\ CustomFood.user_id f = user_id)
  /\ (deleted = false -> table' = table).
Proof.
  intros table' deleted. subst table' deleted. unfold delete_custom_food. cbn [fst snd].
  split; [apply sublist_filter|]. split; [|split; [|split]].
  - intros f. rewrite <- !list_elem_of_In, list_elem_of_filter.
    rewrite <- targets_spec. destruct (targets user_id food_id f); split; intros [? ?];
      split; auto; try discriminate. congruence.
  - intros other Hother. unfold get_custom_foods. f_equal.
    apply filter_user_kept. intros f Hf.
    destruct (targets user_id food_id f) eqn:Ht; [|reflexivity].
    apply targets_spec in Ht. destruct Ht as [_ Hu]. congruence.
  - rewrite existsb_exists. split.
    + intros (f & Hin & Ht). apply targets_spec in Ht. exists f. tauto.
    + intros (f & Hin & Hid & Hu). exists f. split; [exact Hin|].
      apply targets_spec. tauto.
  - intros Hnone. induction table as [|f table IH]; [reflexivity|].
    cbn [existsb] in Hnone. apply orb_false_iff in Hnone as [Hf Hrest].
    rewrite filter_cons_True by exact Hf. f_equal. exact (IH Hrest).
Qed.

(** *** [LIKE] *)

Lemma like_any pattern s :
  like (37%N :: pattern) s
  = like pattern s || match s with [] => false | _ :: s' => like (37%N :: pattern) s' end.
Proof. destruct s; reflexivity. Qed.

Lemma like_any_skip pattern before s :
  like (37%N :: pattern) s = true -> like (37%N :: pattern) (before ++ s) = true.
Proof.
  intros Hs. induction before as [|c before IH]; [exact Hs|].
  cbn [app]. rewrite like_any, IH. apply orb_true_r.
Qed.

Lemma like_any_rest s : like [37%N] s = true.
Proof.
  induction s as [|c s IH]; [reflexivity|].
  rewrite like_any, IH. apply orb_true_r.
Qed.

(** A pattern matches its own text followed by anything, the wild cards
    [%] and [_] included. *)
Lemma like_itself q after : like (q ++ [37%N]) (q ++ after) = true.
Proof.
  induction q as [|c q IH]; [apply like_any_rest|].
  cbn [app].
  destruct (decide (c = 37%N)) as [->|H37].
  { apply (like_any_skip _ [37%N]). now rewrite like_any, IH. }
  destruct (decide (c = 95%N)) as [->|H95]; [exact IH|].
  assert (like (c :: q ++ [37%N]) (c :: q ++ after)
          = (like_fold c =? like_fold c)%N && like (q ++ [37%N]) (q ++ after)) as ->.
  { destruct c as [|p]; [reflexivity|].
    do 7 (try (destruct p as [p|p|]; try reflexivity));
      first [now destruct H37 | now destruct H95]. }
  now rewrite N.eqb_refl, IH.
Qed.

Lemma like_substring q before after :
  like ([37%N] ++ q ++ [37%N]) (before ++ q ++ after) = true.
Proof.
  cbn [app]. apply like_any_skip. rewrite like_any, like_itself. reflexivity.
Qed.

(** *** The order of [get_custom_foods] *)

Lemma str_leb_total a b : str_leb a b = false -> str_leb b a = true.
Proof.
  revert b. induction a as [|x a IH]; intros [|y b]; cbn; try discriminate; auto.
  destruct (x <? y)%N eqn:Hxy; [discriminate|]. cbn.
  destruct (x =? y)%N eqn:Heq; cbn.
  - intros Hab. apply N.eqb_eq in Heq. subst y.
    rewrite N.eqb_refl, (IH b Hab). apply orb_true_r.
  - intros _. apply N.ltb_ge in Hxy. apply N.eqb_neq in Heq.
    replace (y <? x)%N with true by (symmetry; apply N.ltb_lt; lia). reflexivity.
Qed.

Lemma str_leb_trans a b c :
  str_leb a b = true -> str_leb b c = true -> str_leb a c = true.
Proof.
  revert b c. induction a as [|x a IH]; intros [|y b] [|z c]; cbn; try discriminate; auto.
  intros Hab Hbc.
  apply orb_true_iff in Hab as [Hab|Hab], Hbc as [Hbc|Hbc].
  - apply N.ltb_lt in Hab, Hbc.
    replace (x <? z)%N with true by (symmetry; apply N.ltb_lt; lia). reflexivity.
  - apply andb_true_iff in Hbc as [Hyz _]. apply N.eqb_eq in Hyz. subst z.
    now rewrite Hab.
  - apply andb_true_iff in Hab as [Hxy _]. apply N.eqb_eq in Hxy. subst y.
    now rewrite Hbc.
  - apply andb_true_iff in Hab as [Hxy Hab]. apply andb_true_iff in Hbc as [Hyz Hbc].
    apply N.eqb_eq in Hxy, Hyz. subst y z.
    rewrite N.eqb_refl, (IH b c Hab Hbc). apply orb_true_r.
Qed.

Lemma insert_by_name_perm f l : insert_by_name f l ≡ₚ f :: l.
Proof.
  induction l as [|g l IH]; [reflexivity|]. cbn [insert_by_name].
  destruct (str_leb _ _); [|reflexivity].
  rewrite IH. apply Permutation_swap.
Qed.

Lemma sorted_by_name_perm l : foldr insert_by_name [] l ≡ₚ l.
Proof.
  induction l as [|f l IH]; [reflexivity|]. cbn [foldr].
  now rewrite insert_by_name_perm, IH.
Qed.

Lemma insert_by_name_sorted f l :
  Sorted (fun f g => str_leb (CustomFood.name f) (CustomFood.name g) = true) l ->
  Sorted (fun f g => str_leb (CustomFood.name f) (CustomFood.name g) = true)
    (insert_by_name f l).
Proof.
  induction l as [|g l IH]; intros Hs; [repeat constructor|].
  cbn [insert_by_name].
  destruct (str_leb (CustomFood.name g) (CustomFood.name f)) eqn:Hgf.
  - apply Sorted_inv in Hs as [Hs Hhd]. constructor; [exact (IH Hs)|].
    destruct l as [|g' l]; cbn [insert_by_name]; [constructor; exact Hgf|].
    destruct (str_leb (CustomFood.name g') (CustomFood.name f)).
    + constructor. now apply HdRel_inv in Hhd.
    + constructor. exact Hgf.
  - constructor; [exact Hs|]. constructor. exact (str_leb_total _ _ Hgf).
Qed.

Lemma in_get_custom_foods table user_id f :
  In f (get_custom_foods table user_id) <-> In f table /\ CustomFood.user_id f = user_id.
Proof.
  unfold get_custom_foods. rewrite <- !list_elem_of_In.
  rewrite sorted_by_name_perm, list_elem_of_filter. tauto.
Qed.

(** X. [get_custom_foods] gives the foods of the user and no others, each
    as often as the table holds it, in the order of their names: no food
    comes before one with a smaller name. *)
Theorem get_custom_foods_sorted_by_name table user_id :
  StronglySorted (fun f g => str_leb (CustomFood.name f) (CustomFood.name g) = true)
    (get_custom_foods table user_id)
  /\ get_custom_foods table user_id
     ≡ₚ filter (fun f => CustomFood.user_id f = user_id) table
  /\ (forall f, In f (get_custom_foods table user_id)
                <-> In f table /\ CustomFood.user_id f = user_id).
Proof.
  split; [|split; [apply sorted_by_name_perm|apply in_get_custom_foods]].
  apply Sorted_StronglySorted.
  - intros f g k. apply str_leb_trans.
  - unfold get_custom_foods.
    induction (filter (fun f => CustomFood.user_id f = user_id) table) as [|f l IH];
      [constructor|].
    cbn [foldr]. apply insert_by_name_sorted, IH.
Qed.

Lemma next_id_above table seq :
  seq < next_id table seq /\ forall f, In f table -> CustomFood.id f < next_id table seq.
Proof.
  unfold next_id. induction table as [|g table [IHs IHt]]; cbn [map foldr].
  - split; [lia|]. intros f [].
  - split; [lia|]. intros f [->|Hin]; [lia|]. specialize (IHt f Hin). lia.
Qed.

End FoodTable.

(** ** The context of the classifier *)

Section MemoryContext.
Context `{Unicode} `{Builtins}.

Lemma context_line_text turn role content :
  text_turn turn role content -> context_line turn = Ok (line_of role content).
Proof.
  intros [Hrole Hcontent]. unfold context_line, getitem_key.
  rewrite Hrole, bind_Ok, Hcontent, !bind_Ok. reflexivity.
Qed.

Lemma context_lines_text turns :
  Forall (fun turn => exists role content, text_turn turn role content) turns ->
  exists lines,
    mapM context_line turns = Ok lines
    /\ Forall2 (fun turn line =>
                  exists role content,
                    text_turn turn role content /\ line = line_of role content)
         turns lines.
Proof.
  induction 1 as [|turn turns (role & content & Hturn) _ (lines & Hlines & Hall)].
  - exists []. split; [reflexivity|constructor].
  - exists (line_of role content :: lines). split.
    + cbn [mapM]. rewrite (context_line_text _ _ _ Hturn), bind_Ok, Hlines. reflexivity.
    + constructor; [|exact Hall]. eauto.
Qed.

Lemma get_memory_context_run user_id limit w :
  _get_memory_context user_id limit w
  = match conversation_memory w !! user_id with
    | None => (Ok (u "(нет предыдущих сообщений)"), w)
    | Some turns =>
        match mapM context_line (slice_last limit turns) with
        | Ok [] => (Ok (u "(нет предыдущих сообщений)"), w)
        | Ok (line :: lines) => (Ok (join [10%N] (line :: lines)), w)
        | Raise ex => (Raise ex, w)
        end
    end.
Proof.
  unfold _get_memory_context, get_world, mbind, M_bind, mret, M_ret, lift.
  destruct (conversation_memory w !! user_id) as [turns|]; [|reflexivity].
  destruct (mapM context_line (slice_last limit turns)) as [[|line lines]|ex];
    reflexivity.
Qed.

(** X. The context that the classifier is given for a user is made of the
    user's own last [limit] turns and of nothing else: one line for each,
    oldest first, with the speaker and the first 100 characters of the
    content; the turns of other users do not matter.  Without turns it is
    the text '(нет предыдущих сообщений)'.  Reading the context raises
    nothing and leaves the state as it is. *)
Theorem memory_context_of_the_last_turns user_id limit w :
  0 < limit ->
  Forall (fun turn => exists role content, text_turn turn role content)
    (stored w user_id) ->
  exists lines,
    _get_memory_context user_id limit w
      = (Ok (match lines with [] => u "(нет предыдущих сообщений)" | _ => join [10%N] lines end), w)
    /\ Forall2 (fun turn line =>
                  exists role content,
                    text_turn turn role content /\ line = line_of role content)
         (drop (length (stored w user_id) - Z.to_nat limit) (stored w user_id)) lines
    /\ (length lines <= Z.to_nat limit)%nat
    /\ forall w', stored w' user_id = stored w user_id ->
         fst (_get_memory_context user_id limit w')
         = fst (_get_memory_context user_id limit w).
Proof.
  intros Hlimit Hturns.
  assert (forall w0, fst (_get_memory_context user_id limit w0)
                     = match mapM context_line (slice_last limit (stored w0 user_id)) with
                       | Ok [] => Ok (u "(нет предыдущих сообщений)")
                       | Ok (line :: lines) => Ok (join [10%N] (line :: lines))
                       | Raise ex => Raise ex
                       end) as Hfst.
  { intros w0. rewrite get_memory_context_run. unfold stored.
    destruct (conversation_memory w0 !! user_id) as [turns|].
    - change (default [] (Some turns)) with turns.
      destruct (mapM context_line (slice_last limit turns)) as [[|line lines]|ex];
        reflexivity.
    - change (default [] None) with (@nil pydict).
      unfold slice_last. destruct (0 <? limit); rewrite drop_nil; reflexivity. }
  assert (slice_last limit (stored w user_id)
          = drop (length (stored w user_id) - Z.to_nat limit) (stored w user_id)) as Hslice.
  { unfold slice_last. now replace (0 <? limit) with true by (symmetry; apply Z.ltb_lt; lia). }
  destruct (context_lines_text (slice_last limit (stored w user_id))) as (lines & Hlines & Hall).
  { rewrite Hslice. apply Forall_drop. exact Hturns. }
  exists lines. split; [|split; [|split]].
  - rewrite get_memory_context_run. unfold stored in Hlines.
    destruct (conversation_memory w !! user_id) as [turns|].
    + change (default [] (Some turns)) with turns in Hlines.
      rewrite Hlines. destruct lines; reflexivity.
    + change (default [] None) with (@nil pydict) in Hlines.
      unfold slice_last in Hlines. destruct (0 <? limit); rewrite drop_nil in Hlines;
        injection Hlines as <-; reflexivity.
  - rewrite <- Hslice. exact Hall.
  - apply Forall2_length in Hall. rewrite <- Hall, Hslice, length_drop. lia.
  - intros w' Hsame. now rewrite !Hfst, Hsame.
Qed.
End MemoryContext.

(** The last five of the twelve turns of user 7, one line each. *)
Lemma memory_context_of_twelve_turns :
  exists lines,
    @_get_memory_context example_builtins 7 5
      (run_appends twelve_appends empty_world)
    = (Ok (join [10%N] lines), run_appends twelve_appends empty_world)
    /\ length lines = 5%nat
    /\ nth 4 lines [] = u "Бот: turn 12".
Proof.
  destruct (@memory_context_of_the_last_turns example_builtins 7 5
              (run_appends twelve_appends empty_world) ltac:(lia))
    as (lines & Hrun & Hall & _ & _).
  - vm_compute. repeat (constructor; [do 2 eexists; split; reflexivity|]). constructor.
  - assert (fst (@_get_memory_context example_builtins 7 5
                   (run_appends twelve_appends empty_world))
            = Ok (join [10%N]
                    [u "Бот: turn 8"; u "Пользователь: turn 9"; u "Бот: turn 10";
                     u "Пользователь: turn 11"; u "Бот: turn 12"])) as Hlines
      by (vm_compute; reflexivity).
    exists [u "Бот: turn 8"; u "Пользователь: turn 9"; u "Бот: turn 10";
            u "Пользователь: turn 11"; u "Бот: turn 12"].
    split; [|split; reflexivity].
    rewrite Hrun in Hlines |- *. cbn [fst] in Hlines. now rewrite Hlines.
Defined.

(** ** Markdown fences around JSON *)

Lemma split_aux_length sep skip cur s : (1 <= length (split_aux sep skip cur s))%nat.
Proof.
  revert skip cur. induction s as [|c s IH]; intros skip cur; cbn [split_aux]; [cbn; lia|].
  destruct skip; [|apply IH]. destruct (startswith sep (c :: s)); [cbn; lia|apply IH].
Qed.

Lemma split_length_contains sep s :
  sep <> [] -> contains sep s = true -> (2 <= length (split sep s))%nat.
Proof.
  intros Hsep. unfold split. generalize (@nil N) as cur.
  induction s as [|c s IH]; intros cur Hin.
  - destruct sep; [contradiction|discriminate].
  - cbn [split_aux]. cbn [contains] in Hin.
    destruct (startswith sep (c :: s)).
    + cbn [length]. pose proof (split_aux_length sep (length sep - 1) [] s). lia.
    + apply IH. exact Hin.
Qed.

Lemma list_item_in_range l i :
  (i < length l)%nat -> exists x, list_item l i = Ok x.
Proof.
  intros Hi. unfold list_item.
  destruct (lookup_lt_is_Some_2 l i Hi) as [x ->]. now exists x.
Qed.

Section Fences.
Context `{Unicode}.

(** X. [_extract_json] accepts every text: whatever fences the text has,
    it raises nothing, and a text without a fence is returned stripped of
    the white space around it.  A content that is not a text raises
    [AttributeError]. *)
Theorem extract_json_accepts_every_text :
  (forall s,
     (exists text, _extract_json (VStr s) = Ok text)
     /\ (contains (u "```") (strip s) = false -> _extract_json (VStr s) = Ok (strip s)))
  /\ (forall content,
        (forall s, content <> VStr s) ->
        exists ex, _extract_json content = Raise ex /\ exn_kind ex = AttributeError).
Proof.
  split.
  2:{ intros content Hcontent.
      destruct content as [|b|n|x|s|l|d]; try (eexists; split; reflexivity).
      now destruct (Hcontent s). }
  intros s.
  assert (forall part : list N, exists x, list_item (split (u "```") part) 0 = Ok x)
    as Hfirst.
  { intros part. apply list_item_in_range.
    pose proof (split_aux_length (u "```") 0 [] part) as Hlen. exact Hlen. }
  split.
  - unfold _extract_json.
    destruct (contains (u "```json") (strip s)) eqn:Hjson.
    + destruct (list_item_in_range (split (u "```json") (strip s)) 1) as [part ->].
      { apply split_length_contains; [discriminate|exact Hjson]. }
      rewrite bind_Ok. destruct (Hfirst part) as [inner ->]. rewrite bind_Ok. eauto.
    + destruct (contains (u "```") (strip s)) eqn:Hfence; [|eauto].
      destruct (list_item_in_range (split (u "```") (strip s)) 1) as [part ->].
      { apply split_length_contains; [discriminate|exact Hfence]. }
      rewrite bind_Ok. destruct (Hfirst part) as [inner ->]. rewrite bind_Ok. eauto.
  - intros Hnone. unfold _extract_json.
    destruct (contains (u "```json") (strip s)) eqn:Hjson; [|now rewrite Hnone].
    apply contains_substring in Hjson as (before & after & Hs).
    assert (contains (u "```") (strip s) = true) as Hfence; [|congruence].
    apply contains_substring. exists before, (u "json" ++ after). rewrite Hs.
    reflexivity.
Qed.

Lemma split_aux_plain c0 sep' a cur rest :
  Forall (fun c => c <> c0) a ->
  split_aux (c0 :: sep') 0 cur (a ++ rest)
  = split_aux (c0 :: sep') 0 (rev a ++ cur) rest.
Proof.
  intros Ha. revert cur. induction Ha as [|x a Hx _ IH]; intros cur; [reflexivity|].
  cbn [app split_aux startswith].
  replace (c0 =? x)%N with false by (symmetry; apply N.eqb_neq; congruence).
  cbn [andb]. rewrite IH. cbn [rev]. now rewrite <- app_assoc.
Qed.

Lemma split_aux_skip sep x cur rest :
  split_aux sep (length x) cur (x ++ rest) = split_aux sep 0 cur rest.
Proof. induction x as [|c x IH]; [reflexivity|]. exact IH. Qed.

Lemma split_aux_sep c0 sep' cur rest :
  split_aux (c0 :: sep') 0 cur ((c0 :: sep') ++ rest)
  = rev cur :: split_aux (c0 :: sep') 0 [] rest.
Proof.
  pose proof (startswith_app (c0 :: sep') rest) as Hstart.
  cbn [app] in Hstart |- *. cbn [split_aux]. rewrite Hstart.
  replace (length (c0 :: sep') - 1)%nat with (length sep') by (cbn [length]; lia).
  now rewrite split_aux_skip.
Qed.

Lemma list_item_head x l : list_item (x :: l) 0 = Ok x.
Proof. reflexivity. Qed.

Lemma split_aux_char sep c cur rest :
  startswith sep (c :: rest) = false ->
  split_aux sep 0 cur (c :: rest) = split_aux sep 0 (c :: cur) rest.
Proof. intros Hs. cbn [split_aux]. now rewrite Hs. Qed.

Lemma contains_plain c0 sep' a rest :
  Forall (fun c => c <> c0) a ->
  contains (c0 :: sep') (a ++ rest) = contains (c0 :: sep') rest.
Proof.
  induction 1 as [|x a Hx _ IH]; [reflexivity|].
  cbn [app contains startswith].
  replace (c0 =? x)%N with false by (symmetry; apply N.eqb_neq; congruence).
  exact IH.
Qed.

(** Three backticks before [x], and none in [x] but at its start: the
    opening ```json is found only if [x] starts with json. *)
Lemma contains_json_fence x :
  startswith [106; 115; 111; 110]%N x = false ->
  (forall c rest, x = c :: rest -> c <> 96%N) ->
  contains [96; 96; 96; 106; 115; 111; 110]%N (96%N :: 96%N :: 96%N :: x)
  = contains [96; 96; 96; 106; 115; 111; 110]%N x.
Proof.
  intros Hword Hfirst.
  assert (forall n m, startswith (96%N :: n) (96%N :: m) = startswith n m) as Hstep
    by (intros n m; cbn [startswith]; now rewrite N.eqb_refl).
  assert (forall n, startswith (96%N :: n) x = false) as Hx.
  { intros n. destruct x as [|c rest]; [reflexivity|]. cbn [startswith].
    replace (96 =? c)%N with false; [reflexivity|].
    symmetry. apply N.eqb_neq. intros Heq. now apply (Hfirst c rest eq_refl). }
  cbn [contains]. rewrite !Hstep, Hword, !Hx. reflexivity.
Qed.

Lemma startswith_before_tick w : forall x rest,
  Forall (fun c => c <> 96%N) w ->
  startswith w x = false -> startswith w (x ++ 96%N :: rest) = false.
Proof.
  induction w as [|a w IH]; intros x rest Hw Hx; [discriminate|].
  apply Forall_cons in Hw as [Ha Hw].
  destruct x as [|b x]; cbn [app startswith] in *.
  - replace (a =? 96)%N with false by (symmetry; now apply N.eqb_neq). reflexivity.
  - destruct (a =? b)%N; [|reflexivity]. cbn [andb] in *. now apply IH.
Qed.

Lemma split_plain_end c0 sep' a cur :
  Forall (fun c => c <> c0) a ->
  split_aux (c0 :: sep') 0 cur a = [rev cur ++ a].
Proof.
  intros Ha. rewrite <- (app_nil_r a) at 1. rewrite (split_aux_plain _ _ _ _ _ Ha).
  cbn [split_aux]. now rewrite rev_app_distr, rev_involutive.
Qed.

(** X. A reply that wraps its JSON in a Markdown fence is unwrapped:
    when the text, stripped, holds one fenced block, opened by three
    backticks with or without the word json, and has no other backtick,
    [_extract_json] gives what is inside the fence, stripped. *)
Theorem extract_json_unwraps_the_fence s before body after :
  Forall (fun c => c <> 96%N) before ->
  Forall (fun c => c <> 96%N) body ->
  Forall (fun c => c <> 96%N) after ->
  (strip s = before ++ u "```json" ++ body ++ u "```" ++ after ->
   _extract_json (VStr s) = Ok (strip body))
  /\ (strip s = before ++ u "```" ++ body ++ u "```" ++ after ->
      startswith (u "json") body = false ->
      startswith (u "json") after = false ->
      _extract_json (VStr s) = Ok (strip body)).
Proof.
  intros Hbefore Hbody Hafter.
  assert (u "```json" = [96; 96; 96; 106; 115; 111; 110]%N) as Hj by reflexivity.
  assert (u "```" = [96; 96; 96]%N) as Hf by reflexivity.
  assert (u "json" = [106; 115; 111; 110]%N) as Hw by reflexivity.
  unfold _extract_json. rewrite Hj, Hf, Hw.
  assert (forall piece rest,
            piece = body \/ piece = body ++ [96; 96; 96]%N ++ rest ->
            list_item (split [96; 96; 96]%N piece) 0 = Ok body) as Hinner.
  { intros piece rest [->| ->]; unfold split.
    - now rewrite (split_plain_end _ _ _ _ Hbody).
    - rewrite (split_aux_plain _ _ _ _ _ Hbody), split_aux_sep.
      cbn [rev app]. rewrite app_nil_r, rev_involutive. reflexivity. }
  assert (forall sep',
            split_aux (96%N :: 96%N :: 96%N :: sep') 0 [] (body ++ [96; 96; 96]%N ++ after)
            = [body ++ [96; 96; 96]%N ++ after]
            \/ exists more,
                 split_aux (96%N :: 96%N :: 96%N :: sep') 0 []
                   (body ++ [96; 96; 96]%N ++ after) = body :: more) as Hpiece.
  { intros sep'. rewrite (split_aux_plain _ _ _ _ _ Hbody), app_nil_r.
    cbn [app].
    destruct (startswith (96%N :: 96%N :: 96%N :: sep') (96%N :: 96%N :: 96%N :: after))
      eqn:Hstart.
    { right. cbn [split_aux]. rewrite Hstart. eexists. now rewrite rev_involutive. }
    left. rewrite (split_aux_char _ _ _ _ Hstart).
    assert (startswith (96%N :: 96%N :: 96%N :: sep') (96%N :: 96%N :: after) = false)
      as Hstart2.
    { destruct Hafter as [|c after Hc Hafter]; [reflexivity|].
      cbn [startswith]. rewrite !N.eqb_refl.
      replace (96 =? c)%N with false by (symmetry; apply N.eqb_neq; congruence).
      reflexivity. }
    rewrite (split_aux_char _ _ _ _ Hstart2).
    assert (startswith (96%N :: 96%N :: 96%N :: sep') (96%N :: after) = false)
      as Hstart3.
    { destruct Hafter as [|c after Hc Hafter]; [reflexivity|].
      cbn [startswith]. rewrite !N.eqb_refl.
      replace (96 =? c)%N with false by (symmetry; apply N.eqb_neq; congruence).
      reflexivity. }
    rewrite (split_aux_char _ _ _ _ Hstart3).
    rewrite (split_plain_end _ _ _ _ Hafter).
    cbn [rev]. rewrite <- !app_assoc. cbn [app]. now rewrite rev_involutive. }
  assert (forall sep' w,
            list_item (split (96%N :: 96%N :: 96%N :: sep')
                         (before ++ (96%N :: 96%N :: 96%N :: sep') ++ w)) 1
            = list_item (split_aux (96%N :: 96%N :: 96%N :: sep') 0 [] w) 0) as Houter.
  { intros sep' w. unfold split.
    rewrite (split_aux_plain _ _ _ _ _ Hbefore), split_aux_sep. reflexivity. }
  assert (forall sep',
            (part ← list_item (split_aux (96%N :: 96%N :: 96%N :: sep') 0 []
                                 (body ++ [96; 96; 96]%N ++ after)) 0;
             part0 ← list_item (split [96; 96; 96]%N part) 0;
             Ok (strip part0)) = Ok (strip body)) as Hboth.
  { intros sep'. destruct (Hpiece sep') as [Hall|[more Hmore]].
    - rewrite Hall, list_item_head, bind_Ok.
      rewrite (Hinner _ after) by now right. reflexivity.
    - rewrite Hmore, list_item_head, bind_Ok.
      rewrite (Hinner _ after) by now left. reflexivity. }
  split.
  - intros Hs.
    replace (contains [96; 96; 96; 106; 115; 111; 110]%N (strip s)) with true
      by (symmetry; apply contains_substring; eauto).
    rewrite Hs, (Houter [106; 115; 111; 110]%N). apply Hboth.
  - intros Hs Hword Hword'.
    replace (contains [96; 96; 96]%N (strip s)) with true
      by (symmetry; apply contains_substring; eauto).
    replace (contains [96; 96; 96; 106; 115; 111; 110]%N (strip s)) with false.
    2:{ rewrite Hs, (contains_plain _ _ _ _ Hbefore). cbn [app].
        destruct Hbody as [|c body Hc Hbody].
        - cbn [app].
          assert (forall w, startswith [96; 96; 96; 106; 115; 111; 110]%N
                              (96%N :: 96%N :: 96%N :: 96%N :: w) = false) as Hfour
            by reflexivity.
          assert (forall p c w, contains p (c :: w) = startswith p (c :: w) || contains p w)
            as Hcons by reflexivity.
          rewrite Hcons, Hfour, (Hcons _ _ (96%N :: 96%N :: 96%N :: 96%N :: after)), Hfour,
            (Hcons _ _ (96%N :: 96%N :: 96%N :: after)), Hfour.
          cbn [orb].
          rewrite contains_json_fence;
            [|exact Hword'|intros c rest ->; now apply Forall_cons in Hafter as [? _]].
          rewrite <- (app_nil_r after), (contains_plain _ _ _ _ Hafter). reflexivity.
        - rewrite contains_json_fence.
          + change ((c :: body) ++ [96; 96; 96]%N ++ after)
              with ((c :: body) ++ (96%N :: 96%N :: 96%N :: after)).
            rewrite (contains_plain _ _ (c :: body)) by now constructor.
            rewrite contains_json_fence;
              [|exact Hword'|intros c' rest ->; now apply Forall_cons in Hafter as [? _]].
            rewrite <- (app_nil_r after), (contains_plain _ _ _ _ Hafter). reflexivity.
          + apply startswith_before_tick; [|exact Hword].
            repeat (constructor; [discriminate|]). constructor.
          + intros c' rest [= <- _]. exact Hc. }
    rewrite Hs, (Houter []). apply Hboth.
Qed.
End Fences.

(** A reply in a fence, with a word before it. *)
Lemma extract_json_fenced_list :
  @_extract_json basic_unicode (VStr (u "Ответ: ```json
[1, 2]
``` ")) = Ok (u "[1, 2]").
Proof.
  destruct (@extract_json_unwraps_the_fence basic_unicode
              (u "Ответ: ```json
[1, 2]
``` ") (u "Ответ: ") (u "
[1, 2]
") [])
    as [Hjson _].
  - vm_compute. repeat (constructor; [discriminate|]). constructor.
  - vm_compute. repeat (constructor; [discriminate|]). constructor.
  - constructor.
  - rewrite Hjson by (vm_compute; reflexivity). vm_compute. reflexivity.
Defined.

Section ClassifierEffects.
Context `{Unicode} `{Builtins}.

(** X. What a call of [detect_intent] does besides answering: it sends
    at most one request, for the utterance it was given; it shows
    nothing and leaves the custom foods alone; and without a user id
    ([None] or 0) it sends its request with the context '(нет контекста)'
    and neither reads nor writes the memory. *)
Theorem detect_intent_effects e text user_id w :
  let run := detect_intent e text user_id w in
  custom_foods (snd run) = custom_foods w
  /\ update_calls (snd run) = update_calls w
  /\ shown (snd run) = shown w
  /\ (posted (snd run) = posted w
      \/ exists context, posted (snd run) = posted w ++ [IntentRequest context text])
  /\ (given user_id = None ->
      conversation_memory (snd run) = conversation_memory w
      /\ posted (snd run) = posted w ++ [IntentRequest (u "(нет контекста)") text]).
Proof.
  intros run. subst run. rewrite detect_intent_of_try, detect_intent_try_run.
  unfold intent_context.
  destruct (given user_id) as [uid|] eqn:Hgiven.
  - pose proof (get_memory_context_reads uid 5 w) as Hread.
    destruct (_get_memory_context uid 5 w) as [[context|ex] w1]. cbn [fst snd] in *.
    + destruct (decode_reply (session_post e (IntentRequest context text)))
        as [intent|ex].
      * destruct (dict_get intent (u "action") VNone) as [action|ex]; cbn [fst snd];
          repeat split; try reflexivity; try discriminate; right; eauto.
      * cbn [fst snd]. repeat split; try reflexivity; try discriminate; right; eauto.
    + cbn [fst snd]. repeat split; try reflexivity; try discriminate. now left.
  - cbn [fst mret M_ret].
    destruct (decode_reply (session_post e (IntentRequest (u "(нет контекста)") text)))
      as [intent|ex]; cbn [fst snd]; repeat split; try reflexivity; right; eauto.
Qed.
End ClassifierEffects.

(** ** Analyses *)

Lemma item_round_trip item : item_from_dict (_item_to_dict item) = Ok item.
Proof. destruct item. vm_compute. reflexivity. Qed.

Lemma items_round_trip items : mapM item_from_dict (map _item_to_dict items) = Ok items.
Proof.
  induction items as [|item items IH]; [reflexivity|].
  cbn [map mapM]. rewrite item_round_trip, bind_Ok, IH. reflexivity.
Qed.

(** X. [from_dict] reads back what [to_dict] writes, but for the error:
    the items, each with its six values, the four totals and the notes
    come back as they were, and the error comes back as [None], since
    [to_dict] does not write it. *)
Theorem from_dict_reads_back_to_dict a : from_dict (to_dict a) = Ok (without_error a).
Proof.
  unfold from_dict, to_dict.
  assert (forall (v : pyval) (rest : pydict),
            dict_lookup ((u "items", v) :: rest) (u "items") = Some v) as Hitems
    by reflexivity.
  assert (forall (v t : pyval) (rest : pydict),
            dict_lookup ((u "items", v) :: (u "total", t) :: rest) (u "total") = Some t)
    as Htotal by reflexivity.
  assert (forall (v t n : pyval),
            dict_lookup [(u "items", v); (u "total", t); (u "notes", n)] (u "notes") = Some n)
    as Hnotes by reflexivity.
  assert (forall (v t n : pyval),
            dict_lookup [(u "items", v); (u "total", t); (u "notes", n)] (u "error") = None)
    as Herror by reflexivity.
  assert (forall (d x : pyval), default d (Some x) = x) as Hsome by reflexivity.
  rewrite Hitems, Htotal, Hnotes, Herror, !Hsome. cbn [py_iter].
  rewrite bind_Ok, items_round_trip, bind_Ok.
  destruct a. reflexivity.
Qed.

Section ModelPath.
Context `{Unicode} `{Builtins}.

Lemma analyze_with_model_run e text w :
  exists analysis,
    analyze_with_model e text w
    = (Ok analysis, with_posted (posted w ++ [AnalysisRequest text]) w)
    /\ (forall ex, session_post e (AnalysisRequest text) = Raise ex ->
        is_RequestException (exn_kind ex) = true ->
        analysis = failed_analysis [] (u "API error: " ++ exn_msg ex))
    /\ (forall r ex, session_post e (AnalysisRequest text) = Ok r ->
        raise_for_status r = Raise ex ->
        analysis = failed_analysis [] (u "API error: " ++ exn_msg ex)).
Proof.
  unfold analyze_with_model, try_M, post, mbind, M_bind, lift, mret, M_ret.
  destruct (session_post e (AnalysisRequest text)) as [r|ex].
  - destruct (raise_for_status r) as [[]|ex1] eqn:Hstatus.
    + assert (forall a : NutritionAnalysis.t,
                (forall ex, Ok r = Raise ex -> is_RequestException (exn_kind ex) = true ->
                   a = failed_analysis [] (u "API error: " ++ exn_msg ex))
                /\ (forall r' ex, @Ok response r = Ok r' -> raise_for_status r' = Raise ex ->
                      a = failed_analysis [] (u "API error: " ++ exn_msg ex))) as Hvacuous.
      { intros a. split; [intros; discriminate|].
        intros r' ex [= <-] Hs. rewrite Hstatus in Hs. discriminate. }
      destruct (response_json r) as [res|ex2].
      * destruct (message_content res) as [content|ex3].
        -- destruct (_extract_json content) as [content'|ex4].
           ++ match goal with
              | |- context [json_loads ?c] => destruct (json_loads c) as [data|je]
              end.
              ** destruct (from_dict data) as [a|ex5]; cbn.
                 --- eexists. split; [reflexivity|apply Hvacuous].
                 --- destruct (is_RequestException (exn_kind ex5)); cbn;
                       [eexists; split; [reflexivity|apply Hvacuous]|].
                     destruct (is_JSONDecodeError (exn_kind ex5));
                       eexists; (split; [reflexivity|apply Hvacuous]).
              ** destruct (is_JSONDecodeError (exn_kind je)) eqn:Hje; cbn;
                   [eexists; split; [reflexivity|apply Hvacuous]|].
                 destruct (is_RequestException (exn_kind je)); cbn;
                   [eexists; split; [reflexivity|apply Hvacuous]|].
                 rewrite Hje. eexists. split; [reflexivity|apply Hvacuous].
           ++ cbn. destruct (is_RequestException (exn_kind ex4)); cbn;
                [eexists; split; [reflexivity|apply Hvacuous]|].
              destruct (is_JSONDecodeError (exn_kind ex4));
                eexists; (split; [reflexivity|apply Hvacuous]).
        -- cbn. destruct (is_RequestException (exn_kind ex3)); cbn;
             [eexists; split; [reflexivity|apply Hvacuous]|].
           destruct (is_JSONDecodeError (exn_kind ex3));
             eexists; (split; [reflexivity|apply Hvacuous]).
      * cbn. destruct (is_RequestException (exn_kind ex2)); cbn;
          [eexists; split; [reflexivity|apply Hvacuous]|].
        destruct (is_JSONDecodeError (exn_kind ex2));
          eexists; (split; [reflexivity|apply Hvacuous]).
    + assert (is_RequestException (exn_kind ex1) = true) as Hkind.
      { unfold raise_for_status in Hstatus.
        destruct (_ && _); [now injection Hstatus as <-|].
        destruct (_ && _); [now injection Hstatus as <-|discriminate]. }
      cbn. rewrite Hkind. cbn. eexists. split; [reflexivity|].
      split; [intros; discriminate|]. intros r' ex' [= <-] Hs.
      rewrite Hstatus in Hs. now injection Hs as <-.
  - cbn. destruct (is_RequestException (exn_kind ex)) eqn:Hkind; cbn.
    + eexists. split; [reflexivity|]. split; [|intros; discriminate].
      intros ex' [= <-] _. reflexivity.
    + destruct (is_JSONDecodeError (exn_kind ex));
        eexists; (split; [reflexivity|]); (split; [|intros; discriminate]);
        intros ex' [= <-] Hk; congruence.
Qed.

(** X. The model path of [analyze] raises nothing: whatever the backend
    does, it returns an analysis, after sending exactly one request and
    changing nothing else.  When the request itself fails (no connection,
    a time out) or is answered with an error status, the analysis has no
    items, zero totals and the error 'API error: ' with the message of the
    exception. *)
Theorem model_path_never_raises e text w :
  exists analysis,
    analyze_with_model e text w
    = (Ok analysis, with_posted (posted w ++ [AnalysisRequest text]) w)
    /\ (forall ex, session_post e (AnalysisRequest text) = Raise ex ->
        is_RequestException (exn_kind ex) = true ->
        analysis = failed_analysis [] (u "API error: " ++ exn_msg ex))
    /\ (forall r ex, session_post e (AnalysisRequest text) = Ok r ->
        raise_for_status r = Raise ex ->
        analysis = failed_analysis [] (u "API error: " ++ exn_msg ex))
    /\ (forall items message,
          NutritionAnalysis.error (failed_analysis items message) = VStr message
          /\ NutritionAnalysis.total_calories (failed_analysis items message) = VInt 0
          /\ NutritionAnalysis.total_protein (failed_analysis items message) = VInt 0
          /\ NutritionAnalysis.total_fat (failed_analysis items message) = VInt 0
          /\ NutritionAnalysis.total_carbs (failed_analysis items message) = VInt 0).
Proof.
  destruct (analyze_with_model_run e text w) as (analysis & Hrun & Hraise & Hstatus).
  exists analysis. repeat split; assumption || reflexivity.
Qed.

Lemma check_each_none text_lower foods :
  (forall food, In food foods -> ~ occurs food text_lower) ->
  check_each foods text_lower = Ok [].
Proof.
  induction foods as [|food foods IH]; intros Hnone; [reflexivity|].
  cbn [check_each].
  destruct (matched_key food text_lower) as [key|] eqn:Hkey.
  - destruct (matched_key_found _ _ _ Hkey) as [Hin [->|Halias]].
    + destruct (Hnone food (or_introl eq_refl)). now left.
    + destruct (Hnone food (or_introl eq_refl)). right. eauto.
  - apply IH. intros f Hf. apply Hnone. now right.
Qed.

(** X. Without a saved food to use, [analyze] is the model path: when no
    repository or no user id (or the id 0) is given, or when no saved food
    of the user has its name or an alias in the case-folded text, the
    result and the effects are those of the request to the model. *)
Theorem analyze_without_saved_match e text repo user_id w :
  repo = false
  \/ given user_id = None
  \/ (exists uid, given user_id = Some uid
        /\ forall food, In food (get_custom_foods (custom_foods w) uid) ->
                        ~ occurs food (str_lower text)) ->
  analyze e text repo user_id w = analyze_with_model e text w.
Proof.
  intros Hcase. unfold analyze.
  assert (forall m : M (list NutritionItem.t),
            m w = (Ok [], w) ->
            (custom_items ← m;
             match custom_items with
             | _ :: _ =>
                 calories ← lift (py_sum (map NutritionItem.calories custom_items));
                 protein ← lift (py_sum (map NutritionItem.protein custom_items));
                 fat ← lift (py_sum (map NutritionItem.fat custom_items));
                 carbs ← lift (py_sum (map NutritionItem.carbs custom_items));
                 mret {| NutritionAnalysis.items := custom_items;
                         NutritionAnalysis.total_calories := calories;
                         NutritionAnalysis.total_protein := protein;
                         NutritionAnalysis.total_fat := fat;
                         NutritionAnalysis.total_carbs := carbs;
                         NutritionAnalysis.notes := VStr (u "Из сохранённых продуктов ✓");
                         NutritionAnalysis.error := VNone |}
             | [] => analyze_with_model e text
             end) w = analyze_with_model e text w) as Hskip.
  { intros m Hm. rewrite M_bind_run, Hm. reflexivity. }
  apply Hskip.
  destruct Hcase as [->|[Hnone|(uid & Hgiven & Hfoods)]].
  - reflexivity.
  - rewrite Hnone. destruct repo; reflexivity.
  - rewrite Hgiven. destruct repo; [|reflexivity].
    unfold mbind, M_bind, get_world, lift.
    rewrite check_custom_foods_each, (check_each_none _ _ Hfoods). reflexivity.
Qed.
End ModelPath.

(** Nothing saved matches 'съел яблоко': the request goes to the model,
    which is out of reach, and the analysis carries the API error. *)
Lemma apple_goes_to_the_model :
  let w := with_custom_foods [banana] empty_world in
  @analyze basic_unicode example_builtins (env_at moscow_0330 offline)
    (u "съел яблоко") true (Some 7) w
  = (Ok (failed_analysis [] (u "API error: Read timed out. (read timeout=10)")),
     with_posted [AnalysisRequest (u "съел яблоко")] w).
Proof.
  cbv zeta.
  rewrite (@analyze_without_saved_match basic_unicode example_builtins
             (env_at moscow_0330 offline) (u "съел яблоко") true (Some 7)
             (with_custom_foods [banana] empty_world)).
  - vm_compute. reflexivity.
  - right. right. exists 7. split; [reflexivity|].
    intros food Hin.
    assert (food = banana) as ->
      by (vm_compute in Hin; destruct Hin as [<-|[]]; vm_compute; reflexivity).
    intros [Hname|(alias & Halias & _)]; [vm_compute in Hname; discriminate|].
    vm_compute in Halias. contradiction.
Defined.

(** ** Edits of saved foods *)

Section EditSafety.
Context `{Unicode} `{Builtins}.

Lemma keeps_foods_run {A} (m : M A) w :
  keeps_foods m ->
  custom_foods (snd (m w)) = custom_foods w /\ update_calls (snd (m w)) = update_calls w.
Proof. intros Hm. apply Hm. Qed.

Lemma keeps_foods_say e user_id text extra :
  keeps_foods (_ ← edit_text text; add_bot_response_to_memory e user_id text extra).
Proof.
  apply keeps_foods_bind; [apply keeps_foods_edit_text|]. intros _.
  apply keeps_foods_add_bot.
Qed.

(** Runs a message and its memory write. *)
Ltac say_effects :=
  rewrite ?M_bind_run;
  unfold edit_text, add_bot_response_to_memory, _add_to_memory, modify;
  cbv beta iota;
  cbn [fst snd shown with_memory with_shown];
  unfold edit_not_understood_message, food_not_found_message;
  split; reflexivity.

End EditSafety.

Section EditSuccess.
Context `{Unicode} `{Builtins}.

(** The value read for a canonical field fills a column of the update,
    and the value read for a name is a text. *)
Lemma updates_of_parsed_value field value parsed :
  In field valid_fields ->
  parsed_value field value = Ok parsed ->
  updates field parsed <> FoodUpdate.empty
  /\ (eqb_str field (u "name") = true -> exists s, parsed = VStr s).
Proof.
  intros Hfield. unfold parsed_value.
  assert (forall x, In x [u "calories"; u "protein"; u "fat"; u "carbs"] ->
            bool_decide (x ∈ [u "calories"; u "protein"; u "fat"; u "carbs"]) = true)
    as Hnumber by (intros x Hx; apply bool_decide_eq_true_2, list_elem_of_In, Hx).
  unfold valid_fields in Hfield. cbn [In] in Hfield.
  destruct Hfield as [<-|[<-|[<-|[<-|[<-|[<-|[<-|[]]]]]]]].
  1-4: rewrite Hnumber by (cbn [In]; tauto);
       destruct (first_number (format_value value)) as [[whole frac]|]; [|discriminate];
       intros [= <-]; generalize (float_of_number whole frac); intros x;
       (split; [vm_compute; discriminate|vm_compute; discriminate]).
  - replace (bool_decide (u "grams" ∈ [u "calories"; u "protein"; u "fat"; u "carbs"]))
      with false by (vm_compute; reflexivity).
    replace (eqb_str (u "grams") (u "grams")) with true by (vm_compute; reflexivity).
    destruct (first_integer (format_value value)) as [digits|]; [|discriminate].
    intros [= <-]. generalize (int_of_digits digits). intros n.
    split; [vm_compute; discriminate|vm_compute; discriminate].
  - replace (bool_decide (u "name" ∈ [u "calories"; u "protein"; u "fat"; u "carbs"]))
      with false by (vm_compute; reflexivity).
    replace (eqb_str (u "name") (u "grams")) with false by (vm_compute; reflexivity).
    intros [= <-]. generalize (strip (format_value value)). intros s.
    split; [vm_compute; discriminate|eauto].
  - replace (bool_decide (u "aliases" ∈ [u "calories"; u "protein"; u "fat"; u "carbs"]))
      with false by (vm_compute; reflexivity).
    replace (eqb_str (u "aliases") (u "grams")) with false by (vm_compute; reflexivity).
    intros [= <-]. generalize (strip (format_value value)). intros s.
    split; [vm_compute; discriminate|vm_compute; discriminate].
Qed.

Lemma edit_text_run text w :
  edit_text text w = (Ok tt, with_shown (shown w ++ [text]) w).
Proof. reflexivity. Qed.

Lemma add_bot_run e user_id text extra w :
  add_bot_response_to_memory e user_id text extra w
  = (Ok tt, snd (add_bot_response_to_memory e user_id text extra w)).
Proof. reflexivity. Qed.

Lemma add_bot_keeps e user_id text extra w :
  shown (snd (add_bot_response_to_memory e user_id text extra w)) = shown w
  /\ custom_foods (snd (add_bot_response_to_memory e user_id text extra w))
     = custom_foods w.
Proof. split; reflexivity. Qed.

Lemma add_bot_stored e user_id text extra w :
  stored (snd (add_bot_response_to_memory e user_id text extra w)) user_id
  = last_ten (stored w user_id ++ [new_entry e (u "bot") text extra]).
Proof.
  pose proof (stored_after_append w
                {| ap_env := e; ap_user := user_id; ap_role := u "bot";
                   ap_content := text; ap_extra := extra |} user_id) as Hstep.
  unfold run_append, turn_of in Hstep. cbn [ap_env ap_user ap_role ap_content ap_extra] in Hstep.
  destruct (decide (user_id = user_id)); [exact Hstep|congruence].
Qed.

Lemma stored_after_update l c t w user_id :
  stored (with_shown l (with_update_calls c (with_custom_foods t w))) user_id
  = stored w user_id.
Proof. reflexivity. Qed.

Lemma success_message_opening (tail : list N) :
  u "✅ *Обновлено!*

🍎 *" ++ tail = u "✅ *Обновлено!*" ++ (u "

🍎 *" ++ tail).
Proof. rewrite app_assoc. f_equal. Qed.

Lemma found_food_is_a_row table user_id query food :
  find_custom_food table user_id query = Some food ->
  In food table /\ CustomFood.user_id food = user_id.
Proof.
  unfold find_custom_food. intros Hhead.
  apply head_Some_elem_of, list_elem_of_filter in Hhead as [[Huser _] Hin].
  split; [now apply list_elem_of_In|exact Huser].
Qed.

(** X. A resolved edit succeeds.  When the request names a food that is
    found, a field that is canonical and a value that can be read, the
    handler raises nothing; the update it asks for sets a column; the table
    becomes the old one with that update applied to the rows of the user
    that have the id of the food found, the food found among them; the
    reply is the message of success; and the reply is put in the memory as
    a turn of the bot. *)
Theorem resolved_edit_succeeds e user_id edit_params food_name field value food parsed w :
  dict_get edit_params (u "food_name") (VStr []) = Ok (VStr food_name) ->
  dict_get edit_params (u "field") (VStr []) = Ok (VStr field) ->
  dict_get edit_params (u "value") (VStr []) = Ok value ->
  food_name <> [] -> field <> [] -> truthy value = true ->
  find_custom_food (custom_foods w) user_id food_name = Some food ->
  In (field_en field) valid_fields ->
  parsed_value (field_en field) value = Ok parsed ->
  let run := _edit_food_voice e user_id edit_params w in
  let update := updates (field_en field) parsed in
  update <> FoodUpdate.empty
  /\ fst run = Ok tt
  /\ custom_foods (snd run)
     = map (fun f => if targets user_id (CustomFood.id food) f
                     then apply_update update f else f) (custom_foods w)
  /\ In (apply_update update food) (custom_foods (snd run))
  /\ (exists rest, shown (snd run) = shown w ++ [u "✅ *Обновлено!*" ++ rest])
  /\ (exists turn,
        stored (snd run) user_id = last_ten (stored w user_id ++ [turn])
        /\ dict_lookup turn (u "role") = Some (VStr (u "bot"))).
Proof.
  intros Hname Hfield Hvalue Hn Hf Hv Hfind Hvalid Hparsed run update.
  destruct (updates_of_parsed_value _ _ _ Hvalid Hparsed) as [Hupdate Htext].
  fold update in Hupdate.
  destruct (found_food_is_a_row _ _ _ _ Hfind) as [Hrow Howner].
  assert (truthy (VStr food_name) = true) as Htn.
  { cbn. now rewrite bool_decide_eq_false_2. }
  assert (truthy (VStr field) = true) as Htf.
  { cbn. now rewrite bool_decide_eq_false_2. }
  set (table := map (fun f => if targets user_id (CustomFood.id food) f
                              then apply_update update f else f) (custom_foods w)).
  set (w1 := with_update_calls
               (update_calls w ++ [(user_id, CustomFood.id food, update)])
               (with_custom_foods table w)).
  assert (repo_update user_id (CustomFood.id food) update w = (Ok true, w1)) as Hupd.
  { unfold repo_update. rewrite (update_custom_food_rows _ _ _ _ Hupdate).
    replace (existsb (targets user_id (CustomFood.id food)) (custom_foods w)) with true;
      [reflexivity|].
    symmetry. apply existsb_exists. exists food. split; [exact Hrow|].
    apply targets_spec. split; [reflexivity|exact Howner]. }
  assert (exists found,
            repo_find user_id
              (if eqb_str (field_en field) (u "name") then parsed else VStr food_name) w1
            = (Ok found, w1)) as [found Hfound].
  { destruct (eqb_str (field_en field) (u "name")) eqn:Hisname.
    - destruct (Htext eq_refl) as [s ->]. eexists. apply repo_find_str.
    - eexists. apply repo_find_str. }
  eassert (run = _) as Hrun.
  { subst run. unfold _edit_food_voice.
    rewrite Hname, M_bind_lift_Ok. cbv beta.
    rewrite Hfield, M_bind_lift_Ok. cbv beta.
    rewrite Hvalue, M_bind_lift_Ok. cbv beta.
    rewrite Htn, Htf, Hv. cbn [negb orb].
    rewrite M_bind_run, repo_find_str, Hfind. cbv beta iota.
    rewrite M_bind_lift_Ok. cbv beta.
    rewrite (bool_decide_eq_true_2 _ (proj2 (list_elem_of_In _ _) Hvalid)). cbn [negb].
    rewrite Hparsed. fold update.
    rewrite M_bind_run, Hupd. cbv beta iota.
    rewrite M_bind_run, Hfound. cbv beta iota.
    rewrite M_bind_run, edit_text_run. cbv beta iota.
    rewrite add_bot_run. reflexivity. }
  rewrite Hrun. cbn [fst snd].
  split; [exact Hupdate|]. split; [reflexivity|].
  match goal with
  | |- context [add_bot_response_to_memory e user_id ?msg ?extra ?w2] =>
      destruct (add_bot_keeps e user_id msg extra w2) as [Hshown Hfoods];
      pose proof (add_bot_stored e user_id msg extra w2) as Hstored;
      pose proof (new_entry_role_content e (u "bot") msg extra) as Hturn
  end.
  rewrite Hshown, Hfoods, Hstored.
  split; [reflexivity|]. split.
  { cbn [custom_foods with_shown with_update_calls with_custom_foods w1].
    unfold table. apply in_map_iff. exists food. split; [|exact Hrow].
    replace (targets user_id (CustomFood.id food) food) with true; [reflexivity|].
    symmetry. apply targets_spec. split; [reflexivity|exact Howner]. }
  split.
  { cbn [shown with_shown with_update_calls with_custom_foods w1].
    rewrite success_message_opening. eexists. reflexivity. }
  unfold w1. rewrite stored_after_update.
  match goal with
  | |- context [new_entry e (u "bot") ?msg ?extra] =>
      exists (new_entry e (u "bot") msg extra)
  end.
  split; [reflexivity|].
  apply Hturn. intros d Hd. injection Hd as <-.
  split; vm_compute; reflexivity.
Qed.
End EditSuccess.

(** The cheese of user 7 gets 160 calories; the banana is left as it is. *)
Lemma cheese_gets_160_calories :
  let run := @_edit_food_voice basic_unicode example_builtins
               (env_at moscow_0330 offline) 7 (edit_hints "сыр" "калории" "160 ккал") pantry in
  fst run = Ok tt
  /\ custom_foods (snd run)
     = [ banana;
         @apply_update basic_unicode (updates (u "calories") (VFloat (f64 160))) cheese ]
  /\ CustomFood.calories
       (@apply_update basic_unicode (updates (u "calories") (VFloat (f64 160))) cheese)
     = f64 160.
Proof.
  destruct (@resolved_edit_succeeds basic_unicode example_builtins
              (env_at moscow_0330 offline) 7 (edit_hints "сыр" "калории" "160 ккал")
              (u "сыр") (u "калории") (VStr (u "160 ккал")) cheese (VFloat (f64 160)) pantry)
    as (_ & Hok & Htable & _).
  - vm_compute; reflexivity.
  - vm_compute; reflexivity.
  - vm_compute; reflexivity.
  - discriminate.
  - discriminate.
  - vm_compute; reflexivity.
  - vm_compute; reflexivity.
  - vm_compute. tauto.
  - vm_compute; reflexivity.
  -
  split; [exact Hok|]. split; [|vm_compute; reflexivity].
    cbv zeta in Htable. rewrite Htable. vm_compute. reflexivity.
Defined.

(** ** Entries and daily summaries *)

Lemma later_is_one a b : later a b = a \/ later a b = b.
Proof. unfold later. destruct (_ <? _); auto. Qed.

Lemma later_timestamp a b :
  NutritionEntry.timestamp a <= NutritionEntry.timestamp (later a b)
  /\ NutritionEntry.timestamp b <= NutritionEntry.timestamp (later a b).
Proof.
  unfold later. destruct (NutritionEntry.timestamp a <? NutritionEntry.timestamp b) eqn:Hlt.
  - apply Z.ltb_lt in Hlt. lia.
  - apply Z.ltb_ge in Hlt. lia.
Qed.

Lemma foldl_later rows : forall r,
  In (foldl later r rows) (r :: rows)
  /\ forall s, In s (r :: rows) ->
       NutritionEntry.timestamp s <= NutritionEntry.timestamp (foldl later r rows).
Proof.
  induction rows as [|x rows IH]; intros r; cbn [foldl].
  - split; [now left|]. intros s [<-|[]]. lia.
  - destruct (IH (later r x)) as [Hin Hmax]. split.
    + destruct Hin as [Hin|Hin]; [|right; now right].
      destruct (later_is_one r x) as [Hl|Hl]; rewrite Hl in Hin at 1;
        [left; exact Hin|right; left; exact Hin].
    + destruct (later_timestamp r x) as [Hr Hx].
      pose proof (Hmax (later r x) (or_introl eq_refl)) as Hl.
      intros s [<-|[<-|Hs]]; [lia|lia|]. apply Hmax. now right.
Qed.

Lemma latest_spec rows row :
  latest rows = Some row ->
  In row rows
  /\ forall s, In s rows -> NutritionEntry.timestamp s <= NutritionEntry.timestamp row.
Proof.
  destruct rows as [|r rows]; [discriminate|]. intros [= <-]. apply foldl_later.
Qed.

Lemma same_id_same_row (table : list NutritionEntry.t) a b :
  NoDup (map NutritionEntry.id table) -> In a table -> In b table ->
  NutritionEntry.id a = NutritionEntry.id b -> a = b.
Proof.
  induction table as [|r table IH]; intros Hnodup Ha Hb Hid; [destruct Ha|].
  cbn [map] in Hnodup. apply NoDup_cons in Hnodup as [Hfresh Hnodup].
  assert (forall c, In c table -> NutritionEntry.id c <> NutritionEntry.id r) as Hnot.
  { intros c Hc Heq. apply Hfresh. rewrite <- Heq.
    apply list_elem_of_In, in_map, Hc. }
  destruct Ha as [<-|Ha], Hb as [<-|Hb]; auto.
  - now destruct (Hnot b Hb).
  - now destruct (Hnot a Ha).
Qed.

(** X. [delete_last_entry] deletes an entry of the user that no other
    entry of the user is later than, and nothing else: the rows that stay
    are the rows with another id, in their order, and (ids being distinct)
    all the rows of other users stay.  When the user has no entry, the
    table is unchanged and the answer is [False]. *)
Theorem delete_last_entry_deletes_the_latest table user_id :
  let table' := fst (delete_last_entry table user_id) in
  let deleted := snd (delete_last_entry table user_id) in
  (deleted = false <->
     forall r, In r table -> NutritionEntry.user_id r <> user_id)
  /\ (deleted = false -> table' = table)
  /\ (deleted = true ->
      exists row,
        In row table
        /\ NutritionEntry.user_id row = user_id
        /\ (forall r, In r table -> NutritionEntry.user_id r = user_id ->
              NutritionEntry.timestamp r <= NutritionEntry.timestamp row)
        /\ table' = filter (fun r => NutritionEntry.id r ≠ NutritionEntry.id row) table
        /\ ~ In row table'
        /\ (NoDup (map NutritionEntry.id table) ->
            forall r, In r table -> r <> row -> In r table')).
Proof.
  intros table' deleted. subst table' deleted. unfold delete_last_entry.
  destruct (latest (filter (fun r => NutritionEntry.user_id r = user_id) table))
    as [row|] eqn:Hlatest; cbn [fst snd].
  - destruct (latest_spec _ _ Hlatest) as [Hin Hmax].
    apply list_elem_of_In, list_elem_of_filter in Hin as [Huser Hin].
    apply list_elem_of_In in Hin.
    split; [split; [discriminate|]; intros Hnone; now destruct (Hnone row Hin)|].
    split; [discriminate|]. intros _. exists row.
    split; [exact Hin|]. split; [exact Huser|]. split.
    { intros r Hr Hu. apply Hmax, list_elem_of_In, list_elem_of_filter.
      split; [exact Hu|now apply list_elem_of_In]. }
    split; [reflexivity|]. split.
    { intros Hrow. apply list_elem_of_In, list_elem_of_filter in Hrow as [Hid _].
      now apply Hid. }
    intros Hnodup r Hr Hne. apply list_elem_of_In, list_elem_of_filter.
    split; [|now apply list_elem_of_In].
    intros Hid. apply Hne.
    exact (same_id_same_row table r row Hnodup Hr Hin Hid).
  - split; [split; [intros _|reflexivity]|split; [reflexivity|discriminate]].
    intros r Hr Hu.
    assert (r ∈ filter (fun r => NutritionEntry.user_id r = user_id) table) as Hf
      by (apply list_elem_of_filter; split; [exact Hu|now apply list_elem_of_In]).
    destruct (filter _ table); [inversion Hf|discriminate].
Qed.

Lemma insert_by_time_perm r l : insert_by_time r l ≡ₚ r :: l.
Proof.
  induction l as [|s l IH]; [reflexivity|]. cbn [insert_by_time].
  destruct (_ <=? _); [|reflexivity]. rewrite IH. apply Permutation_swap.
Qed.

Lemma in_day_rows table user_id date_str r :
  In r (day_rows table user_id date_str)
  <-> In r table /\ NutritionEntry.user_id r = user_id /\ NutritionEntry.date r = date_str.
Proof.
  unfold day_rows. rewrite <- !list_elem_of_In.
  assert (forall l, foldr insert_by_time [] l ≡ₚ l) as Hperm.
  { induction l as [|x l IH]; [reflexivity|]. cbn [foldr].
    now rewrite insert_by_time_perm, IH. }
  rewrite Hperm, list_elem_of_filter. tauto.
Qed.

Section Summaries.
Context `{Storage} `{Pytz}.

Lemma summary_of_date user_id ordinal tz :
  pytz_zone (u "UTC") = Some tz ->
  (forall x, localize_offset tz x = 0) ->
  1 <= ordinal <= MAXORDINAL ->
  representable ((ordinal - 1) * 86400) = true ->
  @get_daily_summary basic_unicode _ user_id (strftime_ymd ordinal) (u "UTC") 4
  = Ok {| q_user_id := user_id; q_date_str := strftime_ymd ordinal;
          q_start_utc := {| wall := (ordinal - 1) * 86400 + 4 * 3600; utcoffset := 0 |};
          q_end_utc := {| wall := ordinal * 86400 + 4 * 3600; utcoffset := 0 |} |}.
Proof.
  intros Hz Hoff Hord Hprev. unfold get_daily_summary.
  assert (representable (ordinal * 86400 + 4 * 3600) = true) as Hend.
  { unfold representable. rewrite dt_ordinal_with_time by lia.
    apply andb_true_intro. split; apply Z.leb_le; lia. }
  assert (representable ((ordinal - 1) * 86400 + 4 * 3600) = true) as Hstart.
  { unfold representable in *. rewrite dt_ordinal_with_time by lia.
    unfold dt_ordinal in Hprev. rewrite Z_div_mult_full in Hprev by lia. exact Hprev. }
  rewrite (@get_day_start_end_ok basic_unicode _ _ (u "UTC") tz 4 (ordinal * 86400) Hz
             (strptime_strftime ordinal Hord) ltac:(lia)).
  - cbv zeta. rewrite Hoff. rewrite bind_Ok. do 3 f_equal; f_equal; lia.
  - cbv zeta. replace (ordinal * 86400 + 4 * 3600 - 86400)
      with ((ordinal - 1) * 86400 + 4 * 3600) by lia. exact Hstart.
  - cbv zeta. rewrite Hoff.
    replace (ordinal * 86400 + 4 * 3600 - 86400 - 0)
      with ((ordinal - 1) * 86400 + 4 * 3600) by lia. exact Hstart.
  - cbv zeta. rewrite Hoff, Z.sub_0_r. exact Hend.
Qed.

(** X. The summary of 'today' is the summary of the day that ended at
    04:00.  [_show_today] asks for the date of the server's clock with the
    defaults 'UTC' and 4, which selects the entries from 04:00 of the day
    before to 04:00 of that date, and [_show_yesterday] the 24 hours before
    those.  So an entry that [save_entry] stores at the time of the request
    is in the list of the day's entries, is counted in the summary of today
    only when the server's hour is below 4, and is never counted in the
    summary of yesterday. *)
Theorem summary_of_today_ends_at_4 table seq e user_id raw_input items totals tz :
  pytz_zone (u "UTC") = Some tz ->
  (forall x, localize_offset tz x = 0) ->
  representable (server_now e - 3 * 86400) = true ->
  representable (server_now e + 86400) = true ->
  let saved := save_entry table seq e user_id raw_input items totals in
  exists entry today yesterday,
    fst saved = table ++ [entry]
    /\ NutritionEntry.id entry = snd saved
    /\ NutritionEntry.user_id entry = user_id
    /\ NutritionEntry.timestamp entry = server_now e
    /\ @_show_today basic_unicode _ e user_id = Ok today
    /\ @_show_yesterday basic_unicode _ e user_id = Ok yesterday
    /\ wall (q_start_utc today) = (dt_ordinal (server_now e) - 1) * 86400 + 4 * 3600
    /\ wall (q_end_utc today) = dt_ordinal (server_now e) * 86400 + 4 * 3600
    /\ q_end_utc yesterday = q_start_utc today
    /\ In entry (day_rows (fst saved) user_id (q_date_str today))
    /\ (In entry (summary_rows today (fst saved)) <-> dt_hour (server_now e) < 4)
    /\ ~ In entry (summary_rows yesterday (fst saved)).
Proof.
  intros Hz Hoff Hlo Hhi saved. subst saved. unfold save_entry. cbn [fst snd].
  set (now := server_now e) in *.
  pose proof (Z.div_mod now 86400 ltac:(lia)) as Hdm.
  pose proof (Z.mod_pos_bound now 86400 ltac:(lia)) as Hs.
  pose proof (Z.div_mod (now mod 86400) 3600 ltac:(lia)) as Hdm'.
  pose proof (Z.mod_pos_bound (now mod 86400) 3600 ltac:(lia)) as Hs'.
  assert (forall x, now - 3 * 86400 <= x <= now + 86400 -> representable x = true) as Hrep
    by (intros x Hx; exact (representable_between _ _ _ Hlo Hhi Hx)).
  set (D := dt_ordinal now) in *.
  assert (D = now / 86400) as HD by reflexivity.
  assert (2 <= D - 1 /\ D <= MAXORDINAL) as Hord.
  { pose proof (Hrep ((D - 2) * 86400) ltac:(lia)) as H1.
    pose proof (Hrep (D * 86400) ltac:(lia)) as H2.
    unfold representable, dt_ordinal in H1, H2.
    rewrite Z_div_mult_full in H1, H2 by lia.
    apply andb_true_iff in H1 as [H1 _]. apply andb_true_iff in H2 as [_ H2].
    apply Z.leb_le in H1, H2. lia. }
  eexists. exists
    {| q_user_id := user_id; q_date_str := strftime_ymd D;
       q_start_utc := {| wall := (D - 1) * 86400 + 4 * 3600; utcoffset := 0 |};
       q_end_utc := {| wall := D * 86400 + 4 * 3600; utcoffset := 0 |} |},
    {| q_user_id := user_id; q_date_str := strftime_ymd (D - 1);
       q_start_utc := {| wall := (D - 1 - 1) * 86400 + 4 * 3600; utcoffset := 0 |};
       q_end_utc := {| wall := (D - 1) * 86400 + 4 * 3600; utcoffset := 0 |} |}.
  split; [reflexivity|].
  cbn [NutritionEntry.id NutritionEntry.user_id NutritionEntry.timestamp
       q_start_utc q_end_utc q_date_str q_user_id wall].
  do 3 (split; [reflexivity|]).
  split.
  { unfold _show_today. fold now. fold D.
    apply (summary_of_date user_id D tz Hz Hoff); [lia|apply Hrep; lia]. }
  split.
  { unfold _show_yesterday. fold now.
    rewrite dt_add_seconds_ok by (apply Hrep; lia). rewrite bind_Ok.
    replace (now + -86400) with (now - 86400) by lia.
    rewrite dt_ordinal_day_before. fold D.
    apply (summary_of_date user_id (D - 1) tz Hz Hoff); [lia|apply Hrep; lia]. }
  do 3 (split; [reflexivity|]).
  split.
  { apply in_day_rows. split; [apply in_or_app; right; now left|]. split; reflexivity. }
  unfold summary_rows. rewrite <- !list_elem_of_In, !list_elem_of_filter.
  cbn [NutritionEntry.user_id NutritionEntry.timestamp q_user_id q_start_utc q_end_utc wall].
  unfold dt_hour. split.
  - split.
    + intros [(_ & _ & Hend) _].
      apply Z.div_lt_upper_bound; lia.
    + intros Hearly.
      assert (now mod 86400 / 3600 <= 3) as Hq by lia.
      split; [repeat split; lia|]. apply list_elem_of_In, in_or_app. right. now left.
  - intros [(_ & _ & Hend) _]. lia.
Qed.
End Summaries.

(** At 10:00 on the server an entry with no items is saved for user 7: it
    is listed among the entries of the day, and the summary of 'today' does
    not count it. *)
Lemma entry_of_1000_is_not_in_today :
  let saved := @save_entry example_storage [] 0 (env_at utc_1000 offline) 7
                 (u "чай") [] [] in
  exists entry today,
    fst saved = [entry]
    /\ @_show_today basic_unicode fixed_zones (env_at utc_1000 offline) 7 = Ok today
    /\ In entry (day_rows (fst saved) 7 (q_date_str today))
    /\ entries_count today (fst saved) = 0.
Proof.
  destruct (@summary_of_today_ends_at_4 example_storage fixed_zones [] 0
              (env_at utc_1000 offline) 7 (u "чай") [] [] (fixed_offset 0))
    as (entry & today & yesterday & Htable & _ & _ & _ & Htoday & _ & _ & _ & _
        & Hday & Hcount & _).
  - reflexivity.
  - reflexivity.
  - vm_compute; reflexivity.
  - vm_compute; reflexivity.
  - cbv zeta in *. change ([] ++ [entry]) with [entry] in Htable.
    exists entry, today. split; [exact Htable|]. split; [exact Htoday|].
    split; [exact Hday|].
    assert (~ In entry (summary_rows today [entry])) as Hout.
    { rewrite Htable in Hcount. intros Hin.
      apply Hcount in Hin. vm_compute in Hin. discriminate. }
    rewrite Htable. unfold entries_count.
    destruct (summary_rows today [entry]) as [|r rest] eqn:Hrows; [reflexivity|].
    exfalso. apply Hout.
    assert (r ∈ summary_rows today [entry]) as Hr by (rewrite Hrows; left).
    unfold summary_rows in Hr. apply list_elem_of_filter in Hr as [_ Hr].
    apply list_elem_of_singleton in Hr as ->.
    left. reflexivity.
Defined.

Section EntryRoundTrip.
Context `{Storage}.

Lemma next_entry_id_above table seq r :
  In r table -> NutritionEntry.id r < next_entry_id table seq.
Proof.
  unfold next_entry_id. induction table as [|x table IH]; [intros []|].
  cbn [map foldr]. intros [<-|Hin]; [lia|]. specialize (IH Hin). lia.
Qed.

Lemma latest_of_a_later_row rows entry :
  (forall r, In r rows -> NutritionEntry.timestamp r < NutritionEntry.timestamp entry) ->
  latest (rows ++ [entry]) = Some entry.
Proof.
  intros Hbefore. destruct rows as [|r rows]; [reflexivity|].
  cbn [app latest]. rewrite foldl_app. cbn [foldl]. f_equal.
  destruct (foldl_later rows r) as [Hin _].
  apply Hbefore in Hin. set (last_row := foldl later r rows) in *.
  clearbody last_row. unfold later.
  apply Z.ltb_lt in Hin. rewrite Hin. reflexivity.
Qed.

Lemma filter_all {A} (P : A -> Prop) `{forall x, Decision (P x)} (l : list A) :
  (forall x, In x l -> P x) -> filter P l = l.
Proof.
  induction l as [|x l IH]; intros Hall; [reflexivity|].
  rewrite filter_cons_True by (apply Hall; now left).
  f_equal. apply IH. intros y Hy. apply Hall. now right.
Qed.

(** X. [delete_last_entry] undoes [save_entry].  When the entries that the
    user has are all from before the server's time, deleting the last
    entry after saving one gives back the table as it was, and the answer
    is [True]; the id of the entry saved is above every id of the table
    and is not given again by the next [save_entry]. *)
Theorem delete_last_entry_undoes_save_entry table seq e user_id raw_input items totals :
  (forall r, In r table -> NutritionEntry.user_id r = user_id ->
     NutritionEntry.timestamp r < server_now e) ->
  let saved := save_entry table seq e user_id raw_input items totals in
  delete_last_entry (fst saved) user_id = (table, true)
  /\ (forall r, In r table -> NutritionEntry.id r < snd saved)
  /\ seq < snd saved
  /\ snd saved
     < snd (save_entry (fst saved) seq e user_id raw_input items totals).
Proof.
  intros Hbefore saved. subst saved. unfold save_entry. cbn [fst snd].
  set (entry := {| NutritionEntry.id := next_entry_id table seq |}).
  assert (forall r, In r table -> NutritionEntry.id r < next_entry_id table seq) as Hids
    by (intros r; apply next_entry_id_above).
  split; [|split; [exact Hids|split]].
  - unfold delete_last_entry. rewrite filter_app.
    rewrite (filter_cons_True _ entry []) by reflexivity. rewrite filter_nil.
    rewrite latest_of_a_later_row.
    + rewrite filter_app.
      rewrite (filter_cons_False _ entry []) by (intros Hne; now apply Hne).
      rewrite filter_nil, app_nil_r. f_equal.
      apply filter_all. intros r Hr. cbn [NutritionEntry.id entry].
      specialize (Hids r Hr). lia.
    + intros r Hr. apply list_elem_of_In, list_elem_of_filter in Hr as [Hu Hr].
      apply list_elem_of_In in Hr. cbn [NutritionEntry.timestamp entry]. auto.
  - unfold next_entry_id. clear. induction table as [|x table IH]; cbn [map foldr]; lia.
  - apply (next_entry_id_above (table ++ [entry]) seq entry).
    apply in_or_app. right. now left.
Qed.
End EntryRoundTrip.

(** An entry saved at 10:00 into a table that holds one of 09:00 is taken
    out again. *)
Lemma tea_is_taken_back :
  let breakfast :=
    {| NutritionEntry.id := 5; NutritionEntry.user_id := 7;
       NutritionEntry.date := u "2024-06-02";
       NutritionEntry.timestamp := dt_make 2024 6 2 9 0 0;
       NutritionEntry.raw_input := u "каша"; NutritionEntry.items_json := u "[]";
       NutritionEntry.total_calories := VFloat (f64 300);
       NutritionEntry.total_protein := VFloat (f64 10);
       NutritionEntry.total_fat := VFloat (f64 5);
       NutritionEntry.total_carbs := VFloat (f64 50) |} in
  let saved := @save_entry example_storage [breakfast] 5 (env_at utc_1000 offline) 7
                 (u "чай") [] [] in
  snd saved = 6
  /\ delete_last_entry (fst saved) 7 = ([breakfast], true).
Proof.
  intros breakfast saved.
  split; [vm_compute; reflexivity|].
  apply (@delete_last_entry_undoes_save_entry example_storage [breakfast] 5
           (env_at utc_1000 offline) 7 (u "чай") [] []).
  intros r [<-|[]] _. vm_compute. reflexivity.
Defined.

(** ** Voice *)

Section Voice.
Context `{Unicode}.

Lemma error_text_is_a_failure message :
  transcription_failed (u "[Ошибка распознавания голоса: " ++ message ++ u "]") = true.
Proof.
  unfold transcription_failed.
  assert (u "[Ошибка распознавания голоса: "
          = u "[" ++ u "Ошибка" ++ u " распознавания голоса: ") as ->
    by (vm_compute; reflexivity).
  rewrite <- !app_assoc. rewrite startswith_app. cbn [andb].
  apply contains_substring. eauto.
Qed.

(** X. The order of the transcription services.  Groq is asked exactly
    when it has a key, and OpenAI exactly when it has a key and Groq has
    none or failed; a text that Groq gives is returned without asking
    OpenAI.  When the last service asked fails, the result is the text
    '[Ошибка распознавания голоса: ...]' with the message of its exception,
    which [handle_voice] takes for a failure; with no key at all the result
    is the text that asks for a key, which [handle_voice] does not take for
    a failure and goes on to classify as if the user had said it. *)
Theorem transcription_falls_back s :
  let text := fst (transcribe_audio s) in
  let asked := snd (transcribe_audio s) in
  (In Groq asked <-> groq_api_key s <> [])
  /\ (In OpenAI asked <->
        openai_api_key s <> []
        /\ (groq_api_key s = [] \/ exists ex, transcribed (speech_post s Groq) = Raise ex))
  /\ (forall heard, groq_api_key s <> [] ->
        transcribed (speech_post s Groq) = Ok heard ->
        text = heard /\ asked = [Groq])
  /\ (forall heard, In OpenAI asked ->
        transcribed (speech_post s OpenAI) = Ok heard -> text = heard)
  /\ (forall ex, In OpenAI asked ->
        transcribed (speech_post s OpenAI) = Raise ex ->
        text = u "[Ошибка распознавания голоса: " ++ exn_msg ex ++ u "]"
        /\ transcription_failed text = true)
  /\ (openai_api_key s = [] ->
      (groq_api_key s = [] \/ exists ex, transcribed (speech_post s Groq) = Raise ex) ->
      text = no_key_text /\ transcription_failed text = false).
Proof.
  intros text asked. subst text asked.
  unfold transcribe_audio, _transcribe_with_groq, _transcribe_with_openai.
  assert (transcription_failed no_key_text = false) as Hkey by (vm_compute; reflexivity).
  pose proof error_text_is_a_failure as Herr.
  set (opening := u "[Ошибка распознавания голоса: ") in *.
  set (closing := u "]") in *.
  set (no_key := no_key_text) in *.
  clearbody opening closing no_key.
  destruct (groq_api_key s) as [|g gs] eqn:Hg;
    destruct (openai_api_key s) as [|o os] eqn:Ho;
    destruct (transcribed (speech_post s Groq)) as [heard|ex] eqn:Hgroq;
    destruct (transcribed (speech_post s OpenAI)) as [heard'|ex'] eqn:Hopenai;
    cbn [fst snd In];
    repeat split; try discriminate; try tauto; try congruence; intros;
    repeat match goal with
           | H : _ \/ _ |- _ => destruct H
           | H : _ /\ _ |- _ => destruct H
           | H : exists _, _ |- _ => destruct H
           | H : False |- _ => destruct H
           end;
    try discriminate; try congruence; eauto.
Qed.
End Voice.

(** ** Text messages *)

Section TextRouting.
Context `{Unicode} `{Builtins}.

Lemma try_M_run {A} (body : M A) catches handler w :
  try_M body catches handler w
  = match body w with
    | (Ok a, w') => (Ok a, w')
    | (Raise ex, w') => if catches (exn_kind ex) then handler ex w' else (Raise ex, w')
    end.
Proof. reflexivity. Qed.

Lemma reply_text_run text w :
  reply_text text w = (Ok tt, with_shown (shown w ++ [text]) w).
Proof. reflexivity. Qed.

(** X. [handle_text] falls back to logging food.  With no text it does
    nothing.  Otherwise it answers '🤔 Думаю...' and classifies the
    stripped text; whenever the classifier's backend fails, and whenever
    the intent is not a dictionary or carries none of the seven actions,
    it hands the stripped text itself to [_process_food_text]; and when
    anything raises on the way, a routed handler included, it hands the
    text to [_process_food_text] on the state that was left.  So it raises
    only if that last call raises. *)
Theorem handle_text_falls_back_to_food h e user_id raw w :
  raw <> [] ->
  let text := strip raw in
  let w0 := with_shown (shown w ++ [u "🤔 Думаю..."]) w in
  let food := on_process_food_text h user_id (VStr text) in
  handle_text h e user_id None w = (Ok tt, w)
  /\ handle_text h e user_id (Some []) w = (Ok tt, w)
  /\ handle_text h e user_id (Some raw) w
     = try_M (route_text h e user_id text) is_Exception (fun _ => food) w0
  /\ (forall ex w', route_text h e user_id text w0 = (Raise ex, w') ->
        handle_text h e user_id (Some raw) w = food w')
  /\ (forall intent w1,
        detect_intent e text (Some user_id) w0 = (Ok intent, w1) ->
        (forall d, intent <> VDict d) ->
        handle_text h e user_id (Some raw) w = food w1)
  /\ (forall d w1 action,
        detect_intent e text (Some user_id) w0 = (Ok (VDict d), w1) ->
        dict_get (VDict d) (u "action") VNone = Ok action ->
        (forall known,
           In known [u "show_summary"; u "delete_last"; u "show_foods"; u "edit_food";
                     u "show_settings"; u "change_language"; u "add_food"] ->
           action <> VStr known) ->
        handle_text h e user_id (Some raw) w
        = try_M food is_Exception (fun _ => food) w1)
  /\ ((forall context,
         backend_failure (session_post e (IntentRequest context text))) ->
      exists w1,
        detect_intent e text (Some user_id) w0 = (Ok (fallback_intent text), w1)
        /\ handle_text h e user_id (Some raw) w
           = try_M food is_Exception (fun _ => food) w1)
  /\ ((forall w', exists w'', food w' = (Ok tt, w'')) ->
      exists w', handle_text h e user_id (Some raw) w = (Ok tt, w')).
Proof.
  intros Hraw text w0 food.
  assert (handle_text h e user_id (Some raw) w
          = try_M (route_text h e user_id text) is_Exception (fun _ => food) w0) as Hrun.
  { unfold handle_text. destruct raw as [|c raw']; [congruence|].
    rewrite M_bind_run, reply_text_run. reflexivity. }
  assert (forall v s, (forall known, In known [s] -> v <> VStr known) -> is_text v s = false)
    as Hother.
  { intros v s Hv. destruct v; try reflexivity. cbn [is_text]. unfold eqb_str.
    apply bool_decide_eq_false_2. intros ->. apply (Hv s); [now left|reflexivity]. }
  split; [reflexivity|]. split; [reflexivity|]. split; [exact Hrun|].
  split; [|split; [|split; [|split]]].
  - intros ex w' Hroute. rewrite Hrun, try_M_run, Hroute. reflexivity.
  - intros intent w1 Hintent Hnot. rewrite Hrun, try_M_run.
    unfold route_text. rewrite M_bind_run, Hintent.
    destruct intent; try reflexivity. now destruct (Hnot d).
  - intros d w1 action Hintent Haction Hunknown. rewrite Hrun, !try_M_run.
    unfold route_text. rewrite M_bind_run, Hintent. cbv beta iota.
    rewrite Haction, M_bind_lift_Ok. cbv beta.
    rewrite !Hother; [reflexivity|..];
      intros known [<-|[]]; apply Hunknown; cbn [In]; tauto.
  - intros Hfail.
    destruct (detect_intent e text (Some user_id) w0) as [r w1] eqn:Hintent.
    pose proof (detect_intent_of_try e text (Some user_id) w0) as Hof.
    rewrite detect_intent_try_run in Hof. rewrite Hintent in Hof.
    destruct (fst (intent_context (Some user_id) w0)) as [context|ex].
    + destruct (backend_failure_decode _ (Hfail context)) as [ex Hdecode].
      rewrite Hdecode in Hof. cbv zeta in Hof. injection Hof as -> ->.
      eexists. split; [reflexivity|].
      rewrite Hrun, !try_M_run. unfold route_text. rewrite M_bind_run, Hintent.
      reflexivity.
    + injection Hof as -> ->. eexists. split; [reflexivity|].
      rewrite Hrun, !try_M_run. unfold route_text. rewrite M_bind_run, Hintent.
      reflexivity.
  - intros Hfood. rewrite Hrun, try_M_run.
    destruct (route_text h e user_id text w0) as [[[]|ex] w']; [eauto|].
    cbn [is_Exception]. destruct (Hfood w') as [w'' ->]. eauto.
Qed.

Lemma say_food_error_run e user_id w :
  exists w', say_food_error e user_id w = (Ok tt, w')
             /\ shown w' = shown w ++ [u "❌ Произошла ошибка. Попробуй ещё раз."]
             /\ custom_foods w' = custom_foods w.
Proof. eexists. split; [reflexivity|]. split; reflexivity. Qed.

(** X. [_process_food_text] raises nothing, and what it leaves depends on
    where the analysis stopped.  An analysis that carries an error is shown
    as '❌ Ошибка: ...': nothing is saved and no turn is recorded.  An
    analysis without error is saved first and then formatted, shown and
    recorded as a turn of the bot (the first 300 characters).  When
    anything raises, the user is told that an error occurred and that
    message is recorded — also when it is the formatting that raises, after
    the entry was saved: the entry stays. *)
Theorem process_food_text_outcomes log e user_id text w :
  let run := _process_food_text log e user_id text w in
  let saving (analysis : NutritionAnalysis.t) :=
    repo_save_entry log user_id text
      (map _item_to_dict (NutritionAnalysis.items analysis))
      [ (u "calories", NutritionAnalysis.total_calories analysis);
        (u "protein", NutritionAnalysis.total_protein analysis);
        (u "fat", NutritionAnalysis.total_fat analysis);
        (u "carbs", NutritionAnalysis.total_carbs analysis) ] in
  (exists w', run = (Ok tt, w'))
  /\ (forall ex w1, analyze e text true (Some user_id) w = (Raise ex, w1) ->
        run = say_food_error e user_id w1)
  /\ (forall analysis w1,
        analyze e text true (Some user_id) w = (Ok analysis, w1) ->
        (truthy (NutritionAnalysis.error analysis) = true ->
         run = (Ok tt,
                with_shown
                  (shown w1 ++ [u "❌ Ошибка: "
                                  ++ format_value (NutritionAnalysis.error analysis)]) w1))
        /\ (truthy (NutritionAnalysis.error analysis) = false ->
            (forall ex w2, saving analysis w1 = (Raise ex, w2) ->
               run = say_food_error e user_id w2)
            /\ (forall entry_id w2,
                  saving analysis w1 = (Ok entry_id, w2) ->
                  (forall ex w3,
                     format_analysis_response log analysis user_id w2 = (Raise ex, w3) ->
                     run = say_food_error e user_id w3)
                  /\ (forall response w3,
                        format_analysis_response log analysis user_id w2
                        = (Ok response, w3) ->
                        run = add_bot_response_to_memory e user_id (take 300 response)
                                (Some [ (u "type", VStr (u "food_logged"));
                                        (u "calories",
                                         NutritionAnalysis.total_calories analysis) ])
                                (with_shown (shown w3 ++ [response]) w3))))).
Proof.
  intros run saving. subst run. unfold _process_food_text.
  rewrite try_M_run, M_bind_run.
  assert (forall w0, exists w', say_food_error e user_id w0 = (Ok tt, w')) as Hsay
    by (intros w0; destruct (say_food_error_run e user_id w0) as (w' & Hw & _); eauto).
  unfold say_food_error in *. cbv zeta in *.
  destruct (analyze e text true (Some user_id) w) as [[analysis|ex] w1] eqn:Hanalyze.
  2:{ cbn [is_Exception].
      split; [destruct (Hsay w1) as (w' & ->); eauto|].
      split; [intros ? ? [= <- <-]; reflexivity|intros; discriminate]. }
  destruct (truthy (NutritionAnalysis.error analysis)) eqn:Herror.
  { rewrite edit_text_run.
    split; [eauto|]. split; [intros; discriminate|].
    intros ? ? [= <- <-]. split; [intros _; reflexivity|intros Hno; congruence]. }
  rewrite M_bind_run. fold (saving analysis).
  destruct (saving analysis w1) as [[entry_id|ex] w2] eqn:Hsave.
  2:{ cbn [is_Exception].
      split; [destruct (Hsay w2) as (w' & ->); eauto|].
      split; [intros; discriminate|]. intros ? ? [= <- <-].
      split; [intros Hyes; congruence|]. intros _. rewrite Hsave.
      split; [intros ? ? [= <- <-]; reflexivity|intros; discriminate]. }
  rewrite M_bind_run.
  destruct (format_analysis_response log analysis user_id w2) as [[response|ex] w3]
    eqn:Hformat.
  2:{ cbn [is_Exception].
      split; [destruct (Hsay w3) as (w' & ->); eauto|].
      split; [intros; discriminate|]. intros ? ? [= <- <-].
      split; [intros Hyes; congruence|]. intros _. rewrite Hsave.
      split; [intros; discriminate|]. intros ? ? [= <- <-]. rewrite Hformat.
      split; [intros ? ? [= <- <-]; reflexivity|intros; discriminate]. }
  rewrite M_bind_run, edit_text_run. cbv beta iota. rewrite add_bot_run.
  split; [eauto|]. split; [intros; discriminate|]. intros ? ? [= <- <-].
  split; [intros Hyes; congruence|]. intros _. rewrite Hsave.
  split; [intros; discriminate|]. intros ? ? [= <- <-]. rewrite Hformat.
  split; [intros; discriminate|]. intros ? ? [= <- <-]. now rewrite <- add_bot_run.
Qed.
End TextRouting.

(** With the backend out of reach, the text is handed to
    [_process_food_text], stripped. *)
Lemma offline_text_is_logged_as_food :
  shown (snd (@handle_text basic_unicode example_builtins naming_handlers
                (env_at moscow_0330 offline) 7 (Some (u " съел 2 банана ")) empty_world))
  = [u "🤔 Думаю..."; u "food: съел 2 банана"].
Proof.
  destruct (@handle_text_falls_back_to_food basic_unicode example_builtins
              naming_handlers (env_at moscow_0330 offline) 7 (u " съел 2 банана ")
              empty_world ltac:(discriminate))
    as (_ & _ & _ & _ & _ & _ & Hfail & _).
  destruct Hfail as (w1 & Hintent & Hrun).
  { intros context. eapply transport_error. reflexivity. }
  rewrite Hrun.
  assert (w1 = snd (@detect_intent basic_unicode example_builtins
                      (env_at moscow_0330 offline)
                      (@strip basic_unicode (u " съел 2 банана ")) (Some 7)
                      (with_shown (shown empty_world ++ [u "🤔 Думаю..."]) empty_world)))
    as -> by (rewrite Hintent; reflexivity).
  vm_compute. reflexivity.
Defined.

(** ** The matcher outside the [try] of [analyze] *)

Section MatcherFailure.
Context `{Unicode} `{Builtins}.

Lemma scaled_item_unscalable food multiplier :
  ~ scalable food multiplier ->
  exists ex, scaled_item food multiplier = Raise ex
             /\ (exn_kind ex = OverflowError \/ exn_kind ex = ValueError).
Proof.
  intros Hno. unfold scaled_item.
  destruct (float_of_int multiplier) as [m|ex] eqn:Hm; cbn.
  - destruct (int_of_float (fmul (CustomFood.calories food) m)) as [calories|ex] eqn:Hc;
      cbn.
    + exfalso. apply Hno. exists m, calories. split; assumption.
    + exists ex. split; [reflexivity|].
      unfold int_of_float in Hc.
      destruct (fmul (CustomFood.calories food) m); inversion Hc; subst; cbn; auto.
  - exists ex. split; [reflexivity|].
    unfold float_of_int in Hm.
    destruct (binary_normalize 53 1024 multiplier 0 false); inversion Hm; subst; cbn; auto.
Qed.

Lemma check_each_unscalable text_lower foods : forall food key,
  In food foods -> matched_key food text_lower = Some key ->
  ~ scalable food (multiplier_for key text_lower) ->
  exists ex, check_each foods text_lower = Raise ex
             /\ (exn_kind ex = OverflowError \/ exn_kind ex = ValueError).
Proof.
  induction foods as [|f rest IH]; intros food key Hin Hkey Hno; [destruct Hin|].
  cbn [check_each].
  destruct (matched_key f text_lower) as [k|] eqn:Hk.
  - destruct (scaled_item f (multiplier_for k text_lower)) as [item|ex] eqn:Hitem; cbn.
    + destruct Hin as [->|Hin].
      * exfalso. rewrite Hkey in Hk. injection Hk as <-.
        destruct (scaled_item_unscalable _ _ Hno) as (ex & Hex & _). congruence.
      * destruct (IH food key Hin Hkey Hno) as (ex & -> & Hkind). cbn. eauto.
    + destruct (float_of_int (multiplier_for k text_lower)) as [m|ex'] eqn:Hm.
      * destruct (int_of_float (fmul (CustomFood.calories f) m)) as [c|ex''] eqn:Hc.
        -- exfalso.
           destruct (scaled_item_scalable f (multiplier_for k text_lower)) as [i Hi];
             [exists m, c; split; assumption | congruence].
        -- destruct (scaled_item_unscalable f (multiplier_for k text_lower))
             as (ex0 & Hex & Hkind).
           { intros (m' & c' & Hm' & Hc'). congruence. }
           exists ex. split; [reflexivity|]. congruence.
      * destruct (scaled_item_unscalable f (multiplier_for k text_lower))
          as (ex0 & Hex & Hkind).
        { intros (m' & c' & Hm' & _). congruence. }
        exists ex. split; [reflexivity|]. congruence.
  - destruct Hin as [->|Hin]; [congruence|]. eauto.
Qed.

(** X. The matcher of saved foods runs before the [try] of [analyze], and
    what it raises leaves [analyze].  When a saved food of the user occurs
    in the utterance with a quantity that does not scale (the multiplier
    is too large for a float, or the scaled calories are not finite),
    [analyze] raises an [OverflowError] or a [ValueError]: it returns no
    analysis, does not ask the model instead, and changes nothing. *)
Theorem unscalable_quantity_leaves_analyze e text user_id w food key :
  user_id <> 0 ->
  In food (get_custom_foods (custom_foods w) user_id) ->
  matched_key food (str_lower text) = Some key ->
  ~ scalable food (multiplier_for key (str_lower text)) ->
  exists ex,
    analyze e text true (Some user_id) w = (Raise ex, w)
    /\ (exn_kind ex = OverflowError \/ exn_kind ex = ValueError).
Proof.
  intros Hid Hin Hkey Hno.
  destruct (check_each_unscalable _ _ _ _ Hin Hkey Hno) as (ex & Hex & Hkind).
  exists ex. split; [|exact Hkind].
  unfold analyze, given. destruct (Z.eqb_spec user_id 0) as [|_]; [contradiction|].
  rewrite M_bind_run. rewrite M_bind_run. cbn [get_world].
  unfold lift at 1. rewrite check_custom_foods_each, Hex. reflexivity.
Qed.
End MatcherFailure.

(** With 10^400 bananas the request of user 7 is not answered. *)
Lemma countless_bananas_raise :
  exists ex,
    @analyze basic_unicode example_builtins (env_at moscow_0330 offline)
      countless_bananas true (Some 7) pantry = (Raise ex, pantry)
    /\ (exn_kind ex = OverflowError \/ exn_kind ex = ValueError).
Proof.
  apply (@unscalable_quantity_leaves_analyze basic_unicode example_builtins
           (env_at moscow_0330 offline) countless_bananas 7 pantry banana (u "банан")).
  - discriminate.
  - vm_compute. tauto.
  - vm_compute. reflexivity.
  - intros (m & calories & Hm & _). vm_compute in Hm. discriminate.
Defined.
